(** * SerdeVal: format detection and validator dispatch

    A shallow embedding of the Go package [validator] (detection cascade,
    validator registry, structural validators) and the properties of its
    specification that are stated about it.

    Go strings and byte slices are byte sequences; both are modelled by
    [string] (a list of 8-bit [ascii] values), so the conversions
    [string(data)] and [[]byte(s)] are the identity. Loop indices, line
    numbers and pattern counts are non-negative and bounded by the length
    of the input, far from the range of Go's [int]; they are modelled by
    [nat]. [strings.LastIndex] answers -1 when there is no match and is
    modelled in [Z]. Loops that return from their body are recursive
    functions whose result says whether the body returned. *)

From Stdlib Require Import String Ascii ZArith Lia List Bool.
From Stdlib Require DecimalString.
From stdpp Require Import base strings gmap list.

Open Scope Z_scope.
Open Scope nat_scope.

(** ** The part of Go's [strings] package the validator uses *)

Module Strings.

(** [utf8.RuneSelf]: bytes below 0x80 are single-byte runes. *)
Definition isRuneSelf (c : ascii) : bool :=
  match c with Ascii _ _ _ _ _ _ _ b7 => b7 end.

Definition byteval (c : ascii) : nat := nat_of_ascii c.

Fixpoint len (s : string) : nat :=
  match s with
  | EmptyString => 0
  | String _ s' => S (len s')
  end.

(** [strings.HasPrefix(s, prefix)]. *)
Fixpoint HasPrefix (s prefix : string) : bool :=
  match prefix, s with
  | EmptyString, _ => true
  | String _ _, EmptyString => false
  | String p prefix', String c s' =>
      if decide (c = p) then HasPrefix s' prefix' else false
  end.

(** [strings.HasSuffix(s, suffix)]: the last [len(suffix)] bytes of [s]
    are [suffix]. *)
Definition HasSuffix (s suffix : string) : bool :=
  HasPrefix (String.rev s) (String.rev suffix).

(** [strings.Contains(s, substr)]: [substr] occurs at some offset. *)
Fixpoint Contains (s substr : string) : bool :=
  HasPrefix s substr ||
  match s with
  | EmptyString => false
  | String _ s' => Contains s' substr
  end.

Fixpoint inString (c : ascii) (chars : string) : bool :=
  match chars with
  | EmptyString => false
  | String d chars' => if decide (c = d) then true else inString c chars'
  end.

(** [strings.ContainsAny(s, chars)] for a set [chars] of ASCII bytes:
    some byte of [s] is in the set. *)
Fixpoint ContainsAny (s chars : string) : bool :=
  match s with
  | EmptyString => false
  | String c s' => inString c chars || ContainsAny s' chars
  end.

(** [strings.Count(s, sep)] for a one-byte separator, as at its only
    call sites ([Count(line, ",")]). *)
Fixpoint Count (s : string) (sep : ascii) : nat :=
  match s with
  | EmptyString => 0
  | String c s' => (if decide (c = sep) then 1 else 0) + Count s' sep
  end.

(** [strings.Split(s, sep)] for a one-byte separator, as at its call
    sites ([Split(s, "\n")]): always at least one field. *)
Fixpoint Split_go (cur : string) (s : string) (sep : ascii) : list string :=
  match s with
  | EmptyString => [String.rev cur]
  | String c s' =>
      if decide (c = sep) then String.rev cur :: Split_go EmptyString s' sep
      else Split_go (String c cur) s' sep
  end.
Definition Split (s : string) (sep : ascii) : list string :=
  Split_go EmptyString s sep.

(** [strings.LastIndex(s, sep)] for a one-byte separator: the offset of
    the last occurrence, or -1. [i] is the offset of the head of [s]. *)
Fixpoint LastIndex_from (i : Z) (s : string) (sep : ascii) : Z :=
  match s with
  | EmptyString => (-1)%Z
  | String c s' =>
      let r := LastIndex_from (i + 1)%Z s' sep in
      if (0 <=? r)%Z then r else if decide (c = sep) then i else (-1)%Z
  end.
Definition LastIndex (s : string) (sep : ascii) : Z := LastIndex_from 0%Z s sep.

(** The slice expression [s[i:]]. *)
Fixpoint drop (n : nat) (s : string) : string :=
  match n, s with
  | O, _ => s
  | S n', String _ s' => drop n' s'
  | S _, EmptyString => EmptyString
  end.
Definition sliceFrom (s : string) (i : Z) : string := drop (Z.to_nat i) s.

(** [strings.TrimPrefix(s, prefix)]. *)
Definition TrimPrefix (s prefix : string) : string :=
  if HasPrefix s prefix then drop (len prefix) s else s.

Fixpoint isASCII (s : string) : bool :=
  match s with
  | EmptyString => true
  | String c s' => negb (isRuneSelf c) && isASCII s'
  end.

Fixpoint mapBytes (f : ascii -> ascii) (s : string) : string :=
  match s with
  | EmptyString => EmptyString
  | String c s' => String (f c) (mapBytes f s')
  end.

Definition upperByte (c : ascii) : ascii :=
  if (97 <=? byteval c) && (byteval c <=? 122)
  then ascii_of_nat (byteval c - 32) else c.

Definition lowerByte (c : ascii) : ascii :=
  if (65 <=? byteval c) && (byteval c <=? 90)
  then ascii_of_nat (byteval c + 32) else c.

(** What the standard library does beyond ASCII depends on the Unicode
    tables ([unicode.IsSpace], [unicode.ToUpper], [unicode.ToLower]) and
    on UTF-8 decoding; those code paths are parameters of the model. *)
Record Unicode := {
  (** [TrimFunc(s, unicode.IsSpace)] *)
  TrimFunc_IsSpace : string -> string;
  (** [TrimRightFunc(s, unicode.IsSpace)] *)
  TrimRightFunc_IsSpace : string -> string;
  (** [Map(unicode.ToUpper, s)] *)
  Map_ToUpper : string -> string;
  (** [Map(unicode.ToLower, s)] *)
  Map_ToLower : string -> string;
}.

Section WithUnicode.
Context (U : Unicode).

(** Second loop of [TrimSpace], run on the reversed remainder: scan
    from the end for the first byte that is not ASCII space. *)
Fixpoint TrimSpace_stop (r : string) : string :=
  match r with
  | EmptyString => EmptyString
  | String c r' =>
      if isRuneSelf c then TrimRightFunc_IsSpace U (String.rev r)
      else if Ascii.is_space c then TrimSpace_stop r'
      else String.rev r
  end.

(** [strings.TrimSpace(s)]: the ASCII fast path, falling back to the
    Unicode-aware trim at the first non-ASCII byte met. *)
Fixpoint TrimSpace (s : string) : string :=
  match s with
  | EmptyString => EmptyString
  | String c s' =>
      if isRuneSelf c then TrimFunc_IsSpace U s
      else if Ascii.is_space c then TrimSpace s'
      else TrimSpace_stop (String.rev s)
  end.

(** [strings.ToUpper(s)]: byte-wise on ASCII-only strings. *)
Definition ToUpper (s : string) : string :=
  if isASCII s then mapBytes upperByte s else Map_ToUpper U s.

(** [strings.ToLower(s)]: byte-wise on ASCII-only strings. *)
Definition ToLower (s : string) : string :=
  if isASCII s then mapBytes lowerByte s else Map_ToLower U s.
End WithUnicode.

(** An instance for running the model on ASCII inputs, where the
    Unicode paths are never taken. *)
Definition ascii_only : Unicode :=
  {| TrimFunc_IsSpace := id; TrimRightFunc_IsSpace := id;
     Map_ToUpper := id; Map_ToLower := id |}.

(** [fmt.Sprintf("%d", n)] for a non-negative [n]. *)
Definition itoa (n : nat) : string :=
  DecimalString.NilZero.string_of_uint (Nat.to_uint n).

End Strings.

Import Strings.

Definition nl : ascii := "010"%char.
Definition dq : string := String "034"%char EmptyString.

(** ** Data model *)

(** [type Format string] *)
Definition Format : Type := string.

Definition FormatJSON : Format := "json".
Definition FormatYAML : Format := "yaml".
Definition FormatXML : Format := "xml".
Definition FormatTOML : Format := "toml".
Definition FormatCSV : Format := "csv".
Definition FormatGraphQL : Format := "graphql".
Definition FormatINI : Format := "ini".
Definition FormatHCL : Format := "hcl".
Definition FormatProtobuf : Format := "protobuf".
Definition FormatMarkdown : Format := "markdown".
Definition FormatJSONL : Format := "jsonl".
Definition FormatJupyter : Format := "jupyter".
Definition FormatRequirements : Format := "requirements".
Definition FormatDockerfile : Format := "dockerfile".
Definition FormatAuto : Format := "auto".
Definition FormatUnknown : Format := "unknown".

(** The keys of [validatorMap], in the order of the map literal. *)
Definition registeredFormats : list Format :=
  [ FormatJSON; FormatYAML; FormatXML; FormatTOML; FormatCSV; FormatGraphQL;
    FormatINI; FormatHCL; FormatProtobuf; FormatMarkdown; FormatJSONL;
    FormatJupyter; FormatRequirements; FormatDockerfile ].

(** [type Result struct] *)
Record Result := mkResult {
  Valid : bool;
  Format_ : Format;
  Error : string;
  FileName : string;
}.

(** ** Content-based detection *)

Section Detection.
Context (U : Unicode).

Definition isJupyterNotebook (trimmed : string) : bool :=
  HasPrefix trimmed "{" &&
  Contains trimmed (dq +:+ "cells" +:+ dq) &&
  Contains trimmed (dq +:+ "metadata" +:+ dq) &&
  Contains trimmed (dq +:+ "nbformat" +:+ dq).

Definition isJSONLine (line : string) : bool :=
  (HasPrefix line "{" && HasSuffix line "}") ||
  (HasPrefix line "[" && HasSuffix line "]").

(** The loop of [isJSONLines]: [None] when the body returned [false],
    otherwise the final value of [validLines]. *)
Fixpoint isJSONLines_loop (lines : list string) (validLines : nat) : option nat :=
  match lines with
  | [] => Some validLines
  | line :: rest =>
      let line := TrimSpace U line in
      if decide (line = EmptyString) then isJSONLines_loop rest validLines
      else if negb (isJSONLine line) then None
      else isJSONLines_loop rest (validLines + 1)
  end.

Definition isJSONLines (lines : list string) : bool :=
  if length lines <=? 1 then false
  else match isJSONLines_loop lines 0 with
       | None => false
       | Some validLines => 1 <? validLines
       end.

Definition isJSON (trimmed : string) : bool :=
  if len trimmed =? 0 then false
  else (HasPrefix trimmed "{" && HasSuffix trimmed "}") ||
       (HasPrefix trimmed "[" && HasSuffix trimmed "]").

Definition detectJSONFamily (trimmed : string) (lines : list string) : Format :=
  if isJupyterNotebook trimmed then FormatJupyter
  else if isJSONLines lines then FormatJSONL
  else if isJSON trimmed then FormatJSON
  else FormatUnknown.

Fixpoint countPatterns (text : string) (patterns : list string) : nat :=
  match patterns with
  | [] => 0
  | pattern :: rest =>
      (if Contains text pattern then 1 else 0) + countPatterns text rest
  end.

Definition isDockerfile (upperTrimmed : string) : bool :=
  let dockerKeywords :=
    [ "FROM "; "RUN "; "CMD "; "EXPOSE "; "ENV "; "ADD "; "COPY ";
      "ENTRYPOINT "; "VOLUME "; "USER "; "WORKDIR "; "ARG " ] in
  let dockerScore := countPatterns upperTrimmed dockerKeywords in
  Contains upperTrimmed "FROM " || (3 <=? dockerScore).

Definition isHCL (trimmed : string) : bool :=
  let hclPatterns :=
    [ "resource "; "variable "; "provider "; "module ";
      "output "; "locals "; "terraform "; "data " ] in
  let hclScore := countPatterns trimmed hclPatterns in
  (0 <? hclScore) &&
  Contains trimmed "=" &&
  Contains trimmed dq &&
  Contains trimmed "{".

Definition isGraphQL (trimmed : string) : bool :=
  let graphqlPatterns :=
    [ "query "; "mutation "; "subscription "; "fragment "; "type ";
      "interface "; "enum "; "input "; "scalar "; "schema " ] in
  let graphqlScore := countPatterns trimmed graphqlPatterns in
  if (graphqlScore =? 0) || negb (Contains trimmed "{") || negb (Contains trimmed "}")
  then false
  else Contains trimmed (String "{"%char (String nl EmptyString)) ||
       Contains trimmed "{ " || (2 <=? graphqlScore).

Definition isProtobuf (trimmed : string) : bool :=
  (Contains trimmed "type_url:" || Contains trimmed "value:") &&
  Contains trimmed dq.

Definition detectDeveloperFormats (trimmed : string) (lines : list string) : Format :=
  let upperTrimmed := ToUpper U trimmed in
  if isDockerfile upperTrimmed then FormatDockerfile
  else if isHCL trimmed then FormatHCL
  else if isGraphQL trimmed then FormatGraphQL
  else if isProtobuf trimmed then FormatProtobuf
  else FormatUnknown.

(** The loop [for i := 1; i < len(lines) && i < 5; i++] of [detectCSV];
    [n] bounds the iterations still to run. *)
Fixpoint detectCSV_loop (n i : nat) (lines : list string) (firstLineCommas : nat) : bool :=
  match n with
  | O => true
  | S n' =>
      if (i <? length lines) && (i <? 5) then
        match lines !! i with
        | Some line =>
            if negb (bool_decide (line = EmptyString)) &&
               negb (Count line ","%char =? firstLineCommas)
            then false
            else detectCSV_loop n' (i + 1) lines firstLineCommas
        | None => true
        end
      else true
  end.

Definition detectCSV (trimmed : string) (lines : list string) : bool :=
  if negb (Contains trimmed ",") || (length lines <=? 1) then false
  else
    match lines !! 0 with
    | None => false
    | Some line0 =>
        let firstLineCommas := Count line0 ","%char in
        if firstLineCommas =? 0 then false
        else detectCSV_loop 4 1 lines firstLineCommas
    end.

Definition detectMarkdown (trimmed : string) (lines : list string) : bool :=
  match lines with
  | [] => false
  | line0 :: _ =>
      HasPrefix line0 "#" ||
      Contains trimmed "```" ||
      Contains trimmed "**" ||
      Contains trimmed "~~" ||
      (Contains trimmed "[" && Contains trimmed "](")
  end.

Fixpoint detectRequirements_loop (lines : list string) : bool :=
  match lines with
  | [] => false
  | line :: rest =>
      let line := TrimSpace U line in
      if negb (bool_decide (line = EmptyString)) && negb (HasPrefix line "#") &&
         ContainsAny line "abcdefghijklmnopqrstuvwxyz"
      then true
      else detectRequirements_loop rest
  end.

Definition detectRequirements (trimmed : string) (lines : list string) : bool :=
  if negb (Contains trimmed "==") && negb (Contains trimmed ">=") &&
     negb (Contains trimmed "<=") && negb (Contains trimmed "~=")
  then false
  else detectRequirements_loop lines.

Definition detectDataFormats (trimmed : string) (lines : list string) : Format :=
  if detectCSV trimmed lines then FormatCSV
  else if detectMarkdown trimmed lines then FormatMarkdown
  else if detectRequirements trimmed lines then FormatRequirements
  else FormatUnknown.

Definition isXML (trimmed : string) : bool :=
  HasPrefix trimmed "<?xml" ||
  (HasPrefix trimmed "<" && Contains trimmed ">").

Fixpoint isINI_loop (lines : list string) : bool :=
  match lines with
  | [] => false
  | line :: rest =>
      let line := TrimSpace U line in
      if HasPrefix line "[" && HasSuffix line "]" then true
      else isINI_loop rest
  end.

Definition isINI (trimmed : string) (lines : list string) : bool :=
  if negb (Contains trimmed "[") || negb (Contains trimmed "]") then false
  else isINI_loop lines.

Definition isYAML (trimmed : string) : bool :=
  if Contains trimmed "---" then true
  else if negb (Contains trimmed ":") || Contains trimmed "://" then false
  else if Contains trimmed "type_url:" || Contains trimmed "value:" then false
  else Contains trimmed ": " || HasSuffix trimmed ":".

Definition isTOML (trimmed : string) : bool :=
  if negb (Contains trimmed "=") || Contains trimmed ":" then false
  else negb (HasPrefix trimmed "{") &&
       negb (HasPrefix trimmed "[") &&
       negb (HasPrefix trimmed "<").

Definition detectConfigFormats (trimmed : string) (lines : list string) : Format :=
  if isXML trimmed then FormatXML
  else if isINI trimmed lines then FormatINI
  else if isYAML trimmed then FormatYAML
  else if isTOML trimmed then FormatTOML
  else FormatUnknown.

Definition DetectFormat (data : string) : Format :=
  let trimmed := TrimSpace U data in
  if len trimmed =? 0 then FormatUnknown
  else
    let lines := Split trimmed nl in
    let format := detectJSONFamily trimmed lines in
    if negb (bool_decide (format = FormatUnknown)) then format
    else
      let format := detectDeveloperFormats trimmed lines in
      if negb (bool_decide (format = FormatUnknown)) then format
      else
        let format := detectDataFormats trimmed lines in
        if negb (bool_decide (format = FormatUnknown)) then format
        else
          let format := detectConfigFormats trimmed lines in
          if negb (bool_decide (format = FormatUnknown)) then format
          else FormatUnknown.

End Detection.

(** ** External parsers and the record of their invocations *)

(** Go's [error]: [None] is [nil], [Some msg] an error whose [Error()]
    is [msg]. *)
Definition error : Type := option string.

(** [errorString] returns empty string if error is nil. *)
Definition errorString (err : error) : string :=
  match err with
  | None => EmptyString
  | Some msg => msg
  end.

(** The parsing libraries the validators call. Their code is not part of
    the package; each is a parameter. [json_Unmarshal_map] is
    [json.Unmarshal] into a [map[string]interface{}] and yields the error
    together with the keys of the decoded map. *)
Record Parsers := {
  json_Unmarshal : string -> error;
  json_Unmarshal_map : string -> error * gset string;
  yaml_Unmarshal : string -> error;
  xml_Unmarshal : string -> error;
  toml_Unmarshal : string -> error;
  csv_ReadAll : string -> error;
  graphql_Parse : string -> error;
  ini_Load : string -> error;
  Diagnostics : Type;
  hclsyntax_ParseConfig : string -> Diagnostics;
  HasErrors : Diagnostics -> bool;
  Diagnostics_Error : Diagnostics -> string;
  prototext_Unmarshal : string -> error;
  goldmark_Convert : string -> error;
}.

Inductive ParserId :=
  | PJSON | PJSONMap | PYAML | PXML | PTOML | PCSV | PGraphQL | PINI | PHCL
  | PProtobuf | PMarkdown.

Global Instance ParserId_eq_dec : EqDecision ParserId.
Proof. solve_decision. Defined.

(** One call into a parsing library: which one, and on which bytes. *)
Definition Call : Type := ParserId * string.

(** A computation together with the parser calls it made, in order. *)
Definition Traced (A : Type) : Type := A * list Call.

Definition ret {A} (a : A) : Traced A := (a, []).

Definition bind {A B} (m : Traced A) (k : A -> Traced B) : Traced B :=
  let (b, t) := k (fst m) in (b, snd m ++ t).

Definition invoke {A} (p : ParserId) (input : string) (r : A) : Traced A :=
  (r, [(p, input)]).

Declare Scope traced_scope.
Delimit Scope traced_scope with traced.
Notation "x <- m ;; k" := (bind m (fun x => k))
  (at level 100, m at next level, right associativity) : traced_scope.
Open Scope traced_scope.

(** The outcome of a computation, and the calls it made. *)
Definition outcome {A} (m : Traced A) : A := fst m.
Definition calls {A} (m : Traced A) : list Call := snd m.

(** ** Validators *)

Record baseValidator := { format : Format }.

(** The fourteen implementations of the [Validator] interface. *)
Inductive Validator :=
  | JSONValidator (b : baseValidator)
  | YAMLValidator (b : baseValidator)
  | XMLValidator (b : baseValidator)
  | TOMLValidator (b : baseValidator)
  | CSVValidator (b : baseValidator)
  | GraphQLValidator (b : baseValidator)
  | INIValidator (b : baseValidator)
  | HCLValidator (b : baseValidator)
  | ProtobufValidator (b : baseValidator)
  | MarkdownValidator (b : baseValidator)
  | JSONLValidator (b : baseValidator)
  | JupyterValidator (b : baseValidator)
  | RequirementsValidator (b : baseValidator)
  | DockerfileValidator (b : baseValidator).

Definition base (v : Validator) : baseValidator :=
  match v with
  | JSONValidator b | YAMLValidator b | XMLValidator b | TOMLValidator b
  | CSVValidator b | GraphQLValidator b | INIValidator b | HCLValidator b
  | ProtobufValidator b | MarkdownValidator b | JSONLValidator b
  | JupyterValidator b | RequirementsValidator b | DockerfileValidator b => b
  end.

(** [func (v baseValidator) Format() Format] *)
Definition Validator_Format (v : Validator) : Format := format (base v).

Definition validInstructions : list string :=
  [ "FROM"; "RUN"; "CMD"; "LABEL"; "EXPOSE"; "ENV"; "ADD"; "COPY";
    "ENTRYPOINT"; "VOLUME"; "USER"; "WORKDIR"; "ARG"; "ONBUILD"; "STOPSIGNAL";
    "HEALTHCHECK"; "SHELL" ].

Section Validators.
Context (U : Unicode) (P : Parsers).

(** The shape shared by the validators that only call a parser:
    [Result{Valid: err == nil, Format: v.format, Error: errorString(err)}]. *)
Definition resultOf (v : baseValidator) (err : error) : Result :=
  {| Valid := bool_decide (err = None); Format_ := format v;
     Error := errorString err; FileName := EmptyString |}.

Definition failure (v : baseValidator) (msg : string) : Result :=
  {| Valid := false; Format_ := format v; Error := msg; FileName := EmptyString |}.

Definition success (v : baseValidator) : Result :=
  {| Valid := true; Format_ := format v; Error := EmptyString; FileName := EmptyString |}.

Definition JSONValidator_Validate (v : baseValidator) (data : string) : Traced Result :=
  err <- invoke PJSON data (json_Unmarshal P data) ;;
  ret (resultOf v err).

Definition YAMLValidator_Validate (v : baseValidator) (data : string) : Traced Result :=
  err <- invoke PYAML data (yaml_Unmarshal P data) ;;
  ret (resultOf v err).

Definition XMLValidator_Validate (v : baseValidator) (data : string) : Traced Result :=
  err <- invoke PXML data (xml_Unmarshal P data) ;;
  ret (resultOf v err).

Definition TOMLValidator_Validate (v : baseValidator) (data : string) : Traced Result :=
  err <- invoke PTOML data (toml_Unmarshal P data) ;;
  ret (resultOf v err).

Definition CSVValidator_Validate (v : baseValidator) (data : string) : Traced Result :=
  err <- invoke PCSV data (csv_ReadAll P data) ;;
  ret (resultOf v err).

Definition GraphQLValidator_Validate (v : baseValidator) (data : string) : Traced Result :=
  if len data =? 0 then ret (failure v "empty GraphQL content")
  else
    err <- invoke PGraphQL data (graphql_Parse P data) ;;
    ret (resultOf v err).

Definition INIValidator_Validate (v : baseValidator) (data : string) : Traced Result :=
  err <- invoke PINI data (ini_Load P data) ;;
  ret (resultOf v err).

Definition HCLValidator_Validate (v : baseValidator) (data : string) : Traced Result :=
  diags <- invoke PHCL data (hclsyntax_ParseConfig P data) ;;
  let errStr := if HasErrors P diags then Diagnostics_Error P diags else EmptyString in
  ret {| Valid := negb (HasErrors P diags); Format_ := format v;
         Error := errStr; FileName := EmptyString |}.

Definition ProtobufValidator_Validate (v : baseValidator) (data : string) : Traced Result :=
  err <- invoke PProtobuf data (prototext_Unmarshal P data) ;;
  ret (resultOf v err).

Definition MarkdownValidator_Validate (v : baseValidator) (data : string) : Traced Result :=
  err <- invoke PMarkdown data (goldmark_Convert P data) ;;
  ret (resultOf v err).

(** The loop of [JSONLValidator.Validate] from index [i] on: [Some r]
    when the body returned [r], [None] when the loop ran to its end. *)
Fixpoint JSONLValidator_loop (v : baseValidator) (i : nat) (lines : list string)
  : Traced (option Result) :=
  match lines with
  | [] => ret None
  | line :: rest =>
      let line := TrimSpace U line in
      if decide (line = EmptyString) then JSONLValidator_loop v (i + 1) rest
      else
        err <- invoke PJSON line (json_Unmarshal P line) ;;
        match err with
        | Some msg =>
            ret (Some (failure v ("invalid JSON on line " +:+ itoa (i + 1) +:+ ": " +:+ msg)))
        | None => JSONLValidator_loop v (i + 1) rest
        end
  end.

Definition JSONLValidator_Validate (v : baseValidator) (data : string) : Traced Result :=
  if len data =? 0 then ret (success v)
  else
    let lines := Split data nl in
    r <- JSONLValidator_loop v 0 lines ;;
    match r with
    | Some res => ret res
    | None => ret (success v)
    end.

Definition JupyterValidator_Validate (v : baseValidator) (data : string) : Traced Result :=
  r <- invoke PJSONMap data (json_Unmarshal_map P data) ;;
  let (err, notebook) := r : error * gset string in
  match err with
  | Some msg => ret (failure v ("invalid JSON: " +:+ msg))
  | None =>
      if negb (bool_decide ("cells" ∈ notebook))
      then ret (failure v "missing required field: cells")
      else if negb (bool_decide ("metadata" ∈ notebook))
      then ret (failure v "missing required field: metadata")
      else if negb (bool_decide ("nbformat" ∈ notebook))
      then ret (failure v "missing required field: nbformat")
      else ret (success v)
  end.

Fixpoint RequirementsValidator_loop (v : baseValidator) (i : nat) (lines : list string)
  : option Result :=
  match lines with
  | [] => None
  | line :: rest =>
      let line := TrimSpace U line in
      if bool_decide (line = EmptyString) || HasPrefix line "#"
      then RequirementsValidator_loop v (i + 1) rest
      else if negb (ContainsAny line
                "abcdefghijklmnopqrstuvwxyzABCDEFGHIJKLMNOPQRSTUVWXYZ0123456789_-")
      then Some (failure v ("invalid requirement on line " +:+ itoa (i + 1) +:+ ": " +:+ line))
      else RequirementsValidator_loop v (i + 1) rest
  end.

Definition RequirementsValidator_Validate (v : baseValidator) (data : string) : Traced Result :=
  let lines := Split data nl in
  match RequirementsValidator_loop v 0 lines with
  | Some res => ret res
  | None => ret (success v)
  end.

(** The inner loop over [validInstructions], with its [break]. *)
Fixpoint hasValidInstruction (upperLine : string) (instructions : list string) : bool :=
  match instructions with
  | [] => false
  | instruction :: rest =>
      if HasPrefix upperLine (instruction +:+ " ") || bool_decide (upperLine = instruction)
      then true
      else hasValidInstruction upperLine rest
  end.

(** The loop of [DockerfileValidator.Validate] from index [i] on, over
    the lines [rest] still to visit; [lines] is the whole slice, read at
    [i-1] for continuations. [inl r]: the body returned [r]; [inr h]:
    the loop ended with [hasFrom = h]. *)
Fixpoint DockerfileValidator_loop (v : baseValidator) (lines : list string)
    (i : nat) (rest : list string) (hasFrom : bool) : Result + bool :=
  match rest with
  | [] => inr hasFrom
  | line :: rest' =>
      let line := TrimSpace U line in
      if bool_decide (line = EmptyString) || HasPrefix line "#"
      then DockerfileValidator_loop v lines (i + 1) rest' hasFrom
      else
        let hasFrom := if HasPrefix (ToUpper U line) "FROM " then true else hasFrom in
        let upperLine := ToUpper U line in
        let valid := hasValidInstruction upperLine validInstructions in
        if (0 <? i) &&
           match lines !! (i - 1) with
           | Some prev => HasSuffix prev "\"
           | None => false
           end
        then DockerfileValidator_loop v lines (i + 1) rest' hasFrom
        else if negb valid
        then inl (failure v ("invalid instruction on line " +:+ itoa (i + 1) +:+ ": " +:+ line))
        else DockerfileValidator_loop v lines (i + 1) rest' hasFrom
  end.

Definition DockerfileValidator_Validate (v : baseValidator) (data : string) : Traced Result :=
  let lines := Split data nl in
  match DockerfileValidator_loop v lines 0 lines false with
  | inl res => ret res
  | inr hasFrom =>
      if negb hasFrom then ret (failure v "missing required FROM instruction")
      else ret (success v)
  end.

(** Method dispatch of the [Validator] interface. *)
Definition Validate (val : Validator) (data : string) : Traced Result :=
  match val with
  | JSONValidator b => JSONValidator_Validate b data
  | YAMLValidator b => YAMLValidator_Validate b data
  | XMLValidator b => XMLValidator_Validate b data
  | TOMLValidator b => TOMLValidator_Validate b data
  | CSVValidator b => CSVValidator_Validate b data
  | GraphQLValidator b => GraphQLValidator_Validate b data
  | INIValidator b => INIValidator_Validate b data
  | HCLValidator b => HCLValidator_Validate b data
  | ProtobufValidator b => ProtobufValidator_Validate b data
  | MarkdownValidator b => MarkdownValidator_Validate b data
  | JSONLValidator b => JSONLValidator_Validate b data
  | JupyterValidator b => JupyterValidator_Validate b data
  | RequirementsValidator b => RequirementsValidator_Validate b data
  | DockerfileValidator b => DockerfileValidator_Validate b data
  end.

(** [ValidateString(data)] is [Validate([]byte(data))] in each of them. *)
Definition ValidateString (val : Validator) (data : string) : Traced Result :=
  Validate val data.

End Validators.

(** ** Registry *)

(** [validatorMap] maps formats to their validator constructors. *)
Definition validatorMap : gmap Format (unit -> Validator) :=
  list_to_map
    [ (FormatJSON, fun _ => JSONValidator {| format := FormatJSON |});
      (FormatYAML, fun _ => YAMLValidator {| format := FormatYAML |});
      (FormatXML, fun _ => XMLValidator {| format := FormatXML |});
      (FormatTOML, fun _ => TOMLValidator {| format := FormatTOML |});
      (FormatCSV, fun _ => CSVValidator {| format := FormatCSV |});
      (FormatGraphQL, fun _ => GraphQLValidator {| format := FormatGraphQL |});
      (FormatINI, fun _ => INIValidator {| format := FormatINI |});
      (FormatHCL, fun _ => HCLValidator {| format := FormatHCL |});
      (FormatProtobuf, fun _ => ProtobufValidator {| format := FormatProtobuf |});
      (FormatMarkdown, fun _ => MarkdownValidator {| format := FormatMarkdown |});
      (FormatJSONL, fun _ => JSONLValidator {| format := FormatJSONL |});
      (FormatJupyter, fun _ => JupyterValidator {| format := FormatJupyter |});
      (FormatRequirements, fun _ => RequirementsValidator {| format := FormatRequirements |});
      (FormatDockerfile, fun _ => DockerfileValidator {| format := FormatDockerfile |}) ].

(** [NewValidator]: the validator, or the message of the error. *)
Definition NewValidator (format : Format) : Validator + string :=
  match validatorMap !! format with
  | None => inr ("unsupported format: " +:+ format)
  | Some constructor => inl (constructor tt)
  end.

Section Auto.
Context (U : Unicode) (P : Parsers).

Definition ValidateAuto (data : string) : Traced Result :=
  let format := DetectFormat U data in
  if bool_decide (format = FormatUnknown) then
    ret {| Valid := false; Format_ := FormatUnknown;
           Error := "unable to detect format"; FileName := EmptyString |}
  else
    match NewValidator format with
    | inr err =>
        ret {| Valid := false; Format_ := format; Error := err; FileName := EmptyString |}
    | inl validator => Validate U P validator data
    end.
End Auto.

(** ** Filename-based detection *)

(** [extensionMap] maps file extensions to formats. *)
Definition extensionMap : gmap string Format :=
  list_to_map
    [ ("json", FormatJSON); ("yaml", FormatYAML); ("yml", FormatYAML);
      ("xml", FormatXML); ("toml", FormatTOML); ("csv", FormatCSV);
      ("graphql", FormatGraphQL); ("gql", FormatGraphQL);
      ("ini", FormatINI); ("cfg", FormatINI); ("conf", FormatINI);
      ("hcl", FormatHCL); ("tf", FormatHCL); ("tfvars", FormatHCL);
      ("pb", FormatProtobuf); ("proto", FormatProtobuf);
      ("textproto", FormatProtobuf); ("pbtxt", FormatProtobuf);
      ("md", FormatMarkdown); ("markdown", FormatMarkdown); ("mkd", FormatMarkdown);
      ("mdwn", FormatMarkdown); ("mdown", FormatMarkdown); ("mdtxt", FormatMarkdown);
      ("mdtext", FormatMarkdown);
      ("jsonl", FormatJSONL); ("ndjson", FormatJSONL); ("jsonlines", FormatJSONL);
      ("ipynb", FormatJupyter);
      ("dockerfile", FormatDockerfile); ("containerfile", FormatDockerfile) ].

Section Filename.
Context (U : Unicode).

Definition DetectFormatFromFilename (filename : string) : Format :=
  let baseName := ToLower U (sliceFrom filename (LastIndex filename "/"%char + 1)%Z) in
  let dockerfileName := "dockerfile" in
  if bool_decide (baseName = dockerfileName) || HasPrefix baseName (dockerfileName +:+ ".")
  then FormatDockerfile
  else
    let lastDot := LastIndex filename "."%char in
    if (lastDot =? -1)%Z then FormatUnknown
    else
      let ext := ToLower U (TrimPrefix (sliceFrom filename lastDot) ".") in
      if bool_decide (ext = "txt") && Contains (ToLower U filename) "requirements"
      then FormatRequirements
      else
        match extensionMap !! ext with
        | Some format => format
        | None => FormatUnknown
        end.
End Filename.

(** ** Test doubles

    Stand-ins for the parsing libraries, used to run the model on concrete
    inputs: the JSON double accepts exactly the texts wrapped in braces or
    brackets, the others accept every non-empty text. *)

Definition toy_json (s : string) : error :=
  if isJSONLine s then None else Some "invalid character".

Definition toy_accept (s : string) : error :=
  if len s =? 0 then Some "unexpected end of input" else None.

Definition toy_parsers : Parsers :=
  {| json_Unmarshal := toy_json;
     json_Unmarshal_map := fun s => (toy_json s, ∅);
     yaml_Unmarshal := toy_accept;
     xml_Unmarshal := toy_accept;
     toml_Unmarshal := toy_accept;
     csv_ReadAll := toy_accept;
     graphql_Parse := toy_accept;
     ini_Load := toy_accept;
     Diagnostics := list string;
     hclsyntax_ParseConfig := fun s => if len s =? 0 then ["unexpected end of input"] else [];
     HasErrors := fun d => negb (bool_decide (d = []));
     Diagnostics_Error := fun d => default "no diagnostics" (head d);
     prototext_Unmarshal := toy_accept;
     goldmark_Convert := toy_accept |}.

(** Lines joined by newlines. *)
Fixpoint lines_of (ls : list string) : string :=
  match ls with
  | [] => EmptyString
  | [l] => l
  | l :: rest => l +:+ String nl (lines_of rest)
  end.

(** ** Notions used to state the properties *)

(** Every tag a detection family can return is registered or [unknown]. *)
Definition detectable (f : Format) : Prop :=
  f = FormatUnknown ∨ f ∈ registeredFormats.

(** The invariant of [Result]: an error text only on an invalid outcome. *)
Definition errorOnlyWhenInvalid (res : Result) : Prop :=
  Valid res = true → Error res = EmptyString.

(** A buffer of ASCII white space only (possibly empty). *)
Fixpoint allSpace (s : string) : bool :=
  match s with
  | EmptyString => true
  | String c s' => negb (isRuneSelf c) && Ascii.is_space c && allSpace s'
  end.

(** The outcome [ValidateAuto] gives when detection fails. *)
Definition undetected : Result :=
  {| Valid := false; Format_ := FormatUnknown;
     Error := "unable to detect format"; FileName := EmptyString |}.

(** The notebook of the specification's example. *)
Definition notebook_sample : string :=
  "{" +:+ dq +:+ "cells" +:+ dq +:+ ":[]," +:+ dq +:+ "metadata" +:+ dq +:+ ":{}," +:+
  dq +:+ "nbformat" +:+ dq +:+ ":4}".

(** The formats whose validators carry structural checks of their own. *)
Definition structuralFormats : list Format :=
  [ FormatJupyter; FormatJSONL; FormatRequirements; FormatDockerfile ].

(** An object printed over three lines. *)
Definition printed_object : string := lines_of ["{"; "  x"; "}"].

Section Notions.
Context (U : Unicode).

(** The families tried once the JSON family found nothing. *)
Definition laterFamilies (trimmed : string) (lines : list string) : Format :=
  let format := detectDeveloperFormats U trimmed lines in
  if negb (bool_decide (format = FormatUnknown)) then format
  else
    let format := detectDataFormats U trimmed lines in
    if negb (bool_decide (format = FormatUnknown)) then format
    else detectConfigFormats U trimmed lines.

(** A text that starts with an opening brace and ends with a closing
    brace, or starts with an opening bracket and ends with a closing
    bracket. *)
Definition wrappedText (t : string) : Prop :=
  (HasPrefix t "{" = true ∧ HasSuffix t "}" = true) ∨
  (HasPrefix t "[" = true ∧ HasSuffix t "]" = true).

(** The text of a Jupyter notebook as detection sees it: an opening
    brace first, and the three quoted names somewhere. *)
Definition notebookText (t : string) : Prop :=
  HasPrefix t "{" = true ∧
  Contains t (dq +:+ "cells" +:+ dq) = true ∧
  Contains t (dq +:+ "metadata" +:+ dq) = true ∧
  Contains t (dq +:+ "nbformat" +:+ dq) = true.

(** A line counts for JSON-Lines when it is not blank and, trimmed,
    is wrapped in braces or in brackets. *)
Definition qualifies (line : string) : Prop :=
  TrimSpace U line ≠ EmptyString ∧ wrappedText (TrimSpace U line).

(** A non-blank line that fails the shape check. *)
Definition malformed (line : string) : Prop :=
  TrimSpace U line ≠ EmptyString ∧ ¬ wrappedText (TrimSpace U line).

(** JSON-Lines as the specification words it: more than one line, no
    malformed line, more than one qualifying line. *)
Definition JSONLinesShape (lines : list string) : Prop :=
  1 < length lines ∧
  (∀ line, line ∈ lines → ¬ malformed line) ∧
  1 < length (filter qualifies lines).

(** Detection answers with what the families after the JSON family say. *)
Definition fallsThroughToLaterFamilies (data : string) : Prop :=
  DetectFormat U data =
    laterFamilies (TrimSpace U data) (Split (TrimSpace U data) nl).

Global Instance wrappedText_dec t : Decision (wrappedText t).
Proof. unfold wrappedText. apply _. Defined.

Global Instance qualifies_dec line : Decision (qualifies line).
Proof. unfold qualifies. apply _. Defined.

Global Instance malformed_dec line : Decision (malformed line).
Proof. unfold malformed. apply _. Defined.

End Notions.

(** What follows the last occurrence of [sep] in [s], if [sep] occurs. *)
Fixpoint afterLast (s : string) (sep : ascii) : option string :=
  match s with
  | EmptyString => None
  | String c s' =>
      match afterLast s' sep with
      | Some t => Some t
      | None => if decide (c = sep) then Some s' else None
      end
  end.

(** The last field of [Split s sep]. *)
Definition lastField (s : string) (sep : ascii) : string :=
  default EmptyString (last (Split s sep)).

Section FilenameNotions.
Context (U : Unicode).

(** Filename detection in the order the specification gives: the
    Dockerfile names, names without a dot, requirements files, then the
    extension table. *)
Definition filenameRule (filename : string) : Format :=
  let segment := ToLower U (lastField filename "/"%char) in
  if decide (segment = "dockerfile" ∨ HasPrefix segment "dockerfile." = true)
  then FormatDockerfile
  else if negb (Contains filename ".") then FormatUnknown
  else
    let extension := ToLower U (lastField filename "."%char) in
    if decide (extension = "txt" ∧
               Contains (ToLower U filename) "requirements" = true)
    then FormatRequirements
    else default FormatUnknown (extensionMap !! extension).

End FilenameNotions.

Section ValidatorNotions.
Context (U : Unicode) (P : Parsers).

(** A non-blank line whose trimmed text the JSON parser rejects. *)
Definition rejected (line : string) : Prop :=
  TrimSpace U line ≠ EmptyString ∧ json_Unmarshal P (TrimSpace U line) ≠ None.

Global Instance rejected_dec line : Decision (rejected line).
Proof. unfold rejected. apply _. Defined.

(** A line that holds a FROM instruction, as the Dockerfile validator
    tests it. *)
Definition isFromLine (line : string) : bool :=
  HasPrefix (ToUpper U (TrimSpace U line)) "FROM ".

(** The HCL parser seen as the other parsers are: no error when the
    diagnostics hold none, else the text of the diagnostics. *)
Definition hcl_parse (data : string) : error :=
  let diags := hclsyntax_ParseConfig P data in
  if HasErrors P diags then Some (Diagnostics_Error P diags) else None.

(** The parsing library behind a format tag, for the ten formats whose
    validator has no structural check of its own. *)
Definition externalParser (f : Format) : option (ParserId * (string → error)) :=
  if decide (f = FormatJSON) then Some (PJSON, json_Unmarshal P)
  else if decide (f = FormatYAML) then Some (PYAML, yaml_Unmarshal P)
  else if decide (f = FormatXML) then Some (PXML, xml_Unmarshal P)
  else if decide (f = FormatTOML) then Some (PTOML, toml_Unmarshal P)
  else if decide (f = FormatCSV) then Some (PCSV, csv_ReadAll P)
  else if decide (f = FormatGraphQL) then Some (PGraphQL, graphql_Parse P)
  else if decide (f = FormatINI) then Some (PINI, ini_Load P)
  else if decide (f = FormatHCL) then Some (PHCL, hcl_parse)
  else if decide (f = FormatProtobuf) then Some (PProtobuf, prototext_Unmarshal P)
  else if decide (f = FormatMarkdown) then Some (PMarkdown, goldmark_Convert P)
  else None.

(** A validator that is a pure pass-through of the parser [parse]: on
    every input it calls the parser once, on that input, and a failure
    carries the parser's message. *)
Definition passesThrough (validator : Validator) (p : ParserId)
    (parse : string → error) : Prop :=
  ∀ data,
    calls (Validate U P validator data) = [(p, data)] ∧
    (Valid (outcome (Validate U P validator data)) = false →
     Error (outcome (Validate U P validator data)) = errorString (parse data)).

End ValidatorNotions.

(** ** Notions for the further properties of detection *)

(** The answer of an ordered list of tests: the tag of the first test
    that holds, [unknown] when none does. *)
Fixpoint firstMatch (tests : list (bool * Format)) : Format :=
  match tests with
  | [] => FormatUnknown
  | (true, f) :: _ => f
  | (false, _) :: rest => firstMatch rest
  end.

Section DetectionOrder.
Context (U : Unicode).

(** The fourteen heuristics in the order the four families try them. *)
Definition detectionOrder (trimmed : string) (lines : list string)
  : list (bool * Format) :=
  [ (isJupyterNotebook trimmed, FormatJupyter);
    (isJSONLines U lines, FormatJSONL);
    (isJSON trimmed, FormatJSON);
    (isDockerfile (ToUpper U trimmed), FormatDockerfile);
    (isHCL trimmed, FormatHCL);
    (isGraphQL trimmed, FormatGraphQL);
    (isProtobuf trimmed, FormatProtobuf);
    (detectCSV trimmed lines, FormatCSV);
    (detectMarkdown trimmed lines, FormatMarkdown);
    (detectRequirements U trimmed lines, FormatRequirements);
    (isXML trimmed, FormatXML);
    (isINI U trimmed lines, FormatINI);
    (isYAML trimmed, FormatYAML);
    (isTOML trimmed, FormatTOML) ].

End DetectionOrder.

(** CSV as [detectCSV] tests it: a comma somewhere, more than one line,
    a comma in the first line, and the same number of commas in each of
    the lines 2 to 5 that is not empty. *)
Definition csvShape (trimmed : string) (lines : list string) : Prop :=
  Contains trimmed "," = true ∧
  1 < length lines ∧
  ∃ line0, lines !! 0 = Some line0 ∧
    0 < Count line0 ","%char ∧
    ∀ i line, 1 ≤ i < 5 → lines !! i = Some line → line ≠ EmptyString →
              Count line ","%char = Count line0 ","%char.

Section LineNotions.
Context (U : Unicode).

(** A line that names a package for [detectRequirements]: not blank, not
    a comment, with a lower-case letter. *)
Definition namesPackage (line : string) : Prop :=
  TrimSpace U line ≠ EmptyString ∧
  HasPrefix (TrimSpace U line) "#" = false ∧
  ContainsAny (TrimSpace U line) "abcdefghijklmnopqrstuvwxyz" = true.

(** A line that is an INI section header for [isINI]. *)
Definition isSectionHeader (line : string) : Prop :=
  HasPrefix (TrimSpace U line) "[" = true ∧ HasSuffix (TrimSpace U line) "]" = true.

Global Instance namesPackage_dec line : Decision (namesPackage line).
Proof. unfold namesPackage. apply _. Defined.

Global Instance isSectionHeader_dec line : Decision (isSectionHeader line).
Proof. unfold isSectionHeader. apply _. Defined.

End LineNotions.

(** ** Notions for the further properties of the validators *)

(** Line [i] of [lines] continues line [i-1]: the raw previous line ends
    with a backslash. *)
Definition continuationAt (lines : list string) (i : nat) : bool :=
  (0 <? i) &&
  match lines !! (i - 1) with
  | Some prev => HasSuffix prev "\"
  | None => false
  end.

Section LineChecks.
Context (U : Unicode).

(** A line the structural validators skip: blank, or a comment. *)
Definition skippedLine (line : string) : bool :=
  bool_decide (TrimSpace U line = EmptyString) || HasPrefix (TrimSpace U line) "#".

(** A line the Dockerfile validator rejects: not skipped, not a
    continuation, and not starting with an instruction keyword. *)
Definition offendingAt (lines : list string) (i : nat) (line : string) : bool :=
  negb (skippedLine line) && negb (continuationAt lines i) &&
  negb (hasValidInstruction (ToUpper U (TrimSpace U line)) validInstructions).

(** A line that satisfies the FROM requirement: not skipped and
    starting, upper-cased, with [FROM ]. *)
Definition countsAsFrom (line : string) : bool :=
  negb (skippedLine line) && isFromLine U line.

(** A line the Requirements validator rejects: not skipped and without
    any letter, digit, underscore or hyphen. *)
Definition badRequirement (line : string) : bool :=
  negb (skippedLine line) &&
  negb (ContainsAny (TrimSpace U line)
          "abcdefghijklmnopqrstuvwxyzABCDEFGHIJKLMNOPQRSTUVWXYZ0123456789_-").

(** The trimmed texts of the non-blank lines, in order. *)
Definition nonBlankTexts (lines : list string) : list string :=
  filter (λ t, t ≠ EmptyString) (TrimSpace U <$> lines).

End LineChecks.

(** ** The earlier, switch-based versions of the registry and of the
    extension table *)

Module Earlier.

(** [NewValidator] as a [switch] over the format, before [validatorMap]
    replaced it. *)
Definition NewValidator (format : Format) : Validator + string :=
  if decide (format = FormatJSON) then inl (JSONValidator {| format := FormatJSON |})
  else if decide (format = FormatYAML) then inl (YAMLValidator {| format := FormatYAML |})
  else if decide (format = FormatXML) then inl (XMLValidator {| format := FormatXML |})
  else if decide (format = FormatTOML) then inl (TOMLValidator {| format := FormatTOML |})
  else if decide (format = FormatCSV) then inl (CSVValidator {| format := FormatCSV |})
  else if decide (format = FormatGraphQL)
       then inl (GraphQLValidator {| format := FormatGraphQL |})
  else if decide (format = FormatINI) then inl (INIValidator {| format := FormatINI |})
  else if decide (format = FormatHCL) then inl (HCLValidator {| format := FormatHCL |})
  else if decide (format = FormatProtobuf)
       then inl (ProtobufValidator {| format := FormatProtobuf |})
  else if decide (format = FormatMarkdown)
       then inl (MarkdownValidator {| format := FormatMarkdown |})
  else if decide (format = FormatJSONL) then inl (JSONLValidator {| format := FormatJSONL |})
  else if decide (format = FormatJupyter)
       then inl (JupyterValidator {| format := FormatJupyter |})
  else if decide (format = FormatRequirements)
       then inl (RequirementsValidator {| format := FormatRequirements |})
  else if decide (format = FormatDockerfile)
       then inl (DockerfileValidator {| format := FormatDockerfile |})
  else if decide (format = FormatAuto ∨ format = FormatUnknown)
       then inr ("unsupported format: " +:+ format)
  else inr ("unsupported format: " +:+ format).

(** Membership of [ext] in the value list of one [case]. *)
Definition oneOf (ext : string) (values : list string) : bool :=
  bool_decide (ext ∈ values).

Section WithUnicode.
Context (U : Unicode).

(** [DetectFormatFromFilename] as a [switch] over the extension, before
    [extensionMap] replaced it. *)
Definition DetectFormatFromFilename (filename : string) : Format :=
  let baseName := ToLower U (sliceFrom filename (LastIndex filename "/"%char + 1)%Z) in
  if bool_decide (baseName = "dockerfile") || HasPrefix baseName "dockerfile."
  then FormatDockerfile
  else
    let lastDot := LastIndex filename "."%char in
    if (lastDot =? -1)%Z then FormatUnknown
    else
      let ext := ToLower U (TrimPrefix (sliceFrom filename lastDot) ".") in
      if oneOf ext ["json"] then FormatJSON
      else if oneOf ext ["yaml"; "yml"] then FormatYAML
      else if oneOf ext ["xml"] then FormatXML
      else if oneOf ext ["toml"] then FormatTOML
      else if oneOf ext ["csv"] then FormatCSV
      else if oneOf ext ["graphql"; "gql"] then FormatGraphQL
      else if oneOf ext ["ini"; "cfg"; "conf"] then FormatINI
      else if oneOf ext ["hcl"; "tf"; "tfvars"] then FormatHCL
      else if oneOf ext ["pb"; "proto"; "textproto"; "pbtxt"] then FormatProtobuf
      else if oneOf ext ["md"; "markdown"; "mkd"; "mdwn"; "mdown"; "mdtxt"; "mdtext"]
           then FormatMarkdown
      else if oneOf ext ["jsonl"; "ndjson"; "jsonlines"] then FormatJSONL
      else if oneOf ext ["ipynb"] then FormatJupyter
      else if oneOf ext ["txt"] then
        if Contains (ToLower U filename) "requirements" then FormatRequirements
        else FormatUnknown
      else if oneOf ext ["dockerfile"; "containerfile"] then FormatDockerfile
      else FormatUnknown.

End WithUnicode.

End Earlier.

(** ** The command-line front end ([validateData], [isValidatableFile]) *)

Module CLI.

(** [type ValidationResult struct] of the command. *)
Record ValidationResult := mkValidationResult {
  vrValid : bool;
  vrFormat : string;
  vrError : string;
  vrFileName : string;
}.

(** Scan of [filepath.Ext] from the end of the path, for the separator
    [/]: [r] is the reversed part still to scan, [acc] the part scanned. *)
Fixpoint Ext_scan (r acc : string) : string :=
  match r with
  | EmptyString => EmptyString
  | String c r' =>
      if decide (c = "/"%char) then EmptyString
      else if decide (c = "."%char) then String c acc
      else Ext_scan r' (String c acc)
  end.

(** [filepath.Ext(path)]: the suffix beginning at the final dot in the
    final element of [path]; empty if there is no dot. *)
Definition Ext (path : string) : string := Ext_scan (String.rev path) EmptyString.

Section WithExternals.
Context (U : Unicode) (P : Parsers).

(** The closing statement of [validateData]: the library's result under
    the file name. *)
Definition wrap (result : Result) (filename : string) : ValidationResult :=
  {| vrValid := Valid result; vrFormat := Format_ result;
     vrError := Error result; vrFileName := filename |}.

(** The [switch] of [validateData] over the format flag. *)
Definition formatType (format : string) : option Format :=
  if decide (format = "json") then Some FormatJSON
  else if decide (format = "yaml") then Some FormatYAML
  else if decide (format = "xml") then Some FormatXML
  else if decide (format = "toml") then Some FormatTOML
  else None.

(** [validateData]. [None] stands for the panic of a method call on the
    nil validator that [v, _ := NewValidator(...)] would leave behind. *)
Definition validateData (data filename format : string)
  : Traced (option ValidationResult) :=
  let autoFormat := "auto" in
  if bool_decide (format = autoFormat) then
    let detectedFormat := DetectFormatFromFilename U filename in
    if negb (bool_decide (detectedFormat = FormatUnknown)) then
      match NewValidator detectedFormat with
      | inl v => result <- Validate U P v data ;; ret (Some (wrap result filename))
      | inr _ => ret None
      end
    else
      result <- ValidateAuto U P data ;; ret (Some (wrap result filename))
  else
    match formatType format with
    | None =>
        ret (Some {| vrValid := false; vrFormat := format;
                     vrError := "unsupported format"; vrFileName := filename |})
    | Some formatType =>
        match NewValidator formatType with
        | inr err =>
            ret (Some {| vrValid := false; vrFormat := format;
                         vrError := err; vrFileName := filename |})
        | inl v => result <- Validate U P v data ;; ret (Some (wrap result filename))
        end
    end.

Fixpoint isValidExt (ext : string) (validExts : list string) : bool :=
  match validExts with
  | [] => false
  | validExt :: rest => if decide (ext = validExt) then true else isValidExt ext rest
  end.

(** [isValidatableFile]: which files a directory walk hands on. *)
Definition isValidatableFile (filename format : string) : bool :=
  let autoFormat := "auto" in
  if negb (bool_decide (format = autoFormat)) then true
  else
    let ext := ToLower U (Ext filename) in
    isValidExt ext [".json"; ".yaml"; ".yml"; ".xml"; ".toml"].

End WithExternals.

End CLI.

(** The one parsing library a validator may call; none for the two
    validators that only inspect lines. *)
Definition validatorParser (validator : Validator) : option ParserId :=
  match validator with
  | JSONValidator _ => Some PJSON
  | YAMLValidator _ => Some PYAML
  | XMLValidator _ => Some PXML
  | TOMLValidator _ => Some PTOML
  | CSVValidator _ => Some PCSV
  | GraphQLValidator _ => Some PGraphQL
  | INIValidator _ => Some PINI
  | HCLValidator _ => Some PHCL
  | ProtobufValidator _ => Some PProtobuf
  | MarkdownValidator _ => Some PMarkdown
  | JSONLValidator _ => Some PJSON
  | JupyterValidator _ => Some PJSONMap
  | RequirementsValidator _ => None
  | DockerfileValidator _ => None
  end.

(** ** The single-function version of content detection

    An earlier [DetectFormat] runs all heuristics inline, in its own
    order. A test nested in another without [else] is written as their
    conjunction; the heuristics are pure, so the order of evaluation
    inside one test does not matter. *)

Module Monolithic.

Section WithUnicode.
Context (U : Unicode).

(** [for _, line := range lines] of the JSON-Lines check: the count of
    shaped lines, reset to 0 by the [break] on a line of another shape. *)
Fixpoint validJSONLines_loop (lines : list string) (validJSONLines : nat) : nat :=
  match lines with
  | [] => validJSONLines
  | line :: rest =>
      let line := TrimSpace U line in
      if negb (bool_decide (line = EmptyString)) then
        if (HasPrefix line "{" && HasSuffix line "}") ||
           (HasPrefix line "[" && HasSuffix line "]")
        then validJSONLines_loop rest (validJSONLines + 1)
        else 0
      else validJSONLines_loop rest validJSONLines
  end.

(** The scoring loops: [score++] for each pattern the text contains. *)
Fixpoint score_loop (text : string) (patterns : list string) (score : nat) : nat :=
  match patterns with
  | [] => score
  | pattern :: rest =>
      score_loop text rest (if Contains text pattern then score + 1 else score)
  end.

(** The loop that sets [hasPackagePattern] and breaks. *)
Fixpoint hasPackagePattern_loop (lines : list string) : bool :=
  match lines with
  | [] => false
  | line :: rest =>
      let line := TrimSpace U line in
      if negb (bool_decide (line = EmptyString)) && negb (HasPrefix line "#") then
        if ContainsAny line "abcdefghijklmnopqrstuvwxyz" then true
        else hasPackagePattern_loop rest
      else hasPackagePattern_loop rest
  end.

(** The loop that clears [isCSV] and breaks; [n] bounds the iterations
    still to run. *)
Fixpoint isCSV_loop (n i : nat) (lines : list string) (firstLineCommas : nat) : bool :=
  match n with
  | O => true
  | S n' =>
      if (i <? length lines) && (i <? 5) then
        match lines !! i with
        | Some line =>
            if negb (bool_decide (line = EmptyString)) &&
               negb (Count line ","%char =? firstLineCommas)
            then false
            else isCSV_loop n' (i + 1) lines firstLineCommas
        | None => true
        end
      else true
  end.

(** The loop of the INI check, which returns from inside. *)
Fixpoint section_loop (lines : list string) : bool :=
  match lines with
  | [] => false
  | line :: rest =>
      let line := TrimSpace U line in
      if HasPrefix line "[" && HasSuffix line "]" then true else section_loop rest
  end.

(** [trimmed[0] == c], on a non-empty [trimmed]. *)
Definition firstByteIs (trimmed : string) (c : ascii) : bool :=
  match trimmed with
  | String b _ => bool_decide (b = c)
  | EmptyString => false
  end.

Definition DetectFormat (data : string) : Format :=
  let trimmed := TrimSpace U data in
  if len trimmed =? 0 then FormatUnknown
  else
  let lines := Split trimmed nl in
  if HasPrefix trimmed "{" && Contains trimmed (dq +:+ "cells" +:+ dq) &&
     Contains trimmed (dq +:+ "metadata" +:+ dq) &&
     Contains trimmed (dq +:+ "nbformat" +:+ dq)
  then FormatJupyter
  else if (1 <? length lines) && (1 <? validJSONLines_loop lines 0)
  then FormatJSONL
  else if (firstByteIs trimmed "{" || firstByteIs trimmed "[") &&
          ((HasPrefix trimmed "{" && HasSuffix trimmed "}") ||
           (HasPrefix trimmed "[" && HasSuffix trimmed "]"))
  then FormatJSON
  else if HasPrefix trimmed "<?xml" || (HasPrefix trimmed "<" && Contains trimmed ">")
  then FormatXML
  else
  let upperTrimmed := ToUpper U trimmed in
  let dockerScore :=
    score_loop upperTrimmed
      [ "FROM "; "RUN "; "CMD "; "EXPOSE "; "ENV "; "ADD "; "COPY ";
        "ENTRYPOINT "; "VOLUME "; "USER "; "WORKDIR "; "ARG " ] 0 in
  if Contains upperTrimmed "FROM " || (3 <=? dockerScore)
  then FormatDockerfile
  else
  let hclScore :=
    score_loop trimmed
      [ "resource "; "variable "; "provider "; "module ";
        "output "; "locals "; "terraform "; "data " ] 0 in
  if (0 <? hclScore) && Contains trimmed "=" && Contains trimmed dq && Contains trimmed "{"
  then FormatHCL
  else
  let graphqlScore :=
    score_loop trimmed
      [ "query "; "mutation "; "subscription "; "fragment "; "type ";
        "interface "; "enum "; "input "; "scalar "; "schema " ] 0 in
  if ((0 <? graphqlScore) && Contains trimmed "{" && Contains trimmed "}") &&
     (Contains trimmed (String "{"%char (String nl EmptyString)) ||
      Contains trimmed "{ " || (2 <=? graphqlScore))
  then FormatGraphQL
  else if (0 <? length lines) &&
          (match lines with
           | line0 :: _ => HasPrefix line0 "#"
           | [] => false
           end ||
           Contains trimmed "```" || Contains trimmed "**" || Contains trimmed "~~" ||
           (Contains trimmed "[" && Contains trimmed "]("))
  then FormatMarkdown
  else if (Contains trimmed "==" || Contains trimmed ">=" ||
           Contains trimmed "<=" || Contains trimmed "~=") &&
          hasPackagePattern_loop lines
  then FormatRequirements
  else if Contains trimmed "," && (1 <? length lines) &&
          match lines with
          | line0 :: _ =>
              let firstLineCommas := Count line0 ","%char in
              isCSV_loop 4 1 lines firstLineCommas && (0 <? firstLineCommas)
          | [] => false
          end
  then FormatCSV
  else if (Contains trimmed "[" && Contains trimmed "]") && section_loop lines
  then FormatINI
  else if (Contains trimmed "type_url:" || Contains trimmed "value:") &&
          Contains trimmed dq
  then FormatProtobuf
  else if (Contains trimmed "---" ||
           (Contains trimmed ":" && negb (Contains trimmed "://"))) &&
          (negb (Contains trimmed "type_url:") && negb (Contains trimmed "value:")) &&
          (Contains trimmed ": " || HasSuffix trimmed ":")
  then FormatYAML
  else if (Contains trimmed "=" && negb (Contains trimmed ":")) &&
          (negb (HasPrefix trimmed "{") && negb (HasPrefix trimmed "[") &&
           negb (HasPrefix trimmed "<"))
  then FormatTOML
  else FormatUnknown.

End WithUnicode.

End Monolithic.

(** The YAML test of the single-function version: three dashes do not
    suffice, the text must also be free of the Protobuf markers and hold
    a colon followed by a blank or end with a colon. *)
Definition isYAML_strict (trimmed : string) : bool :=
  (Contains trimmed "---" ||
   (Contains trimmed ":" && negb (Contains trimmed "://"))) &&
  (negb (Contains trimmed "type_url:") && negb (Contains trimmed "value:")) &&
  (Contains trimmed ": " || HasSuffix trimmed ":").

Section MonolithicOrder.
Context (U : Unicode).

(** The heuristics in the order of the single-function version. *)
Definition monolithicOrder (trimmed : string) (lines : list string)
  : list (bool * Format) :=
  [ (isJupyterNotebook trimmed, FormatJupyter);
    (isJSONLines U lines, FormatJSONL);
    (isJSON trimmed, FormatJSON);
    (isXML trimmed, FormatXML);
    (isDockerfile (ToUpper U trimmed), FormatDockerfile);
    (isHCL trimmed, FormatHCL);
    (isGraphQL trimmed, FormatGraphQL);
    (detectMarkdown trimmed lines, FormatMarkdown);
    (detectRequirements U trimmed lines, FormatRequirements);
    (detectCSV trimmed lines, FormatCSV);
    (isINI U trimmed lines, FormatINI);
    (isProtobuf trimmed, FormatProtobuf);
    (isYAML_strict trimmed, FormatYAML);
    (isTOML trimmed, FormatTOML) ].

End MonolithicOrder.

(** * Properties *)

(** ** Sanity checks of the model on the examples of the specification *)

Example ex_split : Split ("a" +:+ String nl "b" +:+ String nl EmptyString) nl = ["a"; "b"; EmptyString].
Proof. reflexivity. Qed.
Example ex_trim : TrimSpace ascii_only ("  a b " +:+ String nl EmptyString) = "a b".
Proof. reflexivity. Qed.
Example ex_upper : ToUpper ascii_only "From x-9z" = "FROM X-9Z".
Proof. reflexivity. Qed.
Example ex_lower : ToLower ascii_only "DockerFile.Prod" = "dockerfile.prod".
Proof. reflexivity. Qed.
Example ex_lastindex : LastIndex "a/b/c.d" "/"%char = 3%Z /\ LastIndex "abc" "/"%char = (-1)%Z.
Proof. split; reflexivity. Qed.
Example ex_suffix : HasSuffix "{a}" "}" = true /\ HasSuffix "{a} " "}" = false /\ HasSuffix EmptyString "}" = false.
Proof. repeat split; reflexivity. Qed.
Example ex_contains : Contains "abcFROM x" "FROM " = true /\ Contains "abc" "bd" = false.
Proof. repeat split; reflexivity. Qed.
Example ex_itoa : itoa 0 = "0" /\ itoa 12 = "12".
Proof. split; reflexivity. Qed.
Example ex_detect1 : DetectFormat ascii_only ("{" +:+ dq +:+ "a" +:+ dq +:+ ":1}") = FormatJSON.
Proof. vm_compute. reflexivity. Qed.
Example ex_detect2 : DetectFormat ascii_only (lines_of ["{a}"; "{b}"]) = FormatJSONL.
Proof. vm_compute. reflexivity. Qed.
Example ex_detect3 : DetectFormat ascii_only (lines_of ["{a}"; "not json"]) = FormatUnknown.
Proof. vm_compute. reflexivity. Qed.
Example ex_detect4 : DetectFormat ascii_only (lines_of ["FROM ubuntu:20.04"; "RUN x"]) = FormatDockerfile.
Proof. vm_compute. reflexivity. Qed.
Example ex_detect5 : DetectFormat ascii_only (lines_of ["name,age"; "John,30"; "Jane,25"]) = FormatCSV.
Proof. vm_compute. reflexivity. Qed.
Example ex_detect6 : DetectFormat ascii_only "   " = FormatUnknown.
Proof. vm_compute. reflexivity. Qed.
Example ex_fn1 : DetectFormatFromFilename ascii_only "Dockerfile.prod" = FormatDockerfile.
Proof. vm_compute. reflexivity. Qed.
Example ex_fn2 : DetectFormatFromFilename ascii_only "requirements-dev.txt" = FormatRequirements.
Proof. vm_compute. reflexivity. Qed.
Example ex_fn3 : DetectFormatFromFilename ascii_only "x.unknownext" = FormatUnknown.
Proof. vm_compute. reflexivity. Qed.
Example ex_fn4 : DetectFormatFromFilename ascii_only "a/b/conf.YML" = FormatYAML.
Proof. vm_compute. reflexivity. Qed.
Example ex_nv : NewValidator FormatHCL = inl (HCLValidator {| format := FormatHCL |}).
Proof. vm_compute. reflexivity. Qed.
Example ex_detect7 : DetectFormat ascii_only notebook_sample = FormatJupyter.
Proof. vm_compute. reflexivity. Qed.
Example ex_detect8 : DetectFormat ascii_only (lines_of ["numpy==1.21.0"; "pandas>=1.3.0"]) = FormatRequirements.
Proof. vm_compute. reflexivity. Qed.
Example ex_detect9 : DetectFormat ascii_only "query { users { name } }" = FormatGraphQL.
Proof. vm_compute. reflexivity. Qed.
Example ex_detect10 : DetectFormat ascii_only (lines_of ["{"; "  x"; "}"]) = FormatJSON.
Proof. vm_compute. reflexivity. Qed.
Example ex_fn5 : DetectFormatFromFilename ascii_only "my.dockerfile" = FormatDockerfile.
Proof. vm_compute. reflexivity. Qed.
Example ex_fn6 : DetectFormatFromFilename ascii_only "test.txt" = FormatUnknown.
Proof. vm_compute. reflexivity. Qed.
Example ex_fn7 : DetectFormatFromFilename ascii_only "test" = FormatUnknown.
Proof. vm_compute. reflexivity. Qed.
Example ex_docker1 :
  outcome (Validate ascii_only toy_parsers (DockerfileValidator {| format := FormatDockerfile |})
             (lines_of ["FROM ubuntu"; "RUN apt-get update && \"; "    apt-get install -y python3"]))
  = success {| format := FormatDockerfile |}.
Proof. vm_compute. reflexivity. Qed.
Example ex_docker2 :
  outcome (Validate ascii_only toy_parsers (DockerfileValidator {| format := FormatDockerfile |})
             (lines_of ["FROM ubuntu"; "INVALID instruction here"]))
  = failure {| format := FormatDockerfile |}
      "invalid instruction on line 2: INVALID instruction here".
Proof. vm_compute. reflexivity. Qed.
Example ex_docker3 :
  outcome (Validate ascii_only toy_parsers (DockerfileValidator {| format := FormatDockerfile |})
             (lines_of ["RUN apt-get update"; "CMD bash"]))
  = failure {| format := FormatDockerfile |} "missing required FROM instruction".
Proof. vm_compute. reflexivity. Qed.
Example ex_jsonl1 :
  Validate ascii_only toy_parsers (JSONLValidator {| format := FormatJSONL |})
    (lines_of ["{a}"; EmptyString; "{b}"])
  = (success {| format := FormatJSONL |}, [(PJSON, "{a}"); (PJSON, "{b}")]).
Proof. vm_compute. reflexivity. Qed.
Example ex_req1 :
  outcome (Validate ascii_only toy_parsers (RequirementsValidator {| format := FormatRequirements |})
             (lines_of ["numpy"; "# pinned"; "=="]))
  = failure {| format := FormatRequirements |} "invalid requirement on line 3: ==".
Proof. vm_compute. reflexivity. Qed.

(** ** Format tags *)

Ltac fmt_ne := let H := fresh in intros H; vm_compute in H; discriminate H.

Lemma registered_not_unknown : FormatUnknown ∉ registeredFormats.
Proof. unfold registeredFormats. rewrite !not_elem_of_cons. repeat split; try fmt_ne. apply not_elem_of_nil. Qed.

Lemma registered_not_auto : FormatAuto ∉ registeredFormats.
Proof. unfold registeredFormats. rewrite !not_elem_of_cons. repeat split; try fmt_ne. apply not_elem_of_nil. Qed.

Lemma validatorMap_unregistered (f : Format) :
  f ∉ registeredFormats → validatorMap !! f = None.
Proof. intros Hf. unfold validatorMap. apply not_elem_of_list_to_map_1. exact Hf. Qed.

Lemma validatorMap_registered (f : Format) :
  f ∈ registeredFormats →
  ∃ constructor, validatorMap !! f = Some constructor ∧
                 Validator_Format (constructor tt) = f.
Proof.
  unfold registeredFormats. rewrite !elem_of_cons, elem_of_nil.
  intros H; repeat (destruct H as [-> | H]); [.. | done];
    eexists; (split; [vm_compute; reflexivity | reflexivity]).
Qed.

Lemma detectable_registered (f : Format) : f ∈ registeredFormats → detectable f.
Proof. by right. Qed.

(** ** The cascade of [DetectFormat] *)

Section DetectionFacts.
Context (U : Unicode).

Lemma detectJSONFamily_detectable trimmed lines :
  detectable (detectJSONFamily U trimmed lines).
Proof.
  unfold detectJSONFamily.
  repeat case_match; first [by left | right; unfold registeredFormats; repeat constructor].
Qed.

Lemma detectDeveloperFormats_detectable trimmed lines :
  detectable (detectDeveloperFormats U trimmed lines).
Proof.
  unfold detectDeveloperFormats.
  repeat case_match; first [by left | right; unfold registeredFormats; repeat constructor].
Qed.

Lemma detectDataFormats_detectable trimmed lines :
  detectable (detectDataFormats U trimmed lines).
Proof.
  unfold detectDataFormats.
  repeat case_match; first [by left | right; unfold registeredFormats; repeat constructor].
Qed.

Lemma detectConfigFormats_detectable trimmed lines :
  detectable (detectConfigFormats U trimmed lines).
Proof.
  unfold detectConfigFormats.
  repeat case_match; first [by left | right; unfold registeredFormats; repeat constructor].
Qed.

Lemma laterFamilies_detectable trimmed lines :
  detectable (laterFamilies U trimmed lines).
Proof.
  unfold laterFamilies. cbv zeta.
  repeat case_match;
    auto using detectDeveloperFormats_detectable, detectDataFormats_detectable,
               detectConfigFormats_detectable.
Qed.

(** None of the later families answers with a tag of the JSON family. *)
Lemma laterFamilies_not_JSON_family trimmed lines :
  laterFamilies U trimmed lines ≠ FormatJSONL ∧
  laterFamilies U trimmed lines ≠ FormatJupyter ∧
  laterFamilies U trimmed lines ≠ FormatJSON.
Proof.
  unfold laterFamilies, detectDeveloperFormats, detectDataFormats, detectConfigFormats.
  cbv zeta. repeat case_match; repeat split; fmt_ne.
Qed.

(** [DetectFormat], with the early returns of its families laid out
    in the order they are tried. *)
Lemma DetectFormat_cascade (data : string) :
  DetectFormat U data =
    let trimmed := TrimSpace U data in
    let lines := Split trimmed nl in
    if len trimmed =? 0 then FormatUnknown
    else if isJupyterNotebook trimmed then FormatJupyter
    else if isJSONLines U lines then FormatJSONL
    else if isJSON trimmed then FormatJSON
    else laterFamilies U trimmed lines.
Proof.
  unfold DetectFormat, laterFamilies, detectJSONFamily. cbv zeta.
  destruct (len (TrimSpace U data) =? 0); [reflexivity|].
  destruct (isJupyterNotebook _); [reflexivity|].
  destruct (isJSONLines U _); [reflexivity|].
  destruct (isJSON _); [reflexivity|].
  rewrite (bool_decide_eq_true_2 (FormatUnknown = FormatUnknown)) by reflexivity.
  cbn [negb].
  repeat case_match; try reflexivity.
  all: repeat match goal with
         | H : negb (bool_decide _) = false |- _ =>
             apply negb_false_iff, bool_decide_eq_true_1 in H
         end; congruence.
Qed.

Lemma DetectFormat_detectable (data : string) : detectable (DetectFormat U data).
Proof.
  rewrite DetectFormat_cascade. cbv zeta.
  repeat case_match;
    first [ by left
          | apply laterFamilies_detectable
          | right; unfold registeredFormats; repeat constructor ].
Qed.

End DetectionFacts.

(** ** JSON-Lines detection (C1) *)

Section JSONLinesFacts.
Context (U : Unicode).

Lemma isJSONLine_wrappedText (t : string) :
  isJSONLine t = true ↔ wrappedText t.
Proof.
  unfold isJSONLine, wrappedText. by rewrite orb_true_iff, !andb_true_iff.
Qed.

Lemma isJSON_wrappedText (t : string) :
  isJSON t = true ↔ wrappedText t.
Proof.
  rewrite <- isJSONLine_wrappedText. unfold isJSON, isJSONLine. by destruct t.
Qed.

Lemma isJupyterNotebook_notebookText (t : string) :
  isJupyterNotebook t = true ↔ notebookText t.
Proof.
  unfold isJupyterNotebook, notebookText. rewrite !andb_true_iff. tauto.
Qed.

Lemma isJSONLines_loop_spec (lines : list string) (n : nat) :
  isJSONLines_loop U lines n =
    if decide (Forall (λ line, ¬ malformed U line) lines)
    then Some (n + length (filter (qualifies U) lines))
    else None.
Proof.
  revert n. induction lines as [|line rest IH]; intros n; cbn [isJSONLines_loop].
  - rewrite decide_True by constructor. f_equal. cbn. lia.
  - destruct (decide (TrimSpace U line = EmptyString)) as [Hblank|Hblank].
    + rewrite IH. rewrite filter_cons_False by (intros [? _]; done).
      destruct (decide (Forall _ rest)) as [Hall|Hall].
      * rewrite decide_True; [done|]. constructor; [|done]. intros [? _]; done.
      * rewrite decide_False; [done|]. by inversion 1.
    + destruct (isJSONLine (TrimSpace U line)) eqn:Hshape; simpl.
      * apply isJSONLine_wrappedText in Hshape.
        rewrite IH. rewrite filter_cons_True by done.
        destruct (decide (Forall _ rest)) as [Hall|Hall].
        -- rewrite decide_True.
           ++ f_equal. simpl. lia.
           ++ constructor; [|done]. intros [_ Hnot]. by apply Hnot.
        -- rewrite decide_False; [done|]. by inversion 1.
      * assert (¬ wrappedText (TrimSpace U line)) as Hnot.
        { rewrite <- isJSONLine_wrappedText. congruence. }
        rewrite decide_False; [done|]. inversion 1; subst.
        match goal with H : ¬ malformed U line |- _ => apply H end. done.
Qed.

(** The loop of [isJSONLines] decides the shape the specification
    describes. *)
Lemma isJSONLines_shape (lines : list string) :
  isJSONLines U lines = true ↔ JSONLinesShape U lines.
Proof.
  unfold isJSONLines, JSONLinesShape.
  rewrite isJSONLines_loop_spec.
  destruct (Nat.leb_spec (length lines) 1) as [Hlen|Hlen].
  - split; [done|]. intros [? _]; lia.
  - destruct (decide (Forall _ lines)) as [Hall|Hall].
    + rewrite Forall_forall in Hall. cbn [Nat.add]. rewrite Nat.ltb_lt.
      split; [intros Hcount; by repeat split | by intros (_ & _ & Hcount)].
    + split; [done|]. intros (_ & Hno & _). destruct Hall.
      by apply Forall_forall.
Qed.

Lemma isJSONLines_malformed (lines : list string) (line : string) :
  line ∈ lines → malformed U line → isJSONLines U lines = false.
Proof.
  intros Hin Hbad. apply not_true_is_false. rewrite isJSONLines_shape.
  intros (_ & Hno & _). by apply (Hno line).
Qed.

Lemma malformed_nonempty (trimmed line : string) :
  line ∈ Split trimmed nl → malformed U line → (len trimmed =? 0) = false.
Proof.
  destruct trimmed; [|done]. cbn. rewrite list_elem_of_singleton.
  intros -> [Hne _]. by destruct Hne.
Qed.

End JSONLinesFacts.

(** C1. When the trimmed text is not a Jupyter notebook (it does not
    both start with an opening brace and contain the three quoted names),
    [DetectFormat] answers JSON-Lines exactly when the trimmed text has
    more than one line, no non-blank line, trimmed, fails the shape check
    (starts with an opening brace and ends with a closing one, or starts
    with an opening bracket and ends with a closing one), and more than
    one non-blank line passes it. One non-blank line failing the check
    rejects JSON-Lines; detection then tests the whole trimmed text for
    plain JSON, answers JSON when it is wrapped in braces or in brackets,
    and only otherwise answers with what the later families say. *)
Theorem jsonl_detection (U : Unicode) (data : string) :
  ¬ notebookText (TrimSpace U data) →
  (DetectFormat U data = FormatJSONL ↔
     JSONLinesShape U (Split (TrimSpace U data) nl)) ∧
  (∀ line, line ∈ Split (TrimSpace U data) nl → malformed U line →
     DetectFormat U data ≠ FormatJSONL ∧
     (wrappedText (TrimSpace U data) → DetectFormat U data = FormatJSON) ∧
     (¬ wrappedText (TrimSpace U data) → fallsThroughToLaterFamilies U data)).
Proof.
  intros Hnb. rewrite <- isJupyterNotebook_notebookText in Hnb.
  apply not_true_is_false in Hnb.
  unfold fallsThroughToLaterFamilies.
  rewrite DetectFormat_cascade. cbv zeta. rewrite Hnb.
  pose proof (laterFamilies_not_JSON_family U (TrimSpace U data)
                (Split (TrimSpace U data) nl)) as (Hl1 & _ & _).
  split.
  - rewrite <- isJSONLines_shape.
    destruct (len (TrimSpace U data) =? 0) eqn:Hlen.
    + apply Nat.eqb_eq in Hlen. destruct (TrimSpace U data); [|done].
      split; [fmt_ne | done].
    + destruct (isJSONLines U _); [done|].
      split; [|done]. destruct (isJSON _); [fmt_ne | done].
  - intros line Hin Hbad.
    rewrite (malformed_nonempty U _ line Hin Hbad).
    rewrite (isJSONLines_malformed U _ line Hin Hbad).
    rewrite <- isJSON_wrappedText.
    destruct (isJSON (TrimSpace U data)).
    + split; [fmt_ne|]. split; [done|]. intros Hnot. by destruct Hnot.
    + split; [done|]. split; [done|]. done.
Qed.

Lemma jsonl_detection_witness :
  ¬ notebookText (TrimSpace ascii_only (lines_of ["{a}"; "{b}"])) ∧
  DetectFormat ascii_only (lines_of ["{a}"; "{b}"]) = FormatJSONL ∧
  ¬ notebookText (TrimSpace ascii_only (lines_of ["{a}"; "not json"])) ∧
  DetectFormat ascii_only (lines_of ["{a}"; "not json"]) ≠ FormatJSONL ∧
  fallsThroughToLaterFamilies ascii_only (lines_of ["{a}"; "not json"]) ∧
  ¬ JSONLinesShape ascii_only
      (Split (TrimSpace ascii_only (lines_of ["{a}"; "not json"])) nl).
Proof.
  assert (¬ notebookText (TrimSpace ascii_only (lines_of ["{a}"; "{b}"]))) as Hn1.
  { intros (_ & Hcells & _). discriminate Hcells. }
  assert (¬ notebookText (TrimSpace ascii_only (lines_of ["{a}"; "not json"]))) as Hn2.
  { intros (_ & Hcells & _). discriminate Hcells. }
  destruct (jsonl_detection ascii_only (lines_of ["{a}"; "{b}"]) Hn1) as [Hiff1 _].
  destruct (jsonl_detection ascii_only (lines_of ["{a}"; "not json"]) Hn2)
    as [Hiff2 Hbad].
  destruct (Hbad "not json") as (Hne & _ & Hfall).
  { apply list_elem_of_further, list_elem_of_here. }
  { split; [done|]. intros [[H _]|[H _]]; discriminate H. }
  split; [exact Hn1|]. split.
  { apply Hiff1. split; [vm_compute; lia|]. split; [|vm_compute; lia].
    intros line Hin [_ Hnot]. apply Hnot.
    apply elem_of_cons in Hin as [->|Hin]; [by left; split|].
    apply list_elem_of_singleton in Hin as ->. by left; split. }
  split; [exact Hn2|]. split; [exact Hne|]. split.
  { apply Hfall. intros [[_ H]|[H _]]; discriminate H. }
  intros Hshape. apply Hne. by apply Hiff2.
Defined.

(** The claim as it stands fails on an object printed over several
    lines: its lines fail the shape check, JSON-Lines is rejected, and
    the answer is plain JSON, which is not what the later families say. *)
Lemma printed_object_is_plain_JSON :
  ¬ notebookText (TrimSpace ascii_only printed_object) ∧
  "  x" ∈ Split (TrimSpace ascii_only printed_object) nl ∧
  malformed ascii_only "  x" ∧
  DetectFormat ascii_only printed_object ≠ FormatJSONL ∧
  DetectFormat ascii_only printed_object = FormatJSON ∧
  laterFamilies ascii_only (TrimSpace ascii_only printed_object)
    (Split (TrimSpace ascii_only printed_object) nl) = FormatUnknown ∧
  ¬ fallsThroughToLaterFamilies ascii_only printed_object.
Proof.
  split; [intros (_ & Hcells & _); discriminate Hcells|].
  split; [apply list_elem_of_further, list_elem_of_here|].
  split; [split; [done|]; intros [[H _]|[H _]]; discriminate H|].
  split; [done|]. split; [reflexivity|]. split; [reflexivity|].
  intros Hfall. discriminate Hfall.
Qed.

(** ** Jupyter notebooks come first (C2) *)

(** C2. A buffer whose trimmed text starts with an opening brace and
    contains the three quoted names [cells], [metadata] and [nbformat] is
    detected as a Jupyter notebook, hence neither as plain JSON nor as
    JSON-Lines. *)
Theorem jupyter_detected_first (U : Unicode) (data : string) :
  HasPrefix (TrimSpace U data) "{" = true →
  Contains (TrimSpace U data) (dq +:+ "cells" +:+ dq) = true →
  Contains (TrimSpace U data) (dq +:+ "metadata" +:+ dq) = true →
  Contains (TrimSpace U data) (dq +:+ "nbformat" +:+ dq) = true →
  DetectFormat U data = FormatJupyter ∧
  DetectFormat U data ≠ FormatJSON ∧
  DetectFormat U data ≠ FormatJSONL.
Proof.
  intros Hbrace Hcells Hmeta Hnb.
  assert (DetectFormat U data = FormatJupyter) as ->.
  { rewrite DetectFormat_cascade. cbv zeta.
    unfold isJupyterNotebook. rewrite Hbrace, Hcells, Hmeta, Hnb.
    destruct (TrimSpace U data); [discriminate Hbrace | reflexivity]. }
  repeat split; fmt_ne.
Qed.

Lemma jupyter_detected_first_witness :
  HasPrefix (TrimSpace ascii_only notebook_sample) "{" = true ∧
  DetectFormat ascii_only notebook_sample = FormatJupyter ∧
  DetectFormat ascii_only notebook_sample ≠ FormatJSON ∧
  DetectFormat ascii_only notebook_sample ≠ FormatJSONL.
Proof.
  split; [reflexivity|].
  apply (jupyter_detected_first ascii_only notebook_sample); reflexivity.
Defined.

(** ** Detection failure in [ValidateAuto] (C3) *)

Lemma TrimSpace_allSpace (U : Unicode) (s : string) :
  allSpace s = true → TrimSpace U s = EmptyString.
Proof.
  induction s as [|c s IH]; [done|]. cbn [allSpace TrimSpace].
  rewrite !andb_true_iff, negb_true_iff. intros [[-> ->] Hs]. by apply IH.
Qed.

Lemma DetectFormat_allSpace (U : Unicode) (data : string) :
  allSpace data = true → DetectFormat U data = FormatUnknown.
Proof.
  intros H. unfold DetectFormat. by rewrite (TrimSpace_allSpace U data H).
Qed.

(** C3. On every buffer that detection answers [unknown] for,
    [ValidateAuto] returns exactly valid=false, format=unknown and the
    error text [unable to detect format], and calls no parser. Every
    buffer that [TrimSpace] leaves nothing of is such a buffer, among them
    the empty buffer and the buffers of ASCII white space. *)
Theorem ValidateAuto_undetected (U : Unicode) (P : Parsers) (data : string) :
  (DetectFormat U data = FormatUnknown →
     outcome (ValidateAuto U P data) = undetected ∧
     calls (ValidateAuto U P data) = []) ∧
  (TrimSpace U data = EmptyString → DetectFormat U data = FormatUnknown) ∧
  (allSpace data = true → DetectFormat U data = FormatUnknown).
Proof.
  split; [|split].
  - intros Hunknown. unfold ValidateAuto. cbv zeta.
    by rewrite bool_decide_eq_true_2.
  - intros Hblank. unfold DetectFormat. by rewrite Hblank.
  - apply DetectFormat_allSpace.
Qed.

Lemma ValidateAuto_undetected_witness :
  DetectFormat ascii_only "just some random text" = FormatUnknown ∧
  outcome (ValidateAuto ascii_only toy_parsers "just some random text") = undetected ∧
  calls (ValidateAuto ascii_only toy_parsers "just some random text") = [] ∧
  allSpace "   " = true ∧
  DetectFormat ascii_only "   " = FormatUnknown ∧
  DetectFormat ascii_only EmptyString = FormatUnknown.
Proof.
  split; [reflexivity|].
  destruct (ValidateAuto_undetected ascii_only toy_parsers "just some random text")
    as [Hres _].
  destruct (Hres eq_refl) as [Hout Hcalls].
  split; [exact Hout|]. split; [exact Hcalls|]. split; [reflexivity|]. split.
  - apply (proj2 (proj2 (ValidateAuto_undetected ascii_only toy_parsers "   "))).
    reflexivity.
  - apply (proj1 (proj2 (ValidateAuto_undetected ascii_only toy_parsers EmptyString))).
    reflexivity.
Defined.

(** ** Only registered tags are detected (C5) *)

(** C5. [DetectFormat] answers [unknown] or one of the fourteen
    registered tags, never [auto]; so in [ValidateAuto] the construction of
    the validator cannot fail: the run either stops at [unknown] or is the
    run of the validator registered for the detected tag. *)
Theorem detected_tag_is_registered (U : Unicode) (P : Parsers) (data : string) :
  (DetectFormat U data = FormatUnknown ∨ DetectFormat U data ∈ registeredFormats) ∧
  length registeredFormats = 14 ∧
  DetectFormat U data ≠ FormatAuto ∧
  ((DetectFormat U data = FormatUnknown ∧ ValidateAuto U P data = ret undetected) ∨
   (∃ validator,
       NewValidator (DetectFormat U data) = inl validator ∧
       ValidateAuto U P data = Validate U P validator data)).
Proof.
  pose proof (DetectFormat_detectable U data) as Hdet.
  split; [exact Hdet|]. split; [reflexivity|]. split.
  - destruct Hdet as [-> | Hreg]; [fmt_ne|].
    intros Heq. rewrite Heq in Hreg. by apply registered_not_auto.
  - unfold ValidateAuto. cbv zeta.
    destruct Hdet as [Hunk | Hreg].
    + left. by rewrite bool_decide_eq_true_2.
    + right. rewrite bool_decide_eq_false_2.
      2:{ intros Heq. rewrite Heq in Hreg. by apply registered_not_unknown. }
      destruct (validatorMap_registered _ Hreg) as (constructor & Hlook & _).
      exists (constructor tt). unfold NewValidator. by rewrite Hlook.
Qed.

(** ** The validator registry (C6) *)

(** C6. [NewValidator] fails with the unsupported-format error for
    [auto], for [unknown] and for every tag outside the fourteen registered
    ones; for a registered tag it returns a validator whose [Format()] is
    that tag. *)
Theorem NewValidator_registry (f : Format) :
  (f ∉ registeredFormats → NewValidator f = inr ("unsupported format: " +:+ f)) ∧
  (f ∈ registeredFormats →
     ∃ validator, NewValidator f = inl validator ∧ Validator_Format validator = f) ∧
  (FormatAuto ∉ registeredFormats) ∧
  (FormatUnknown ∉ registeredFormats) ∧
  length registeredFormats = 14.
Proof.
  split; [|split; [|split; [|split]]].
  - intros Hf. unfold NewValidator. by rewrite (validatorMap_unregistered f Hf).
  - intros Hf. destruct (validatorMap_registered f Hf) as (constructor & Hlook & Hfmt).
    exists (constructor tt). unfold NewValidator. by rewrite Hlook.
  - apply registered_not_auto.
  - apply registered_not_unknown.
  - reflexivity.
Qed.

Lemma NewValidator_registry_witness :
  NewValidator FormatAuto = inr "unsupported format: auto" ∧
  NewValidator FormatUnknown = inr "unsupported format: unknown" ∧
  NewValidator "invalid" = inr "unsupported format: invalid" ∧
  (FormatJSONL ∈ registeredFormats ∧
   ∃ validator, NewValidator FormatJSONL = inl validator ∧
                Validator_Format validator = FormatJSONL).
Proof.
  split; [|split; [|split; [|split]]].
  - apply (NewValidator_registry FormatAuto). apply registered_not_auto.
  - apply (NewValidator_registry FormatUnknown). apply registered_not_unknown.
  - apply (NewValidator_registry "invalid").
    unfold registeredFormats. rewrite !not_elem_of_cons.
    repeat split; try fmt_ne. apply not_elem_of_nil.
  - unfold registeredFormats. repeat constructor.
  - apply (NewValidator_registry FormatJSONL).
    unfold registeredFormats. repeat constructor.
Defined.

(** ** Runs and their records of calls *)

Lemma outcome_bind {A B} (m : Traced A) (k : A → Traced B) :
  outcome (bind m k) = outcome (k (outcome m)).
Proof. unfold outcome, bind. by destruct (k (fst m)). Qed.

Lemma calls_bind {A B} (m : Traced A) (k : A → Traced B) :
  calls (bind m k) = calls m ++ calls (k (outcome m)).
Proof. unfold calls, outcome, bind. by destruct (k (fst m)). Qed.

(** ** The Dockerfile validator needs a FROM line (C7) *)

Section DockerfileFacts.
Context (U : Unicode) (P : Parsers).

(** Without a FROM line ahead, the loop either returns a failure or
    ends with [hasFrom] as it was. *)
Lemma DockerfileValidator_loop_no_FROM v lines i rest hasFrom :
  (∀ line, line ∈ rest → isFromLine U line = false) →
  match DockerfileValidator_loop U v lines i rest hasFrom with
  | inl res => Valid res = false
  | inr h => h = hasFrom
  end.
Proof.
  revert i hasFrom. induction rest as [|line rest IH]; intros i hasFrom Hno; [done|].
  assert (∀ l, l ∈ rest → isFromLine U l = false) as Hrest
    by (intros l Hl; apply Hno; by right).
  assert (isFromLine U line = false) as Hline by (apply Hno; by left).
  unfold isFromLine in Hline.
  cbn [DockerfileValidator_loop]. cbv zeta. rewrite Hline.
  destruct (bool_decide _ || HasPrefix _ "#"); [by apply IH|].
  destruct ((0 <? i) && _); [by apply IH|].
  destruct (negb _); [done | by apply IH].
Qed.

End DockerfileFacts.

(** C7. An input none of whose lines, trimmed and upper-cased, begins
    with [FROM ] is rejected by the Dockerfile validator, whatever else its
    lines hold (valid instructions, comments, blank lines, nothing). *)
Theorem dockerfile_requires_FROM (U : Unicode) (P : Parsers)
    (v : baseValidator) (data : string) :
  (∀ line, line ∈ Split data nl →
     HasPrefix (ToUpper U (TrimSpace U line)) "FROM " = false) →
  Valid (outcome (Validate U P (DockerfileValidator v) data)) = false.
Proof.
  intros Hno. cbn [Validate]. unfold DockerfileValidator_Validate. cbv zeta.
  pose proof (DockerfileValidator_loop_no_FROM U v (Split data nl) 0
                (Split data nl) false Hno) as Hloop.
  destruct (DockerfileValidator_loop _ _ _ _ _ _) as [res | h].
  - exact Hloop.
  - by subst h.
Qed.

Lemma dockerfile_requires_FROM_witness :
  Valid (outcome (Validate ascii_only toy_parsers
                    (DockerfileValidator {| format := FormatDockerfile |})
                    (lines_of ["# build"; "RUN apt-get update"; "CMD bash"]))) = false ∧
  Valid (outcome (Validate ascii_only toy_parsers
                    (DockerfileValidator {| format := FormatDockerfile |})
                    EmptyString)) = false.
Proof.
  split.
  - apply (dockerfile_requires_FROM ascii_only toy_parsers).
    intros line Hin. vm_compute in Hin.
    repeat (apply elem_of_cons in Hin as [-> | Hin]; [reflexivity|]).
    by apply elem_of_nil in Hin.
  - apply (dockerfile_requires_FROM ascii_only toy_parsers).
    intros line Hin. vm_compute in Hin.
    repeat (apply elem_of_cons in Hin as [-> | Hin]; [reflexivity|]).
    by apply elem_of_nil in Hin.
Defined.

(** ** The JSON-Lines validator reports the first rejected line (C8) *)

Section JSONLFacts.
Context (U : Unicode) (P : Parsers).

Lemma JSONLValidator_loop_cons v i line rest :
  outcome (JSONLValidator_loop U P v i (line :: rest)) =
    if decide (TrimSpace U line = EmptyString)
    then outcome (JSONLValidator_loop U P v (i + 1) rest)
    else match json_Unmarshal P (TrimSpace U line) with
         | Some msg =>
             Some (failure v ("invalid JSON on line " +:+ itoa (i + 1) +:+ ": " +:+ msg))
         | None => outcome (JSONLValidator_loop U P v (i + 1) rest)
         end.
Proof.
  cbn [JSONLValidator_loop]. cbv zeta.
  destruct (decide (TrimSpace U line = EmptyString)); [done|].
  rewrite outcome_bind. cbn [invoke outcome fst].
  by destruct (json_Unmarshal P (TrimSpace U line)).
Qed.



Lemma JSONLValidator_loop_Some_invalid v i lines res :
  outcome (JSONLValidator_loop U P v i lines) = Some res → Valid res = false.
Proof.
  revert i. induction lines as [|line rest IH]; intros i; [done|].
  rewrite JSONLValidator_loop_cons.
  destruct (decide _); [apply IH|].
  destruct (json_Unmarshal P _); [|apply IH].
  by intros [= <-].
Qed.

Lemma JSONLValidator_Validate_outcome v data :
  outcome (JSONLValidator_Validate U P v data) =
    default (success v) (outcome (JSONLValidator_loop U P v 0 (Split data nl))).
Proof.
  unfold JSONLValidator_Validate. cbv zeta. destruct data as [|c data].
  - reflexivity.
  - cbn [len Nat.eqb]. rewrite outcome_bind.
    by destruct (outcome (JSONLValidator_loop _ _ _ _ _)).
Qed.

End JSONLFacts.



(** ** Pass-through of the parser's verdict (C4) *)

Section PassThroughFacts.
Context (U : Unicode) (P : Parsers).

(** What a validator without structural checks does with its parser,
    the empty GraphQL document apart. *)
Lemma Validate_parse_only (f : Format) (validator : Validator) :
  f ∈ registeredFormats → f ∉ structuralFormats →
  NewValidator f = inl validator →
  ∃ p parse, externalParser P f = Some (p, parse) ∧
    ∀ data,
      (f = FormatGraphQL ∧ data = EmptyString ∧
       Validate U P validator data = ret (failure (base validator) "empty GraphQL content"))
      ∨ ((f ≠ FormatGraphQL ∨ data ≠ EmptyString) ∧
         Validate U P validator data =
           (resultOf (base validator) (parse data), [(p, data)])).
Proof.
  unfold registeredFormats, structuralFormats. intros Hreg Hns.
  rewrite !elem_of_cons, elem_of_nil in Hreg. rewrite !not_elem_of_cons in Hns.
  destruct Hns as (Hn1 & Hn2 & Hn3 & Hn4 & _).
  repeat (destruct Hreg as [-> | Hreg]); try done;
    intros Hnew; vm_compute in Hnew; injection Hnew as <-;
    eexists _, _; (split; [reflexivity|]); intros data.
  all: try (right; split; [left; fmt_ne | reflexivity]).
  - (* GraphQL *)
    destruct data as [|c data]; [left; by repeat split|].
    right. split; [by right | reflexivity].
  - (* HCL *)
    right. split; [left; fmt_ne|].
    cbn [Validate base]. unfold HCLValidator_Validate, hcl_parse, resultOf, bind, invoke, ret.
    cbn [fst snd app]. by destruct (HasErrors P _).
Qed.

End PassThroughFacts.

(** C4, as amended. The validator registered for a tag other than
    Jupyter, JSON-Lines, Requirements and Dockerfile calls the parser of
    that tag exactly once, on the whole buffer, and returns the parser's
    verdict with the parser's own message; the one exception is the GraphQL
    validator on the empty buffer, which answers valid=false with its own
    message and calls no parser. *)
Theorem parser_verdict_passed_through (U : Unicode) (P : Parsers)
    (f : Format) (validator : Validator) :
  f ∈ registeredFormats → f ∉ structuralFormats →
  NewValidator f = inl validator →
  ∃ p parse, externalParser P f = Some (p, parse) ∧
    ∀ data,
      if decide (f = FormatGraphQL ∧ data = EmptyString)
      then calls (Validate U P validator data) = [] ∧
           outcome (Validate U P validator data) =
             {| Valid := false; Format_ := f;
                Error := "empty GraphQL content"; FileName := EmptyString |}
      else calls (Validate U P validator data) = [(p, data)] ∧
           outcome (Validate U P validator data) =
             {| Valid := bool_decide (parse data = None); Format_ := f;
                Error := errorString (parse data); FileName := EmptyString |}.
Proof.
  intros Hreg Hns Hnew.
  assert (Validator_Format validator = f) as Hfmt.
  { destruct (validatorMap_registered f Hreg) as (constructor & Hlook & Hf).
    unfold NewValidator in Hnew. rewrite Hlook in Hnew. by injection Hnew as <-. }
  destruct (Validate_parse_only U P f validator Hreg Hns Hnew) as (p & parse & Hext & Hrun).
  exists p, parse. split; [exact Hext|]. intros data.
  unfold Validator_Format in Hfmt.
  destruct (Hrun data) as [(Hf & Hd & ->) | (Hcond & ->)].
  - rewrite decide_True by done. unfold failure. by rewrite Hfmt.
  - rewrite decide_False by (intros [? ?]; by destruct Hcond).
    unfold resultOf. by rewrite Hfmt.
Qed.

Lemma parser_verdict_passed_through_witness :
  calls (Validate ascii_only toy_parsers (JSONValidator {| format := FormatJSON |}) "oops")
    = [(PJSON, "oops")] ∧
  outcome (Validate ascii_only toy_parsers (JSONValidator {| format := FormatJSON |}) "oops")
    = {| Valid := false; Format_ := FormatJSON;
         Error := "invalid character"; FileName := EmptyString |}.
Proof.
  destruct (parser_verdict_passed_through ascii_only toy_parsers FormatJSON
              (JSONValidator {| format := FormatJSON |}))
    as (p & parse & Hext & Hrun).
  - unfold registeredFormats. repeat constructor.
  - unfold structuralFormats. rewrite !not_elem_of_cons.
    repeat split; try fmt_ne. apply not_elem_of_nil.
  - reflexivity.
  - injection Hext as <- <-. exact (Hrun "oops").
Defined.

(** The claim as it stands fails for GraphQL: on the empty buffer the
    validator calls no parser and words the error itself. *)
Lemma graphql_empty_not_passed_through :
  NewValidator FormatGraphQL = inl (GraphQLValidator {| format := FormatGraphQL |}) ∧
  externalParser toy_parsers FormatGraphQL = Some (PGraphQL, graphql_Parse toy_parsers) ∧
  calls (Validate ascii_only toy_parsers
           (GraphQLValidator {| format := FormatGraphQL |}) EmptyString) = [] ∧
  Valid (outcome (Validate ascii_only toy_parsers
           (GraphQLValidator {| format := FormatGraphQL |}) EmptyString)) = false ∧
  Error (outcome (Validate ascii_only toy_parsers
           (GraphQLValidator {| format := FormatGraphQL |}) EmptyString))
    = "empty GraphQL content" ∧
  errorString (graphql_Parse toy_parsers EmptyString) = "unexpected end of input" ∧
  ¬ passesThrough ascii_only toy_parsers
      (GraphQLValidator {| format := FormatGraphQL |}) PGraphQL (graphql_Parse toy_parsers).
Proof.
  repeat (split; [reflexivity|]).
  intros Hpass. destruct (Hpass EmptyString) as [Hcalls _]. discriminate Hcalls.
Qed.

(** ** Error text only on invalid outcomes (C10) *)

Section InvariantFacts.
Context (U : Unicode) (P : Parsers).

Lemma resultOf_invariant v err : errorOnlyWhenInvalid (resultOf v err).
Proof. unfold errorOnlyWhenInvalid. destruct err; [done | reflexivity]. Qed.

Lemma failure_invariant v msg : errorOnlyWhenInvalid (failure v msg).
Proof. done. Qed.

Lemma success_invariant v : errorOnlyWhenInvalid (success v).
Proof. done. Qed.

Lemma RequirementsValidator_loop_invalid v i lines res :
  RequirementsValidator_loop U v i lines = Some res → Valid res = false.
Proof.
  revert i. induction lines as [|line rest IH]; intros i; [done|].
  cbn [RequirementsValidator_loop]. cbv zeta.
  destruct (bool_decide _ || _); [apply IH|].
  destruct (negb _); [by intros [= <-] | apply IH].
Qed.

Lemma DockerfileValidator_loop_invalid v lines i rest hasFrom res :
  DockerfileValidator_loop U v lines i rest hasFrom = inl res → Valid res = false.
Proof.
  revert i hasFrom. induction rest as [|line rest IH]; intros i hasFrom; [done|].
  cbn [DockerfileValidator_loop]. cbv zeta.
  destruct (bool_decide _ || HasPrefix _ "#"); [apply IH|].
  destruct ((0 <? i) && _); [apply IH|].
  destruct (negb _); [by intros [= <-] | apply IH].
Qed.

Ltac result_inv :=
  first [apply resultOf_invariant | apply failure_invariant | apply success_invariant].

Lemma Validate_invariant (validator : Validator) (data : string) :
  errorOnlyWhenInvalid (outcome (Validate U P validator data)).
Proof.
  destruct validator as [v|v|v|v|v|v|v|v|v|v|v|v|v|v]; cbn [Validate].
  1-5, 7, 9-10: apply resultOf_invariant.
  - (* GraphQL *)
    unfold GraphQLValidator_Validate.
    destruct (len data =? 0); [apply failure_invariant | apply resultOf_invariant].
  - (* HCL *)
    unfold HCLValidator_Validate, errorOnlyWhenInvalid. rewrite outcome_bind.
    cbn [invoke outcome fst ret Valid Error]. by destruct (HasErrors P _).
  - (* JSON-Lines *)
    rewrite JSONLValidator_Validate_outcome.
    destruct (outcome (JSONLValidator_loop _ _ _ _ _)) as [res|] eqn:Hloop;
      cbn [from_option id]; try result_inv.
    intros Hvalid. apply JSONLValidator_loop_Some_invalid in Hloop. congruence.
  - (* Jupyter *)
    unfold JupyterValidator_Validate. rewrite outcome_bind. cbn [invoke outcome fst].
    destruct (json_Unmarshal_map P data) as [[msg|] notebook];
      repeat case_match; try result_inv.
  - (* Requirements *)
    unfold RequirementsValidator_Validate. cbv zeta.
    destruct (RequirementsValidator_loop _ _ _ _) as [res|] eqn:Hloop;
      try result_inv.
    intros Hvalid. apply RequirementsValidator_loop_invalid in Hloop.
    cbn [ret outcome fst] in Hvalid. congruence.
  - (* Dockerfile *)
    unfold DockerfileValidator_Validate. cbv zeta.
    destruct (DockerfileValidator_loop _ _ _ _ _ _) as [res|hasFrom] eqn:Hloop.
    + intros Hvalid. apply DockerfileValidator_loop_invalid in Hloop.
      cbn [ret outcome fst] in Hvalid. congruence.
    + destruct hasFrom; try result_inv.
Qed.

End InvariantFacts.

(** C10. In every outcome of [Validate], of [ValidateString] and of
    [ValidateAuto], the error text is non-empty only when valid is false:
    a valid outcome has an empty error text. *)
Theorem error_only_when_invalid (U : Unicode) (P : Parsers)
    (validator : Validator) (data : string) :
  (Valid (outcome (Validate U P validator data)) = true →
     Error (outcome (Validate U P validator data)) = EmptyString) ∧
  (Valid (outcome (ValidateString U P validator data)) = true →
     Error (outcome (ValidateString U P validator data)) = EmptyString) ∧
  (Valid (outcome (ValidateAuto U P data)) = true →
     Error (outcome (ValidateAuto U P data)) = EmptyString).
Proof.
  split; [apply Validate_invariant|]. split; [apply Validate_invariant|].
  unfold ValidateAuto. cbv zeta.
  destruct (bool_decide _); [done|].
  destruct (NewValidator _); [apply Validate_invariant | done].
Qed.

Lemma error_only_when_invalid_witness :
  Valid (outcome (ValidateAuto ascii_only toy_parsers (lines_of ["{a}"; "{b}"]))) = true ∧
  Error (outcome (ValidateAuto ascii_only toy_parsers (lines_of ["{a}"; "{b}"]))) = EmptyString ∧
  Valid (outcome (Validate ascii_only toy_parsers
                    (HCLValidator {| format := FormatHCL |}) "a = 1")) = true ∧
  Error (outcome (Validate ascii_only toy_parsers
                    (HCLValidator {| format := FormatHCL |}) "a = 1")) = EmptyString.
Proof.
  split; [reflexivity|]. split.
  - apply (error_only_when_invalid ascii_only toy_parsers
             (JSONValidator {| format := FormatJSON |}) (lines_of ["{a}"; "{b}"])).
    reflexivity.
  - split; [reflexivity|].
    apply (error_only_when_invalid ascii_only toy_parsers
             (HCLValidator {| format := FormatHCL |}) "a = 1").
    reflexivity.
Defined.

(** ** Filename detection (C9) *)

Lemma HasPrefix_empty (s : string) : HasPrefix s EmptyString = true.
Proof. by destruct s. Qed.

Section SplitFacts.
Context (sep : ascii).

Lemma afterLast_len (s t : string) : afterLast s sep = Some t → len t < len s.
Proof.
  revert t. induction s as [|c s IH]; intros t; [done|]. cbn [afterLast len].
  destruct (afterLast s sep) as [t'|].
  - intros [= <-]. specialize (IH t' eq_refl). lia.
  - destruct (decide (c = sep)); [|done]. intros [= <-]. lia.
Qed.

Lemma LastIndex_from_afterLast (i : Z) (s : string) :
  (0 ≤ i)%Z →
  LastIndex_from i s sep =
    match afterLast s sep with
    | None => (-1)%Z
    | Some t => (i + Z.of_nat (len s - len t - 1))%Z
    end.
Proof.
  revert i. induction s as [|c s IH]; intros i Hi; [done|].
  cbn [LastIndex_from afterLast len]. cbv zeta. rewrite IH by lia.
  destruct (afterLast s sep) as [t|] eqn:Hs.
  - apply afterLast_len in Hs.
    destruct (Z.leb_spec 0 (i + 1 + Z.of_nat (len s - len t - 1))); [lia | exfalso; lia].
  - cbn [Z.leb Z.compare]. destruct (decide (c = sep)); [lia | done].
Qed.

(** The slice from the last separator on starts with the separator. *)
Lemma drop_afterLast (s t : string) :
  afterLast s sep = Some t → drop (len s - len t - 1) s = String sep t.
Proof.
  revert t. induction s as [|c s IH]; intros t; [done|]. cbn [afterLast len].
  destruct (afterLast s sep) as [t'|] eqn:Hs.
  - intros [= <-]. pose proof (afterLast_len _ _ Hs).
    replace (S (len s) - len t' - 1) with (S (len s - len t' - 1)) by lia.
    cbn [drop]. by apply IH.
  - destruct (decide (c = sep)) as [->|]; [|done]. intros [= <-].
    by replace (S (len s) - len s - 1) with 0 by lia.
Qed.

Lemma drop_S (n : nat) (s t : string) (c : ascii) :
  drop n s = String c t → drop (S n) s = t.
Proof.
  revert s. induction n as [|n IH]; intros s.
  - cbn [drop]. by intros ->.
  - destruct s as [|a s]; [done|]. cbn [drop]. apply IH.
Qed.

Lemma last_Split_go (cur s : string) :
  last (Split_go cur s sep) =
    Some (match afterLast s sep with
          | Some t => t
          | None => String.rev_app cur s
          end).
Proof.
  revert cur. induction s as [|c s IH]; intros cur; [done|].
  cbn [Split_go afterLast].
  destruct (decide (c = sep)) as [->|Hc].
  - rewrite last_cons, IH. by destruct (afterLast s sep).
  - rewrite IH. by destruct (afterLast s sep).
Qed.

Lemma lastField_afterLast (s : string) :
  lastField s sep = default s (afterLast s sep).
Proof.
  unfold lastField, Split. rewrite last_Split_go. by destruct (afterLast s sep).
Qed.

(** [s[LastIndex(s, sep)+1:]] is the last field of the split. *)
Lemma sliceFrom_LastIndex_succ (s : string) :
  sliceFrom s (LastIndex s sep + 1)%Z = lastField s sep.
Proof.
  rewrite lastField_afterLast. unfold sliceFrom, LastIndex.
  rewrite LastIndex_from_afterLast by lia.
  destruct (afterLast s sep) as [t|] eqn:Hs; [|done].
  pose proof (afterLast_len _ _ Hs). pose proof (drop_afterLast _ _ Hs) as Hdrop.
  replace (Z.to_nat (0 + Z.of_nat (len s - len t - 1) + 1))
    with (S (len s - len t - 1)) by lia.
  by apply drop_S in Hdrop.
Qed.

Lemma LastIndex_absent (s : string) :
  (LastIndex s sep =? -1)%Z = negb (Contains s (String sep EmptyString)).
Proof.
  unfold LastIndex. rewrite LastIndex_from_afterLast by lia.
  induction s as [|c s IH]; [done|]. cbn [afterLast Contains HasPrefix len].
  assert (∀ n, (0 + Z.of_nat n =? -1)%Z = false) as Hneq
    by (intros n; apply Z.eqb_neq; lia).
  destruct (afterLast s sep) as [t|] eqn:Hs.
  - rewrite Hneq in IH |- *. symmetry in IH. apply negb_false_iff in IH.
    by rewrite IH, orb_true_r.
  - symmetry in IH. apply negb_true_iff in IH. rewrite IH, orb_false_r.
    destruct (decide (c = sep)); [|done].
    rewrite Hneq. by destruct s.
Qed.

(** [TrimPrefix(s[LastIndex(s, sep):], sep)] is the last field of the
    split when the separator occurs. *)
Lemma TrimPrefix_sliceFrom_LastIndex (s : string) :
  Contains s (String sep EmptyString) = true →
  TrimPrefix (sliceFrom s (LastIndex s sep)) (String sep EmptyString) = lastField s sep.
Proof.
  intros Hsep. pose proof (LastIndex_absent s) as Habs. rewrite Hsep in Habs.
  rewrite lastField_afterLast. unfold sliceFrom, LastIndex in *.
  rewrite LastIndex_from_afterLast in * by lia.
  destruct (afterLast s sep) as [t|] eqn:Hs; [|done].
  replace (Z.to_nat (0 + Z.of_nat (len s - len t - 1))) with (len s - len t - 1) by lia.
  rewrite (drop_afterLast _ _ Hs). unfold TrimPrefix. cbn [HasPrefix].
  rewrite decide_True by done. by rewrite HasPrefix_empty.
Qed.

End SplitFacts.

(** C9. [DetectFormatFromFilename] decides in this order: a last path
    segment that, lower-cased, is [dockerfile] or starts with
    [dockerfile.] gives Dockerfile; else a name without a dot gives
    unknown; else the lower-cased extension [txt] with a lower-cased name
    containing [requirements] gives Requirements; else the extension is
    looked up in the table, unknown on a miss. *)
Theorem filename_detection_order (U : Unicode) (filename : string) :
  DetectFormatFromFilename U filename = filenameRule U filename.
Proof.
  unfold DetectFormatFromFilename, filenameRule. cbv zeta.
  change ("dockerfile" +:+ ".") with "dockerfile.".
  rewrite sliceFrom_LastIndex_succ.
  destruct (decide (_ ∨ _)) as [Hdocker|Hdocker].
  - destruct Hdocker as [-> | ->]; [done | by rewrite orb_true_r].
  - assert (ToLower U (lastField filename "/"%char) ≠ "dockerfile") as Hne
      by (intros ?; apply Hdocker; by left).
    assert (HasPrefix (ToLower U (lastField filename "/"%char)) "dockerfile." ≠ true)
      as Hpre by (intros ?; apply Hdocker; by right).
    rewrite bool_decide_eq_false_2 by done. apply not_true_is_false in Hpre.
    rewrite Hpre. cbn [orb].
    rewrite LastIndex_absent.
    destruct (Contains filename ".") eqn:Hdot; cbn [negb]; [|done].
    rewrite TrimPrefix_sliceFrom_LastIndex by done.
    destruct (decide (_ ∧ _)) as [[-> ->]|Hreq].
    + done.
    + destruct (bool_decide _) eqn:Hext; [|by destruct (extensionMap !! _)].
      apply bool_decide_eq_true_1 in Hext.
      destruct (Contains (ToLower U filename) "requirements") eqn:Hc;
        [by destruct Hreq | by destruct (extensionMap !! _)].
Qed.

(** * Further properties of the package *)

(** ** The order of the heuristics *)

Lemma firstMatch_sound (tests : list (bool * Format)) :
  firstMatch tests = FormatUnknown ∨ (true, firstMatch tests) ∈ tests.
Proof.
  induction tests as [|[[] f] rest IH]; cbn [firstMatch].
  - by left.
  - right. by left.
  - destruct IH as [IH | IH]; [by left | right; by right].
Qed.

Lemma firstMatch_none (tests : list (bool * Format)) :
  (∀ f, (true, f) ∉ tests) → firstMatch tests = FormatUnknown.
Proof.
  induction tests as [|[[] f] rest IH]; intros Hnone; cbn [firstMatch].
  - done.
  - destruct (Hnone f). by left.
  - apply IH. intros g Hg. apply (Hnone g). by right.
Qed.

Lemma DetectFormat_scan (U : Unicode) (data : string) :
  DetectFormat U data =
    if len (TrimSpace U data) =? 0 then FormatUnknown
    else firstMatch (detectionOrder U (TrimSpace U data)
                       (Split (TrimSpace U data) nl)).
Proof.
  rewrite DetectFormat_cascade. cbv zeta.
  destruct (len (TrimSpace U data) =? 0); [reflexivity|].
  unfold detectionOrder, laterFamilies, detectDeveloperFormats, detectDataFormats,
    detectConfigFormats. cbv zeta. cbn [firstMatch].
  destruct (isJupyterNotebook _); [reflexivity|].
  destruct (isJSONLines U _); [reflexivity|].
  destruct (isJSON _); [reflexivity|].
  destruct (isDockerfile _); [reflexivity|].
  destruct (isHCL _); [reflexivity|].
  destruct (isGraphQL _); [reflexivity|].
  destruct (isProtobuf _); [reflexivity|].
  destruct (detectCSV _ _); [reflexivity|].
  destruct (detectMarkdown _ _); [reflexivity|].
  destruct (detectRequirements U _ _); [reflexivity|].
  destruct (isXML _); [reflexivity|].
  destruct (isINI U _ _); [reflexivity|].
  destruct (isYAML _); [reflexivity|].
  destruct (isTOML _); reflexivity.
Qed.

Lemma detectionOrder_tags (U : Unicode) (trimmed : string) (lines : list string) :
  (detectionOrder U trimmed lines).*2 = 
    [ FormatJupyter; FormatJSONL; FormatJSON; FormatDockerfile; FormatHCL;
      FormatGraphQL; FormatProtobuf; FormatCSV; FormatMarkdown;
      FormatRequirements; FormatXML; FormatINI; FormatYAML; FormatTOML ].
Proof. reflexivity. Qed.

Lemma detectionOrder_no_unknown (U : Unicode) (trimmed : string)
    (lines : list string) (b : bool) :
  (b, FormatUnknown) ∉ detectionOrder U trimmed lines.
Proof.
  intros Hin. apply (list_elem_of_fmap_2 snd) in Hin.
  rewrite detectionOrder_tags in Hin. cbn [snd] in Hin.
  rewrite !elem_of_cons, elem_of_nil in Hin.
  repeat (destruct Hin as [Hin | Hin]; [by vm_compute in Hin|]). done.
Qed.

(** X2. [DetectFormat] answers [unknown] exactly when the trimmed text
    is empty or none of the fourteen heuristics holds, and a tag other
    than [unknown] only when the heuristic of that very tag holds. *)
Theorem DetectFormat_unknown_iff (U : Unicode) (data : string) :
  (DetectFormat U data = FormatUnknown ↔
     TrimSpace U data = EmptyString ∨
     ∀ f, (true, f) ∉ detectionOrder U (TrimSpace U data)
                        (Split (TrimSpace U data) nl)) ∧
  (DetectFormat U data = FormatUnknown ∨
   (true, DetectFormat U data) ∈
     detectionOrder U (TrimSpace U data) (Split (TrimSpace U data) nl)).
Proof.
  rewrite DetectFormat_scan.
  destruct (TrimSpace U data) as [|c trimmed] eqn:Htrim.
  { cbn. split; [|by left]. split; [by left | done]. }
  cbn [len Nat.eqb].
  pose proof (firstMatch_sound (detectionOrder U (String c trimmed)
                (Split (String c trimmed) nl))) as Hsound.
  split; [|exact Hsound]. split.
  - intros Hunk. right. intros f Hf.
    destruct Hsound as [_ | Hin].
    + (* some test holds, so the scan cannot have ended on unknown *)
      revert Hunk Hf.
      generalize (detectionOrder_no_unknown U (String c trimmed)
                    (Split (String c trimmed) nl)).
      generalize (detectionOrder U (String c trimmed) (Split (String c trimmed) nl)).
      intros tests Hno. induction tests as [|[[] g] rest IH]; cbn [firstMatch].
      * intros _ Hin. by apply elem_of_nil in Hin.
      * intros -> _. apply (Hno true). by left.
      * intros Hunk [Heq | Hin]%elem_of_cons; [done|].
        apply IH; [|done|done]. intros b Hb. apply (Hno b). by right.
    + rewrite Hunk in Hin. by apply detectionOrder_no_unknown in Hin.
  - intros [Hempty | Hnone]; [done|]. by apply firstMatch_none.
Qed.

(** X1. [DetectFormat] is a single first-match scan: on a non-empty
    trimmed text it answers the tag of the first of the fourteen heuristics,
    in the order Jupyter, JSON-Lines, JSON, Dockerfile, HCL, GraphQL,
    Protobuf, CSV, Markdown, Requirements, XML, INI, YAML, TOML, that
    holds; the four family functions add nothing to that order. *)
Theorem DetectFormat_first_match (U : Unicode) (data : string) :
  DetectFormat U data =
    (if len (TrimSpace U data) =? 0 then FormatUnknown
     else firstMatch (detectionOrder U (TrimSpace U data)
                        (Split (TrimSpace U data) nl))) ∧
  (detectionOrder U (TrimSpace U data) (Split (TrimSpace U data) nl)).*2 =
    [ FormatJupyter; FormatJSONL; FormatJSON; FormatDockerfile; FormatHCL;
      FormatGraphQL; FormatProtobuf; FormatCSV; FormatMarkdown;
      FormatRequirements; FormatXML; FormatINI; FormatYAML; FormatTOML ].
Proof.
  split.
  - apply DetectFormat_scan.
  - apply detectionOrder_tags.
Qed.

(** A tag other than [unknown] is only answered when its own heuristic
    holds. *)
Lemma DetectFormat_holds (U : Unicode) (data : string) (b : bool) (f : Format) :
  DetectFormat U data = f → f ≠ FormatUnknown →
  (b, f) ∈ detectionOrder U (TrimSpace U data) (Split (TrimSpace U data) nl) →
  b = true.
Proof.
  intros Hdet Hne Hin. rewrite DetectFormat_scan in Hdet.
  destruct (len (TrimSpace U data) =? 0); [congruence|].
  revert Hdet Hin. unfold detectionOrder. cbn [firstMatch].
  repeat (match goal with
          | |- context [if ?c then _ else _] => destruct c
          end;
          [ intros <- Hin;
            repeat (apply elem_of_cons in Hin as [Hin | Hin];
                    [ apply pair_equal_spec in Hin as [Hb Hf];
                      first [ exact Hb | exfalso; vm_compute in Hf; discriminate Hf ] |]);
            by apply elem_of_nil in Hin |]).
  intros Hunk. by destruct Hne.
Qed.

(** ** Lines *)

Lemma Split_go_length (cur s : string) (sep : ascii) :
  length (Split_go cur s sep) = S (Count s sep).
Proof.
  revert cur. induction s as [|c s IH]; intros cur; [done|].
  cbn [Split_go Count]. destruct (decide (c = sep)); cbn [length]; by rewrite IH.
Qed.

Lemma Count_absent (s : string) (sep : ascii) :
  Contains s (String sep EmptyString) = false → Count s sep = 0.
Proof.
  induction s as [|c s IH]; [done|]. cbn [Contains HasPrefix Count].
  intros [Hhead Htail]%orb_false_elim. rewrite (IH Htail).
  destruct (decide (c = sep)); [|done]. by rewrite HasPrefix_empty in Hhead.
Qed.

(** X3. A text that, once trimmed, holds no newline is never detected
    as JSON-Lines or as CSV: both heuristics need more than one line. *)
Theorem single_line_never_multiline_format (U : Unicode) (data : string) :
  Contains (TrimSpace U data) (String nl EmptyString) = false →
  length (Split (TrimSpace U data) nl) = 1 ∧
  DetectFormat U data ≠ FormatJSONL ∧
  DetectFormat U data ≠ FormatCSV.
Proof.
  intros Hnl.
  assert (length (Split (TrimSpace U data) nl) = 1) as Hlen.
  { unfold Split. by rewrite Split_go_length, (Count_absent _ _ Hnl). }
  split; [exact Hlen|]. split.
  - intros Hdet.
    assert (isJSONLines U (Split (TrimSpace U data) nl) = true) as Hjl.
    { apply (DetectFormat_holds U data _ FormatJSONL Hdet); [fmt_ne|].
      unfold detectionOrder. apply list_elem_of_further, list_elem_of_here. }
    unfold isJSONLines in Hjl. by rewrite Hlen in Hjl.
  - intros Hdet.
    assert (detectCSV (TrimSpace U data) (Split (TrimSpace U data) nl) = true) as Hcsv.
    { apply (DetectFormat_holds U data _ FormatCSV Hdet); [fmt_ne|].
      unfold detectionOrder. do 7 apply list_elem_of_further. apply list_elem_of_here. }
    unfold detectCSV in Hcsv. rewrite Hlen in Hcsv. cbn in Hcsv.
    by rewrite orb_true_r in Hcsv.
Qed.

Lemma single_line_never_multiline_format_witness :
  Contains (TrimSpace ascii_only "{a},{b}") (String nl EmptyString) = false ∧
  DetectFormat ascii_only "{a},{b}" ≠ FormatJSONL ∧
  DetectFormat ascii_only "{a},{b}" ≠ FormatCSV.
Proof.
  split; [reflexivity|].
  apply (single_line_never_multiline_format ascii_only "{a},{b}"). reflexivity.
Defined.

(** ** The JSON family closes over wrapped texts *)

(** X4. A text that, once trimmed, is wrapped in braces or in brackets
    is always classified inside the JSON family (Jupyter, JSON-Lines or
    JSON), whatever else it contains; and plain JSON is answered exactly
    when the text is wrapped and is neither a notebook nor JSON-Lines. *)
Theorem wrapped_text_stays_in_JSON_family (U : Unicode) (data : string) :
  (isJSON (TrimSpace U data) = true →
     DetectFormat U data = FormatJupyter ∨
     DetectFormat U data = FormatJSONL ∨
     DetectFormat U data = FormatJSON) ∧
  (DetectFormat U data = FormatJSON ↔
     isJupyterNotebook (TrimSpace U data) = false ∧
     isJSONLines U (Split (TrimSpace U data) nl) = false ∧
     isJSON (TrimSpace U data) = true).
Proof.
  rewrite DetectFormat_cascade. cbv zeta.
  pose proof (laterFamilies_not_JSON_family U (TrimSpace U data)
                (Split (TrimSpace U data) nl)) as (_ & _ & Hlater).
  destruct (len (TrimSpace U data) =? 0) eqn:Hlen.
  { apply Nat.eqb_eq in Hlen. destruct (TrimSpace U data); [|done].
    split; [done|]. split; [fmt_ne | by intros (_ & _ & ?)]. }
  destruct (isJupyterNotebook _).
  { split; [by left|]. split; [fmt_ne | by intros (? & _)]. }
  destruct (isJSONLines U _).
  { split; [right; by left|]. split; [fmt_ne | by intros (_ & ? & _)]. }
  destruct (isJSON _).
  - split; [right; by right | done].
  - split; [done|]. split; [done | by intros (_ & _ & ?)].
Qed.

Lemma wrapped_text_stays_in_JSON_family_witness :
  isJSON (TrimSpace ascii_only "[FROM x, query { a }]") = true ∧
  DetectFormat ascii_only "[FROM x, query { a }]" = FormatJSON.
Proof.
  split; [reflexivity|].
  destruct (wrapped_text_stays_in_JSON_family ascii_only "[FROM x, query { a }]")
    as [_ Hjson].
  apply Hjson. by repeat split.
Defined.

(** ** CSV detection *)

Lemma detectCSV_loop_spec (n i : nat) (lines : list string) (first : nat) :
  detectCSV_loop n i lines first = true ↔
  ∀ j line, i ≤ j < i + n → j < 5 → lines !! j = Some line →
            line ≠ EmptyString → Count line ","%char = first.
Proof.
  revert i. induction n as [|n IH]; intros i; cbn [detectCSV_loop].
  - split; [|done]. intros _ j line Hj. lia.
  - destruct (Nat.ltb_spec i (length lines)) as [Hlen|Hlen]; cbn [andb].
    + destruct (Nat.ltb_spec i 5) as [Hfive|Hfive].
      * destruct (lookup_lt_is_Some_2 lines i Hlen) as [line Hline]. rewrite Hline.
        destruct (decide (line = EmptyString)) as [Hblank|Hblank].
        { rewrite bool_decide_eq_true_2 by done. cbn [negb andb]. rewrite IH.
          split.
          - intros Hrest j l Hj Hj5 Hl Hne.
            destruct (decide (j = i)) as [->|]; [congruence|].
            apply (Hrest j l); [lia | done..].
          - intros Hall j l Hj Hj5 Hl Hne. apply (Hall j l); [lia | done..]. }
        rewrite bool_decide_eq_false_2 by done. cbn [negb andb].
        destruct (Nat.eqb_spec (Count line ","%char) first) as [Hcount|Hcount];
          cbn [negb].
        { rewrite IH. split.
          - intros Hrest j l Hj Hj5 Hl Hne.
            destruct (decide (j = i)) as [->|]; [congruence|].
            apply (Hrest j l); [lia | done..].
          - intros Hall j l Hj Hj5 Hl Hne. apply (Hall j l); [lia | done..]. }
        split; [done|]. intros Hall. destruct Hcount.
        apply (Hall i line); [lia | done..].
      * split; [|done]. intros _ j line Hj Hj5. lia.
    + split; [|done]. intros _ j line Hj Hj5 Hl.
      apply lookup_lt_Some in Hl. lia.
Qed.

Lemma detectCSV_csvShape (trimmed : string) (lines : list string) :
  detectCSV trimmed lines = true ↔ csvShape trimmed lines.
Proof.
  unfold detectCSV, csvShape.
  destruct (Contains trimmed ",") eqn:Hcomma; cbn [negb orb].
  2:{ split; [done | by intros (? & _)]. }
  destruct (Nat.leb_spec (length lines) 1) as [Hlen|Hlen].
  { split; [done|]. intros (_ & ? & _). lia. }
  destruct (lines !! 0) as [line0|] eqn:Hzero.
  2:{ split; [done|]. by intros (_ & _ & l & ? & _). }
  destruct (Nat.eqb_spec (Count line0 ","%char) 0) as [Hfirst|Hfirst].
  { split; [done|]. intros (_ & _ & l & [= <-] & ? & _). lia. }
  rewrite detectCSV_loop_spec. split.
  - intros Hloop. repeat split; [done|]. exists line0. repeat split; [lia|].
    intros i line Hi. apply Hloop; lia.
  - intros (_ & _ & l & [= <-] & _ & Hall) j line Hj Hj5. apply Hall. lia.
Qed.

(** X5. [detectCSV] holds exactly for the CSV shape it tests: a comma
    in the text, more than one line, at least one comma in the first line,
    and the same comma count in each non-empty line among lines 2 to 5.
    Lines after the fifth are never looked at: they cannot change the
    answer. *)
Theorem detectCSV_first_five_lines (trimmed : string) (lines rest : list string) :
  (detectCSV trimmed lines = true ↔ csvShape trimmed lines) ∧
  (5 ≤ length lines →
     detectCSV trimmed (lines ++ rest) = detectCSV trimmed lines).
Proof.
  split; [apply detectCSV_csvShape|]. intros Hfive.
  apply eq_true_iff_eq. rewrite !detectCSV_csvShape. unfold csvShape.
  rewrite length_app.
  assert (∀ i, i < 5 → (lines ++ rest) !! i = lines !! i) as Hlook
    by (intros i Hi; apply lookup_app_l; lia).
  rewrite (Hlook 0) by lia. split.
  - intros (Hc & _ & line0 & Hz & Hpos & Hall).
    repeat split; [done | lia |]. exists line0. repeat split; [done..|].
    intros i line Hi Hl Hne. apply (Hall i line); [done | | done].
    rewrite Hlook by lia. exact Hl.
  - intros (Hc & _ & line0 & Hz & Hpos & Hall).
    repeat split; [done | lia |]. exists line0. repeat split; [done..|].
    intros i line Hi Hl Hne. apply (Hall i line); [done | | done].
    rewrite Hlook in Hl by lia. exact Hl.
Qed.

Lemma detectCSV_first_five_lines_witness :
  detectCSV "a,b" (["a,b"; "1,2"; "3,4"; "5,6"; "7,8"] ++ ["ragged"; "x,y,z"]) = true.
Proof.
  rewrite (proj2 (detectCSV_first_five_lines "a,b"
                    ["a,b"; "1,2"; "3,4"; "5,6"; "7,8"] ["ragged"; "x,y,z"])).
  - reflexivity.
  - cbn [length]. lia.
Defined.

(** ** Requirements and INI detection *)

Section LineFacts.
Context (U : Unicode).

Lemma detectRequirements_loop_spec (lines : list string) :
  detectRequirements_loop U lines = true ↔ ∃ line, line ∈ lines ∧ namesPackage U line.
Proof.
  induction lines as [|line rest IH]; cbn [detectRequirements_loop].
  - split; [done|]. intros (l & Hl & _). by apply elem_of_nil in Hl.
  - cbv zeta. destruct (decide (namesPackage U line)) as [Hpkg|Hpkg].
    + destruct Hpkg as (Hnb & Hnc & Hlow).
      rewrite bool_decide_eq_false_2, Hnc, Hlow by done. cbn.
      split; [|done]. intros _. exists line. split; [by left | done].
    + assert ((negb (bool_decide (TrimSpace U line = EmptyString)) &&
               negb (HasPrefix (TrimSpace U line) "#") &&
               ContainsAny (TrimSpace U line) "abcdefghijklmnopqrstuvwxyz") = false)
        as ->.
      { apply not_true_is_false. rewrite !andb_true_iff, !negb_true_iff.
        intros [[Hnb Hnc] Hlow]. apply Hpkg. repeat split; [|done..].
        by apply bool_decide_eq_false_1 in Hnb. }
      rewrite IH. split.
      * intros (l & Hl & Hp). exists l. split; [by right | done].
      * intros (l & [-> | Hl]%elem_of_cons & Hp); [done|]. by exists l.
Qed.

Lemma isINI_loop_spec (lines : list string) :
  isINI_loop U lines = true ↔ ∃ line, line ∈ lines ∧ isSectionHeader U line.
Proof.
  induction lines as [|line rest IH]; cbn [isINI_loop].
  - split; [done|]. intros (l & Hl & _). by apply elem_of_nil in Hl.
  - cbv zeta. destruct (decide (isSectionHeader U line)) as [Hsec|Hsec].
    + destruct Hsec as [Hp Hs]. rewrite Hp, Hs. cbn.
      split; [|done]. intros _. exists line. split; [by left | done].
    + assert ((HasPrefix (TrimSpace U line) "[" && HasSuffix (TrimSpace U line) "]")
              = false) as ->.
      { apply not_true_is_false. rewrite andb_true_iff. intros [Hp Hs]. by apply Hsec. }
      rewrite IH. split.
      * intros (l & Hl & Hp). exists l. split; [by right | done].
      * intros (l & [-> | Hl]%elem_of_cons & Hp); [done|]. by exists l.
Qed.

End LineFacts.

(** X6. [detectRequirements] holds exactly when the text contains one of
    the version specifiers [==], [>=], [<=], [~=] and some line that is
    neither blank nor a comment contains a lower-case ASCII letter; blank
    lines and comment lines never count as package lines. *)
Theorem detectRequirements_shape (U : Unicode) (trimmed : string) (lines : list string) :
  detectRequirements U trimmed lines = true ↔
    (Contains trimmed "==" = true ∨ Contains trimmed ">=" = true ∨
     Contains trimmed "<=" = true ∨ Contains trimmed "~=" = true) ∧
    ∃ line, line ∈ lines ∧ namesPackage U line.
Proof.
  unfold detectRequirements. rewrite <- detectRequirements_loop_spec.
  destruct (Contains trimmed "=="), (Contains trimmed ">="),
    (Contains trimmed "<="), (Contains trimmed "~="); cbn [negb andb];
    try (split; [intros ->; split; [auto | done] | by intros [_ ?]]).
  split; [done|]. intros [[?|[?|[?|?]]] _]; done.
Qed.

(** X7. [isINI] holds exactly when the text contains both square
    brackets and some line, trimmed, starts with an opening and ends with a
    closing square bracket. *)
Theorem isINI_shape (U : Unicode) (trimmed : string) (lines : list string) :
  isINI U trimmed lines = true ↔
    Contains trimmed "[" = true ∧ Contains trimmed "]" = true ∧
    ∃ line, line ∈ lines ∧ isSectionHeader U line.
Proof.
  unfold isINI. rewrite <- isINI_loop_spec.
  destruct (Contains trimmed "["), (Contains trimmed "]"); cbn [negb orb];
    first [ by split; [intros ->| intros (_ & _ & ?)]
          | split; [done | by intros (? & ? & _)] ].
Qed.

(** ** The verdict of the Dockerfile validator *)

Section DockerfileVerdict.
Context (U : Unicode).

Lemma DockerfileValidator_loop_clean v lines i rest hasFrom :
  (∀ k line, rest !! k = Some line → offendingAt U lines (i + k) line = false) →
  DockerfileValidator_loop U v lines i rest hasFrom =
    inr (hasFrom || existsb (countsAsFrom U) rest).
Proof.
  revert i hasFrom. induction rest as [|line rest IH]; intros i hasFrom Hclean.
  { cbn. by rewrite orb_false_r. }
  assert (offendingAt U lines i line = false) as Hline.
  { rewrite <- (Nat.add_0_r i). by apply Hclean. }
  assert (∀ k l, rest !! k = Some l → offendingAt U lines (i + 1 + k) l = false) as Hrest.
  { intros k l Hl. replace (i + 1 + k) with (i + S k) by lia. by apply Hclean. }
  cbn [DockerfileValidator_loop existsb]. cbv zeta.
  unfold offendingAt, countsAsFrom, skippedLine, continuationAt, isFromLine in *.
  destruct (bool_decide _ || HasPrefix _ "#"); cbn [negb andb orb] in *.
  { by apply IH. }
  destruct ((0 <? i) && _); cbn [negb andb] in *.
  { rewrite IH by done.
    destruct (HasPrefix (ToUpper U (TrimSpace U line)) "FROM "), hasFrom; done. }
  rewrite Hline. rewrite IH by done.
  destruct (HasPrefix (ToUpper U (TrimSpace U line)) "FROM "), hasFrom; done.
Qed.

Lemma DockerfileValidator_loop_first v lines i rest hasFrom k line :
  rest !! k = Some line →
  offendingAt U lines (i + k) line = true →
  (∀ j l, j < k → rest !! j = Some l → offendingAt U lines (i + j) l = false) →
  DockerfileValidator_loop U v lines i rest hasFrom =
    inl (failure v ("invalid instruction on line " +:+ itoa (i + k + 1) +:+ ": " +:+
                    TrimSpace U line)).
Proof.
  revert i hasFrom k. induction rest as [|head rest IH]; intros i hasFrom k Hk Hbad Hfirst;
    [done|].
  cbn [DockerfileValidator_loop]. cbv zeta. destruct k as [|k].
  - injection Hk as ->. rewrite Nat.add_0_r in *.
    unfold offendingAt, skippedLine, continuationAt in Hbad.
    apply andb_true_iff in Hbad as [[Hskip Hcont]%andb_true_iff Hinstr].
    apply negb_true_iff in Hskip, Hcont. by rewrite Hskip, Hcont, Hinstr.
  - cbn in Hk.
    assert (offendingAt U lines i head = false) as Hhead.
    { rewrite <- (Nat.add_0_r i). apply Hfirst; [lia | done]. }
    assert (∀ j l, j < k → rest !! j = Some l →
                   offendingAt U lines (i + 1 + j) l = false) as Hrest.
    { intros j l Hj Hl. replace (i + 1 + j) with (i + S j) by lia.
      apply Hfirst; [lia | done]. }
    replace (i + S k) with (i + 1 + k) in * by lia.
    unfold offendingAt, skippedLine, continuationAt in Hhead.
    destruct (bool_decide _ || HasPrefix _ "#"); cbn [negb andb] in Hhead.
    { by apply IH. }
    destruct ((0 <? i) && _); cbn [negb andb] in Hhead.
    { by apply IH. }
    rewrite Hhead. by apply IH.
Qed.

Lemma DockerfileValidator_loop_inr_inv v lines i rest hasFrom h :
  DockerfileValidator_loop U v lines i rest hasFrom = inr h →
  ∀ k line, rest !! k = Some line → offendingAt U lines (i + k) line = false.
Proof.
  revert i hasFrom. induction rest as [|head rest IH]; intros i hasFrom Hloop k line Hk;
    [done|].
  cbn [DockerfileValidator_loop] in Hloop. cbv zeta in Hloop.
  destruct k as [|k].
  - injection Hk as ->. rewrite Nat.add_0_r.
    unfold offendingAt, skippedLine, continuationAt.
    destruct (bool_decide _ || HasPrefix _ "#"); [done|].
    destruct ((0 <? i) && _); [done|].
    by destruct (hasValidInstruction _ _).
  - cbn in Hk. replace (i + S k) with (i + 1 + k) by lia.
    destruct (bool_decide _ || HasPrefix _ "#"); [by apply (IH _ _ Hloop)|].
    destruct ((0 <? i) && _); [by apply (IH _ _ Hloop)|].
    destruct (negb _); [done | by apply (IH _ _ Hloop)].
Qed.

End DockerfileVerdict.

(** X8. The Dockerfile validator, on the newline split of its raw
    input: (1) it stops at the first line that is neither skipped (blank or
    comment), nor a continuation (raw previous line ending in a backslash),
    nor starting with an instruction keyword, and names its 1-based number
    and its trimmed text; (2) when no such line exists, it answers valid
    exactly when some non-skipped line starts, upper-cased, with [FROM ],
    and [missing required FROM instruction] otherwise; (3) so it answers
    valid exactly when no line is rejected and a FROM line exists. A FROM
    on a continuation line counts. It calls no parser. *)
Theorem DockerfileValidator_verdict (U : Unicode) (P : Parsers)
    (v : baseValidator) (data : string) :
  (∀ k line,
     Split data nl !! k = Some line →
     offendingAt U (Split data nl) k line = true →
     (∀ j l, j < k → Split data nl !! j = Some l →
             offendingAt U (Split data nl) j l = false) →
     Validate U P (DockerfileValidator v) data =
       ret (failure v ("invalid instruction on line " +:+ itoa (k + 1) +:+ ": " +:+
                       TrimSpace U line))) ∧
  ((∀ k line, Split data nl !! k = Some line →
              offendingAt U (Split data nl) k line = false) →
     Validate U P (DockerfileValidator v) data =
       ret (if existsb (countsAsFrom U) (Split data nl) then success v
            else failure v "missing required FROM instruction")) ∧
  (Valid (outcome (Validate U P (DockerfileValidator v) data)) = true ↔
     (∀ k line, Split data nl !! k = Some line →
                offendingAt U (Split data nl) k line = false) ∧
     existsb (countsAsFrom U) (Split data nl) = true).
Proof.
  cbn [Validate]. unfold DockerfileValidator_Validate. cbv zeta. split; [|split].
  - intros k line Hk Hbad Hfirst.
    by rewrite (DockerfileValidator_loop_first U v _ 0 _ false k line Hk Hbad Hfirst).
  - intros Hclean.
    rewrite (DockerfileValidator_loop_clean U v _ 0 _ false Hclean). cbn [orb].
    by destruct (existsb _ _).
  - split.
    + destruct (DockerfileValidator_loop U v (Split data nl) 0 (Split data nl) false)
        as [res|h] eqn:Hloop.
      * apply DockerfileValidator_loop_invalid in Hloop. cbn [ret outcome fst].
        by rewrite Hloop.
      * pose proof (DockerfileValidator_loop_inr_inv U v _ 0 _ false h Hloop) as Hclean.
        rewrite (DockerfileValidator_loop_clean U v _ 0 _ false Hclean) in Hloop.
        injection Hloop as <-. cbn [orb].
        destruct (existsb _ _); [done | by cbn].
    + intros [Hclean Hfrom].
      rewrite (DockerfileValidator_loop_clean U v _ 0 _ false Hclean). cbn [orb].
      by rewrite Hfrom.
Qed.

Lemma DockerfileValidator_verdict_witness :
  Validate ascii_only toy_parsers (DockerfileValidator {| format := FormatDockerfile |})
    (lines_of ["# stage"; "RUN make \"; "FROM scratch"; "  copy . /app"; "launch"; "oops"])
  = ret (failure {| format := FormatDockerfile |} "invalid instruction on line 5: launch") ∧
  Validate ascii_only toy_parsers (DockerfileValidator {| format := FormatDockerfile |})
    (lines_of ["# stage"; "RUN make \"; "FROM scratch"; "  copy . /app"])
  = ret (success {| format := FormatDockerfile |}).
Proof.
  split.
  - apply (proj1 (DockerfileValidator_verdict ascii_only toy_parsers
                    {| format := FormatDockerfile |}
                    (lines_of ["# stage"; "RUN make \"; "FROM scratch"; "  copy . /app";
                               "launch"; "oops"])) 4 "launch").
    + reflexivity.
    + reflexivity.
    + intros j l Hj Hl.
      destruct j as [|[|[|[|j]]]]; [| | | |lia]; vm_compute in Hl; injection Hl as <-;
        reflexivity.
  - apply (proj1 (proj2 (DockerfileValidator_verdict ascii_only toy_parsers
                    {| format := FormatDockerfile |}
                    (lines_of ["# stage"; "RUN make \"; "FROM scratch"; "  copy . /app"])))).
    intros k l Hl.
    destruct k as [|[|[|[|k]]]]; vm_compute in Hl; [injection Hl as <-; reflexivity..|done].
Defined.

(** ** The verdict of the Requirements validator *)

Section RequirementsVerdict.
Context (U : Unicode).

Lemma RequirementsValidator_loop_clean v i lines :
  (∀ line, line ∈ lines → badRequirement U line = false) →
  RequirementsValidator_loop U v i lines = None.
Proof.
  revert i. induction lines as [|line rest IH]; intros i Hclean; [done|].
  cbn [RequirementsValidator_loop]. cbv zeta.
  assert (badRequirement U line = false) as Hline by (apply Hclean; by left).
  assert (∀ l, l ∈ rest → badRequirement U l = false) as Hrest
    by (intros l Hl; apply Hclean; by right).
  unfold badRequirement, skippedLine in Hline.
  destruct (bool_decide _ || HasPrefix _ "#"); cbn [negb andb] in Hline; [by apply IH|].
  rewrite Hline. by apply IH.
Qed.

Lemma RequirementsValidator_loop_first v i lines k line :
  lines !! k = Some line →
  badRequirement U line = true →
  (∀ j l, j < k → lines !! j = Some l → badRequirement U l = false) →
  RequirementsValidator_loop U v i lines =
    Some (failure v ("invalid requirement on line " +:+ itoa (i + k + 1) +:+ ": " +:+
                     TrimSpace U line)).
Proof.
  revert i k. induction lines as [|head rest IH]; intros i k Hk Hbad Hfirst; [done|].
  cbn [RequirementsValidator_loop]. cbv zeta. destruct k as [|k].
  - injection Hk as ->. rewrite Nat.add_0_r.
    unfold badRequirement, skippedLine in Hbad.
    apply andb_true_iff in Hbad as [Hskip Hany]. apply negb_true_iff in Hskip.
    by rewrite Hskip, Hany.
  - cbn in Hk.
    assert (badRequirement U head = false) as Hhead by (apply (Hfirst 0); [lia | done]).
    assert (∀ j l, j < k → rest !! j = Some l → badRequirement U l = false) as Hrest.
    { intros j l Hj Hl. apply (Hfirst (S j)); [lia | done]. }
    replace (i + S k + 1) with (i + 1 + k + 1) by lia.
    unfold badRequirement, skippedLine in Hhead.
    destruct (bool_decide _ || HasPrefix _ "#"); cbn [negb andb] in Hhead; [by apply IH|].
    rewrite Hhead. by apply IH.
Qed.

Lemma RequirementsValidator_loop_None_inv v i lines :
  RequirementsValidator_loop U v i lines = None →
  ∀ line, line ∈ lines → badRequirement U line = false.
Proof.
  revert i. induction lines as [|head rest IH]; intros i Hloop line Hin.
  { by apply elem_of_nil in Hin. }
  cbn [RequirementsValidator_loop] in Hloop. cbv zeta in Hloop.
  unfold badRequirement, skippedLine.
  apply elem_of_cons in Hin as [-> | Hin].
  - destruct (bool_decide _ || HasPrefix _ "#"); [done|].
    by destruct (ContainsAny _ _).
  - destruct (bool_decide _ || HasPrefix _ "#"); [by apply (IH (i + 1))|].
    destruct (negb (ContainsAny _ _)); [done | by apply (IH (i + 1))].
Qed.

End RequirementsVerdict.

(** X9. The Requirements validator answers valid exactly when every
    line of the newline split that is neither blank nor a comment contains
    a letter, a digit, an underscore or a hyphen; otherwise its error names
    the 1-based number and the trimmed text of the first line that does
    not. It calls no parser. *)
Theorem RequirementsValidator_verdict (U : Unicode) (P : Parsers)
    (v : baseValidator) (data : string) :
  (Valid (outcome (Validate U P (RequirementsValidator v) data)) = true ↔
     ∀ line, line ∈ Split data nl → badRequirement U line = false) ∧
  (∀ k line,
     Split data nl !! k = Some line →
     badRequirement U line = true →
     (∀ j l, j < k → Split data nl !! j = Some l → badRequirement U l = false) →
     Validate U P (RequirementsValidator v) data =
       ret (failure v ("invalid requirement on line " +:+ itoa (k + 1) +:+ ": " +:+
                       TrimSpace U line))) ∧
  calls (Validate U P (RequirementsValidator v) data) = [].
Proof.
  cbn [Validate]. unfold RequirementsValidator_Validate. cbv zeta.
  split; [|split].
  - destruct (decide (Forall (λ l, badRequirement U l = false) (Split data nl)))
      as [Hall|Hex].
    + rewrite Forall_forall in Hall.
      rewrite (RequirementsValidator_loop_clean U v 0 _ Hall). done.
    + destruct (RequirementsValidator_loop U v 0 (Split data nl)) as [res|] eqn:Hloop.
      * apply RequirementsValidator_loop_invalid in Hloop. cbn [ret outcome fst].
        rewrite Hloop. split; [done|]. intros Hall. destruct Hex.
        by apply Forall_forall.
      * destruct Hex. apply Forall_forall.
        by apply (RequirementsValidator_loop_None_inv U v 0).
  - intros k line Hk Hbad Hfirst.
    by rewrite (RequirementsValidator_loop_first U v 0 _ k line Hk Hbad Hfirst).
  - by destruct (RequirementsValidator_loop _ _ _ _).
Qed.

Lemma RequirementsValidator_verdict_witness :
  Validate ascii_only toy_parsers (RequirementsValidator {| format := FormatRequirements |})
    (lines_of ["numpy==1.21.0"; "# pinned"; EmptyString; " >= "; "==="])
  = ret (failure {| format := FormatRequirements |} "invalid requirement on line 4: >=").
Proof.
  apply (proj1 (proj2 (RequirementsValidator_verdict ascii_only toy_parsers
                  {| format := FormatRequirements |}
                  (lines_of ["numpy==1.21.0"; "# pinned"; EmptyString; " >= "; "==="])))
           3 " >= ").
  - reflexivity.
  - reflexivity.
  - intros j l Hj Hl.
    destruct j as [|[|[|j]]]; [| | |lia]; vm_compute in Hl; injection Hl as <-; reflexivity.
Defined.

(** ** The verdict of the Jupyter validator *)

(** X10. The Jupyter validator decodes the buffer once as a JSON object.
    A decoding error is reported behind the prefix [invalid JSON: ];
    otherwise the first of the keys [cells], [metadata], [nbformat] (in
    this order) that the object lacks is reported as the missing field, and
    the notebook is valid exactly when all three are present. *)
Theorem JupyterValidator_verdict (U : Unicode) (P : Parsers)
    (v : baseValidator) (data : string) :
  calls (Validate U P (JupyterValidator v) data) = [(PJSONMap, data)] ∧
  outcome (Validate U P (JupyterValidator v) data) =
    match json_Unmarshal_map P data with
    | (Some msg, _) => failure v ("invalid JSON: " +:+ msg)
    | (None, notebook) =>
        if decide ("cells" ∉ notebook) then failure v "missing required field: cells"
        else if decide ("metadata" ∉ notebook)
             then failure v "missing required field: metadata"
        else if decide ("nbformat" ∉ notebook)
             then failure v "missing required field: nbformat"
        else success v
    end ∧
  (Valid (outcome (Validate U P (JupyterValidator v) data)) = true ↔
     (json_Unmarshal_map P data).1 = None ∧
     {[ "cells"; "metadata"; "nbformat" ]} ⊆ (json_Unmarshal_map P data).2).
Proof.
  cbn [Validate]. unfold JupyterValidator_Validate.
  rewrite calls_bind, outcome_bind. cbn [invoke calls outcome fst snd].
  destruct (json_Unmarshal_map P data) as [[msg|] notebook]; cbn [fst snd].
  { split; [done|]. split; [done|]. split; [done | by intros [? _]]. }
  destruct (decide ("cells" ∈ notebook)) as [Hc|Hc].
  2:{ rewrite bool_decide_eq_false_2, decide_True by done. cbn [negb].
      split; [done|]. split; [done|]. split; [done|].
      intros [_ Hsub]. exfalso. apply Hc, Hsub. set_solver. }
  rewrite bool_decide_eq_true_2, decide_False by (done || by intros ?). cbn [negb].
  destruct (decide ("metadata" ∈ notebook)) as [Hm|Hm].
  2:{ rewrite bool_decide_eq_false_2, decide_True by done. cbn [negb].
      split; [done|]. split; [done|]. split; [done|].
      intros [_ Hsub]. exfalso. apply Hm, Hsub. set_solver. }
  rewrite bool_decide_eq_true_2, decide_False by (done || by intros ?). cbn [negb].
  destruct (decide ("nbformat" ∈ notebook)) as [Hn|Hn].
  2:{ rewrite bool_decide_eq_false_2, decide_True by done. cbn [negb].
      split; [done|]. split; [done|]. split; [done|].
      intros [_ Hsub]. exfalso. apply Hn, Hsub. set_solver. }
  rewrite bool_decide_eq_true_2, decide_False by (done || by intros ?). cbn [negb].
  split; [done|]. split; [done|]. split; [intros _; split; [done|] | done].
  intros x Hx. rewrite !elem_of_union, !elem_of_singleton in Hx.
  by destruct Hx as [[-> | ->] | ->].
Qed.

(** ** The format a result carries *)

Section FormatFacts.
Context (U : Unicode) (P : Parsers).

Lemma JSONLValidator_loop_Format v i lines res :
  outcome (JSONLValidator_loop U P v i lines) = Some res →
  Format_ res = format v ∧ FileName res = EmptyString.
Proof.
  revert i. induction lines as [|line rest IH]; intros i; [done|].
  rewrite JSONLValidator_loop_cons.
  destruct (decide _); [apply IH|].
  destruct (json_Unmarshal P _); [|apply IH].
  by intros [= <-].
Qed.

Lemma RequirementsValidator_loop_Format v i lines res :
  RequirementsValidator_loop U v i lines = Some res →
  Format_ res = format v ∧ FileName res = EmptyString.
Proof.
  revert i. induction lines as [|line rest IH]; intros i; [done|].
  cbn [RequirementsValidator_loop]. cbv zeta.
  destruct (bool_decide _ || _); [apply IH|].
  destruct (negb _); [by intros [= <-] | apply IH].
Qed.

Lemma DockerfileValidator_loop_Format v lines i rest hasFrom res :
  DockerfileValidator_loop U v lines i rest hasFrom = inl res →
  Format_ res = format v ∧ FileName res = EmptyString.
Proof.
  revert i hasFrom. induction rest as [|line rest IH]; intros i hasFrom; [done|].
  cbn [DockerfileValidator_loop]. cbv zeta.
  destruct (bool_decide _ || HasPrefix _ "#"); [apply IH|].
  destruct ((0 <? i) && _); [apply IH|].
  destruct (negb _); [by intros [= <-] | apply IH].
Qed.

Lemma Validate_Format (validator : Validator) (data : string) :
  Format_ (outcome (Validate U P validator data)) = Validator_Format validator ∧
  FileName (outcome (Validate U P validator data)) = EmptyString.
Proof.
  destruct validator as [v|v|v|v|v|v|v|v|v|v|v|v|v|v];
    cbn [Validate Validator_Format base].
  1-5, 7, 9-10: done.
  - unfold GraphQLValidator_Validate. by destruct (len data =? 0).
  - done.
  - rewrite JSONLValidator_Validate_outcome.
    destruct (outcome (JSONLValidator_loop _ _ _ _ _)) as [res|] eqn:Hloop; [|done].
    by apply JSONLValidator_loop_Format in Hloop.
  - unfold JupyterValidator_Validate. rewrite outcome_bind. cbn [invoke outcome fst].
    destruct (json_Unmarshal_map P data) as [[msg|] notebook]; by repeat case_match.
  - unfold RequirementsValidator_Validate. cbv zeta.
    destruct (RequirementsValidator_loop _ _ _ _) as [res|] eqn:Hloop; [|done].
    by apply RequirementsValidator_loop_Format in Hloop.
  - unfold DockerfileValidator_Validate. cbv zeta.
    destruct (DockerfileValidator_loop _ _ _ _ _ _) as [res|hasFrom] eqn:Hloop.
    + by apply DockerfileValidator_loop_Format in Hloop.
    + by destruct hasFrom.
Qed.

End FormatFacts.

(** X11. Every result of [Validate] carries the format of the validator
    that produced it and no file name; every result of [ValidateAuto]
    carries the format [DetectFormat] answers for the buffer, so a valid
    result of [ValidateAuto] never carries [unknown]. *)
Theorem result_carries_format (U : Unicode) (P : Parsers)
    (validator : Validator) (data : string) :
  Format_ (outcome (Validate U P validator data)) = Validator_Format validator ∧
  FileName (outcome (Validate U P validator data)) = EmptyString ∧
  Format_ (outcome (ValidateAuto U P data)) = DetectFormat U data ∧
  (Valid (outcome (ValidateAuto U P data)) = false ∨
   Format_ (outcome (ValidateAuto U P data)) ≠ FormatUnknown).
Proof.
  destruct (Validate_Format U P validator data) as [Hfmt Hname].
  split; [exact Hfmt|]. split; [exact Hname|].
  unfold ValidateAuto. cbv zeta.
  destruct (decide (DetectFormat U data = FormatUnknown)) as [Hunk|Hdet].
  { rewrite bool_decide_eq_true_2 by done. split; [by rewrite Hunk | by left]. }
  rewrite bool_decide_eq_false_2 by done.
  destruct (DetectFormat_detectable U data) as [Hunk | Hreg]; [done|].
  destruct (validatorMap_registered _ Hreg) as (constructor & Hlook & Hf).
  unfold NewValidator. rewrite Hlook.
  destruct (Validate_Format U P (constructor tt) data) as [-> _].
  rewrite Hf. split; [done | by right].
Qed.

(** ** What the JSON-Lines validator parses *)

Section JSONLCalls.
Context (U : Unicode) (P : Parsers).

Lemma JSONLValidator_loop_calls_clean v i lines :
  (∀ line, line ∈ lines → ¬ rejected U P line) →
  calls (JSONLValidator_loop U P v i lines) =
    (λ t, (PJSON, t)) <$> nonBlankTexts U lines.
Proof.
  unfold nonBlankTexts.
  revert i. induction lines as [|line rest IH]; intros i Hclean; [done|].
  assert (∀ l, l ∈ rest → ¬ rejected U P l) as Hrest
    by (intros l Hl; apply Hclean; by right).
  cbn [JSONLValidator_loop fmap list_fmap]. cbv zeta.
  destruct (decide (TrimSpace U line = EmptyString)) as [Hblank|Hblank].
  - rewrite filter_cons_False by (by intros ?). by apply IH.
  - rewrite filter_cons_True by done. rewrite calls_bind. cbn [invoke calls outcome fst snd].
    destruct (json_Unmarshal P (TrimSpace U line)) as [msg|] eqn:Hparse.
    + destruct (Hclean line); [by left|]. split; [done | by rewrite Hparse].
    + cbn [app fmap list_fmap]. f_equal. by apply IH.
Qed.

Lemma JSONLValidator_loop_calls_first v i lines k line :
  lines !! k = Some line →
  rejected U P line →
  (∀ j l, j < k → lines !! j = Some l → ¬ rejected U P l) →
  calls (JSONLValidator_loop U P v i lines) =
    (λ t, (PJSON, t)) <$> nonBlankTexts U (take (S k) lines).
Proof.
  unfold nonBlankTexts.
  revert i k. induction lines as [|head rest IH]; intros i k Hk Hrej Hfirst; [done|].
  cbn [JSONLValidator_loop take fmap list_fmap]. cbv zeta. destruct k as [|k].
  - injection Hk as ->. destruct Hrej as [Hnb Hparse].
    rewrite decide_False by done. rewrite filter_cons_True by done.
    rewrite calls_bind. cbn [invoke calls outcome fst snd].
    destruct (json_Unmarshal P (TrimSpace U line)) as [msg|]; [|done].
    by rewrite take_0.
  - cbn in Hk.
    assert (¬ rejected U P head) as Hhead by (apply (Hfirst 0); [lia | done]).
    assert (∀ j l, j < k → rest !! j = Some l → ¬ rejected U P l) as Hrest.
    { intros j l Hj Hl. apply (Hfirst (S j)); [lia | done]. }
    destruct (decide (TrimSpace U head = EmptyString)) as [Hblank|Hblank].
    + rewrite filter_cons_False by (by intros ?). by apply IH.
    + rewrite filter_cons_True by done. rewrite calls_bind.
      cbn [invoke calls outcome fst snd].
      destruct (json_Unmarshal P (TrimSpace U head)) as [msg|] eqn:Hparse.
      * destruct Hhead. split; [done | by rewrite Hparse].
      * cbn [app fmap list_fmap]. f_equal. by apply IH.
Qed.

Lemma JSONLValidator_Validate_calls v data :
  calls (JSONLValidator_Validate U P v data) =
    calls (JSONLValidator_loop U P v 0 (Split data nl)).
Proof.
  unfold JSONLValidator_Validate. cbv zeta. destruct data as [|c data].
  - cbn. by rewrite decide_True.
  - cbn [len Nat.eqb]. rewrite calls_bind.
    destruct (outcome (JSONLValidator_loop _ _ _ _ _)); cbn [ret calls snd];
      by rewrite app_nil_r.
Qed.

End JSONLCalls.

(** X12. The JSON-Lines validator gives the JSON parser the trimmed text
    of each non-blank line, once and in order, and nothing else: when no
    line is rejected, all of them; when line [k] is the first rejected one,
    those of the lines up to and including [k], so nothing after the first
    rejected line is parsed. *)
Theorem JSONLValidator_parses_each_line_once (U : Unicode) (P : Parsers)
    (v : baseValidator) (data : string) :
  ((∀ line, line ∈ Split data nl → ¬ rejected U P line) →
     calls (Validate U P (JSONLValidator v) data) =
       (λ t, (PJSON, t)) <$> nonBlankTexts U (Split data nl)) ∧
  (∀ k line,
     Split data nl !! k = Some line →
     rejected U P line →
     (∀ j l, j < k → Split data nl !! j = Some l → ¬ rejected U P l) →
     calls (Validate U P (JSONLValidator v) data) =
       (λ t, (PJSON, t)) <$> nonBlankTexts U (take (S k) (Split data nl))).
Proof.
  cbn [Validate]. rewrite JSONLValidator_Validate_calls. split.
  - apply JSONLValidator_loop_calls_clean.
  - intros k line. apply JSONLValidator_loop_calls_first.
Qed.

Lemma JSONLValidator_parses_each_line_once_witness :
  calls (Validate ascii_only toy_parsers (JSONLValidator {| format := FormatJSONL |})
           (lines_of [" {a} "; EmptyString; "oops"; "{b}"]))
  = [(PJSON, "{a}"); (PJSON, "oops")].
Proof.
  rewrite (proj2 (JSONLValidator_parses_each_line_once ascii_only toy_parsers
                    {| format := FormatJSONL |}
                    (lines_of [" {a} "; EmptyString; "oops"; "{b}"])) 2 "oops").
  - reflexivity.
  - reflexivity.
  - split; [done|]. vm_compute. done.
  - intros j l Hj Hl [Hnb Hrej].
    destruct j as [|[|j]]; [| |lia]; vm_compute in Hl; injection Hl as <-.
    + by apply Hrej.
    + by apply Hnb.
Defined.

(** ** Filename detection and the registry *)

Lemma extensionMap_registered (ext : string) (f : Format) :
  extensionMap !! ext = Some f → f ∈ registeredFormats.
Proof.
  unfold extensionMap. intros Hin%elem_of_list_to_map_2.
  unfold registeredFormats.
  repeat (apply elem_of_cons in Hin as [Hin | Hin];
          [apply pair_equal_spec in Hin as [_ ->]; repeat constructor|]).
  by apply elem_of_nil in Hin.
Qed.

Lemma DetectFormatFromFilename_detectable (U : Unicode) (filename : string) :
  detectable (DetectFormatFromFilename U filename).
Proof.
  unfold DetectFormatFromFilename. cbv zeta.
  destruct (_ || _); [right; unfold registeredFormats; repeat constructor|].
  destruct (_ =? _)%Z; [by left|].
  destruct (_ && _); [right; unfold registeredFormats; repeat constructor|].
  destruct (extensionMap !! _) as [f|] eqn:Hlook; [|by left].
  right. by apply (extensionMap_registered _ _ Hlook).
Qed.

(** X13. [DetectFormatFromFilename] answers [unknown] or a registered
    tag, never [auto]: every format of the extension table has a validator,
    so [NewValidator] succeeds on every answer other than [unknown], with a
    validator of that format. *)
Theorem filename_tag_has_validator (U : Unicode) (filename : string) :
  (DetectFormatFromFilename U filename = FormatUnknown ∨
   DetectFormatFromFilename U filename ∈ registeredFormats) ∧
  DetectFormatFromFilename U filename ≠ FormatAuto ∧
  (DetectFormatFromFilename U filename = FormatUnknown ∨
   ∃ validator,
     NewValidator (DetectFormatFromFilename U filename) = inl validator ∧
     Validator_Format validator = DetectFormatFromFilename U filename).
Proof.
  pose proof (DetectFormatFromFilename_detectable U filename) as Hdet.
  split; [exact Hdet|]. split.
  - destruct Hdet as [-> | Hreg]; [fmt_ne|].
    intros Heq. rewrite Heq in Hreg. by apply registered_not_auto.
  - destruct Hdet as [Hunk | Hreg]; [by left | right].
    destruct (validatorMap_registered _ Hreg) as (constructor & Hlook & Hf).
    exists (constructor tt). unfold NewValidator. by rewrite Hlook.
Qed.

(** ** The switch-based versions agree with the tables *)

(** X14. The registry map is a faithful replacement of the earlier
    [switch]: for every format tag, registered or not, the map-based
    [NewValidator] returns what the switch-based one returned (the same
    validator, or the same error text). *)
Theorem NewValidator_agrees_with_switch (f : Format) :
  NewValidator f = Earlier.NewValidator f.
Proof.
  destruct (decide (f ∈ registeredFormats)) as [Hreg|Hreg].
  - unfold registeredFormats in Hreg. rewrite !elem_of_cons, elem_of_nil in Hreg.
    repeat (destruct Hreg as [-> | Hreg]; [vm_compute; reflexivity|]). done.
  - unfold NewValidator. rewrite (validatorMap_unregistered f Hreg).
    unfold registeredFormats in Hreg. rewrite !not_elem_of_cons in Hreg.
    destruct Hreg as (? & ? & ? & ? & ? & ? & ? & ? & ? & ? & ? & ? & ? & ? & _).
    unfold Earlier.NewValidator.
    rewrite !decide_False by done. by destruct (decide _).
Qed.

Lemma extensionMap_switch (ext : string) (ifRequirements : bool) :
  (if bool_decide (ext = "txt") && ifRequirements then FormatRequirements
   else match extensionMap !! ext with
        | Some format => format
        | None => FormatUnknown
        end) =
  (if Earlier.oneOf ext ["json"] then FormatJSON
   else if Earlier.oneOf ext ["yaml"; "yml"] then FormatYAML
   else if Earlier.oneOf ext ["xml"] then FormatXML
   else if Earlier.oneOf ext ["toml"] then FormatTOML
   else if Earlier.oneOf ext ["csv"] then FormatCSV
   else if Earlier.oneOf ext ["graphql"; "gql"] then FormatGraphQL
   else if Earlier.oneOf ext ["ini"; "cfg"; "conf"] then FormatINI
   else if Earlier.oneOf ext ["hcl"; "tf"; "tfvars"] then FormatHCL
   else if Earlier.oneOf ext ["pb"; "proto"; "textproto"; "pbtxt"] then FormatProtobuf
   else if Earlier.oneOf ext ["md"; "markdown"; "mkd"; "mdwn"; "mdown"; "mdtxt"; "mdtext"]
        then FormatMarkdown
   else if Earlier.oneOf ext ["jsonl"; "ndjson"; "jsonlines"] then FormatJSONL
   else if Earlier.oneOf ext ["ipynb"] then FormatJupyter
   else if Earlier.oneOf ext ["txt"] then
     if ifRequirements then FormatRequirements else FormatUnknown
   else if Earlier.oneOf ext ["dockerfile"; "containerfile"] then FormatDockerfile
   else FormatUnknown).
Proof.
  destruct (decide (ext ∈ (map_to_list extensionMap).*1 ∨ ext = "txt")) as [Hkey|Hkey].
  - assert (ext ∈ ["json"; "yaml"; "yml"; "xml"; "toml"; "csv"; "graphql"; "gql";
                   "ini"; "cfg"; "conf"; "hcl"; "tf"; "tfvars"; "pb"; "proto";
                   "textproto"; "pbtxt"; "md"; "markdown"; "mkd"; "mdwn"; "mdown";
                   "mdtxt"; "mdtext"; "jsonl"; "ndjson"; "jsonlines"; "ipynb";
                   "dockerfile"; "containerfile"; "txt"]) as Hin.
    { destruct Hkey as [Hkey | ->]; [|repeat constructor].
      apply list_elem_of_fmap in Hkey as ([k f] & -> & Hkf).
      apply elem_of_map_to_list in Hkf. unfold extensionMap in Hkf.
      apply elem_of_list_to_map_2 in Hkf. cbn [fst].
      repeat (apply elem_of_cons in Hkf as [Hkf | Hkf];
              [apply pair_equal_spec in Hkf as [-> _]; repeat constructor|]).
      by apply elem_of_nil in Hkf. }
    rewrite !elem_of_cons, elem_of_nil in Hin.
    repeat (destruct Hin as [-> | Hin]; [by destruct ifRequirements|]). done.
  - assert (ext ≠ "txt") as Htxt by (intros ->; apply Hkey; by right).
    assert (extensionMap !! ext = None) as Hnone.
    { apply not_elem_of_dom. intros Hdom. apply Hkey. left.
      apply elem_of_dom in Hdom as [f Hf].
      apply list_elem_of_fmap. exists (ext, f). split; [done|].
      by apply elem_of_map_to_list. }
    rewrite Hnone, (bool_decide_eq_false_2 _ Htxt). cbn [andb].
    assert (∀ values, (∀ x, x ∈ values → extensionMap !! x ≠ None ∨ x = "txt") →
                      Earlier.oneOf ext values = false) as Hno.
    { intros values Hvalues. apply bool_decide_eq_false_2. intros Hin.
      destruct (Hvalues ext Hin) as [Hsome | ->]; [by rewrite Hnone in Hsome | done]. }
    rewrite !Hno; [done|..];
      intros x Hx; rewrite !elem_of_cons, elem_of_nil in Hx;
      repeat (destruct Hx as [-> | Hx]; [first [by right | by left]|]); done.
Qed.

(** X15. The extension table is a faithful replacement of the earlier
    [switch]: for every file name the table-based
    [DetectFormatFromFilename] answers what the switch-based one answered,
    including the [txt] case, which the table leaves to a miss. *)
Theorem DetectFormatFromFilename_agrees_with_switch (U : Unicode) (filename : string) :
  DetectFormatFromFilename U filename = Earlier.DetectFormatFromFilename U filename.
Proof.
  unfold DetectFormatFromFilename, Earlier.DetectFormatFromFilename. cbv zeta.
  change ("dockerfile" +:+ ".") with "dockerfile.".
  destruct (_ || _); [reflexivity|].
  destruct (_ =? _)%Z; [reflexivity|].
  apply extensionMap_switch.
Qed.

(** ** Letter case and directories in file names *)

Lemma lowerByte_isRuneSelf (c : ascii) : isRuneSelf (lowerByte c) = isRuneSelf c.
Proof. by destruct c as [[] [] [] [] [] [] [] []]. Qed.

Lemma lowerByte_idem (c : ascii) : lowerByte (lowerByte c) = lowerByte c.
Proof. by destruct c as [[] [] [] [] [] [] [] []]. Qed.

Lemma lowerByte_slash (c : ascii) : lowerByte c = "/"%char ↔ c = "/"%char.
Proof. destruct c as [[] [] [] [] [] [] [] []]; by vm_compute. Qed.

Lemma lowerByte_dot (c : ascii) : lowerByte c = "."%char ↔ c = "."%char.
Proof. destruct c as [[] [] [] [] [] [] [] []]; by vm_compute. Qed.

Lemma isASCII_lower (s : string) : isASCII (mapBytes lowerByte s) = isASCII s.
Proof.
  induction s as [|c s IH]; [done|]. cbn [mapBytes isASCII].
  by rewrite lowerByte_isRuneSelf, IH.
Qed.

Lemma mapBytes_lower_idem (s : string) :
  mapBytes lowerByte (mapBytes lowerByte s) = mapBytes lowerByte s.
Proof.
  induction s as [|c s IH]; [done|]. cbn [mapBytes]. by rewrite lowerByte_idem, IH.
Qed.

Lemma isASCII_drop (n : nat) (s : string) : isASCII s = true → isASCII (drop n s) = true.
Proof.
  revert s. induction n as [|n IH]; intros s; [done|].
  destruct s as [|c s]; [done|]. cbn [drop isASCII].
  intros [_ Hs]%andb_true_iff. by apply IH.
Qed.

Lemma drop_mapBytes (f : ascii → ascii) (n : nat) (s : string) :
  drop n (mapBytes f s) = mapBytes f (drop n s).
Proof.
  revert s. induction n as [|n IH]; intros s; [done|].
  destruct s as [|c s]; [done|]. cbn [drop mapBytes]. apply IH.
Qed.

Section SeparatorKept.
Context (f : ascii → ascii) (sep : ascii).
Context (Hsep : ∀ c, f c = sep ↔ c = sep).

Lemma LastIndex_from_mapBytes (i : Z) (s : string) :
  LastIndex_from i (mapBytes f s) sep = LastIndex_from i s sep.
Proof.
  revert i. induction s as [|c s IH]; intros i; [done|].
  cbn [mapBytes LastIndex_from]. cbv zeta. rewrite IH.
  destruct (decide (f c = sep)) as [Hf|Hf], (decide (c = sep)) as [Hc|Hc]; try done.
  - destruct Hc. by apply Hsep.
  - destruct Hf. by apply Hsep.
Qed.

Lemma TrimPrefix_mapBytes (s : string) :
  TrimPrefix (mapBytes f s) (String sep EmptyString) =
  mapBytes f (TrimPrefix s (String sep EmptyString)).
Proof.
  unfold TrimPrefix. destruct s as [|c s]; [done|]. cbn [mapBytes HasPrefix len drop].
  rewrite !HasPrefix_empty.
  destruct (decide (f c = sep)) as [Hf|Hf], (decide (c = sep)) as [Hc|Hc]; try done.
  - destruct Hc. by apply Hsep.
  - destruct Hf. by apply Hsep.
Qed.

End SeparatorKept.

Lemma ToLower_ascii (U : Unicode) (s : string) :
  isASCII s = true → ToLower U s = mapBytes lowerByte s.
Proof. intros Hs. unfold ToLower. by rewrite Hs. Qed.

(** On an ASCII file name the answer only depends on the lower-cased
    name. *)
Lemma DetectFormatFromFilename_lower (U : Unicode) (filename : string) :
  isASCII filename = true →
  DetectFormatFromFilename U filename =
  DetectFormatFromFilename U (mapBytes lowerByte filename).
Proof.
  intros Hascii. unfold DetectFormatFromFilename, LastIndex, sliceFrom. cbv zeta.
  rewrite !(LastIndex_from_mapBytes lowerByte _ lowerByte_slash).
  rewrite !(LastIndex_from_mapBytes lowerByte _ lowerByte_dot).
  rewrite !drop_mapBytes.
  change "." with (String "."%char EmptyString) at 2 4.
  rewrite (TrimPrefix_mapBytes lowerByte _ lowerByte_dot).
  assert (∀ s, isASCII s = true →
               ToLower U (mapBytes lowerByte s) = ToLower U s) as Hlow.
  { intros s Hs. rewrite !ToLower_ascii by (by rewrite ?isASCII_lower).
    apply mapBytes_lower_idem. }
  rewrite !Hlow; [done | done | | by apply isASCII_drop].
  unfold TrimPrefix. destruct (HasPrefix _ _); by repeat apply isASCII_drop.
Qed.

(** X16. Filename detection is insensitive to letter case on ASCII
    names: two ASCII file names with the same lower-cased form get the
    same answer. *)
Theorem filename_detection_ignores_case (U : Unicode) (name1 name2 : string) :
  isASCII name1 = true → isASCII name2 = true →
  ToLower U name1 = ToLower U name2 →
  DetectFormatFromFilename U name1 = DetectFormatFromFilename U name2.
Proof.
  intros H1 H2 Hsame. rewrite !ToLower_ascii in Hsame by done.
  rewrite (DetectFormatFromFilename_lower U name1 H1).
  rewrite (DetectFormatFromFilename_lower U name2 H2).
  by rewrite Hsame.
Qed.

Lemma filename_detection_ignores_case_witness :
  DetectFormatFromFilename ascii_only "Conf/Settings.YAML" =
  DetectFormatFromFilename ascii_only "conf/settings.Yaml".
Proof.
  apply (filename_detection_ignores_case ascii_only); reflexivity.
Defined.

Lemma afterLast_app (a s t : string) (sep : ascii) :
  afterLast s sep = Some t → afterLast (a +:+ s) sep = Some t.
Proof.
  intros Hs. induction a as [|c a IH]; [done|].
  change (String c a +:+ s) with (String c (a +:+ s)). cbn [afterLast]. by rewrite IH.
Qed.

Lemma afterLast_absent (s : string) (sep : ascii) :
  Contains s (String sep EmptyString) = false → afterLast s sep = None.
Proof.
  intros Hc. pose proof (LastIndex_absent sep s) as Habs. rewrite Hc in Habs.
  unfold LastIndex in Habs. rewrite LastIndex_from_afterLast in Habs by lia.
  destruct (afterLast s sep) as [t|]; [|done].
  apply Z.eqb_eq in Habs. lia.
Qed.

(** X17. The directory part of a path never affects the Dockerfile
    name test: a last segment that is, lower-cased, [dockerfile] or starts
    with [dockerfile.] is answered Dockerfile in any directory, whatever
    the extension. *)
Theorem dockerfile_name_in_any_directory (U : Unicode) (dir name : string) :
  Contains name "/" = false →
  ToLower U name = "dockerfile" ∨ HasPrefix (ToLower U name) "dockerfile." = true →
  DetectFormatFromFilename U name = FormatDockerfile ∧
  DetectFormatFromFilename U (dir +:+ "/" +:+ name) = FormatDockerfile.
Proof.
  intros Hslash Hname.
  assert (afterLast name "/"%char = None) as Hnone by (by apply afterLast_absent).
  assert (lastField name "/"%char = name) as Hbase1.
  { rewrite lastField_afterLast. by rewrite Hnone. }
  assert (lastField (dir +:+ "/" +:+ name) "/"%char = name) as Hbase2.
  { rewrite lastField_afterLast.
    rewrite (afterLast_app dir (String "/"%char name) name); [done|].
    cbn [afterLast]. rewrite Hnone. by rewrite decide_True. }
  assert ((bool_decide (ToLower U name = "dockerfile") ||
           HasPrefix (ToLower U name) "dockerfile.") = true) as Htest.
  { destruct Hname as [-> | ->]; [done | by rewrite orb_true_r]. }
  unfold DetectFormatFromFilename. cbv zeta.
  change ("dockerfile" +:+ ".") with "dockerfile.".
  rewrite !sliceFrom_LastIndex_succ, Hbase1, Hbase2. by rewrite Htest.
Qed.

Lemma dockerfile_name_in_any_directory_witness :
  DetectFormatFromFilename ascii_only "Dockerfile.json" = FormatDockerfile ∧
  DetectFormatFromFilename ascii_only ("services/api.v2" +:+ "/" +:+ "Dockerfile.json")
    = FormatDockerfile.
Proof.
  apply (dockerfile_name_in_any_directory ascii_only "services/api.v2" "Dockerfile.json").
  - reflexivity.
  - right. reflexivity.
Defined.

(** ** The command-line front end *)

Section CLIFacts.
Context (U : Unicode) (P : Parsers).

Lemma outcome_wrap (m : Traced Result) (filename : string) :
  outcome (result <- m ;; ret (Some (CLI.wrap result filename))) =
    Some (CLI.wrap (outcome m) filename).
Proof. by rewrite outcome_bind. Qed.

Lemma ValidateAuto_Format (data : string) :
  Format_ (outcome (ValidateAuto U P data)) = DetectFormat U data.
Proof.
  unfold ValidateAuto. cbv zeta.
  destruct (decide (DetectFormat U data = FormatUnknown)) as [Hu|Hd].
  { rewrite bool_decide_eq_true_2 by done. by rewrite Hu. }
  rewrite bool_decide_eq_false_2 by done.
  destruct (DetectFormat_detectable U data) as [? | Hreg]; [done|].
  destruct (validatorMap_registered _ Hreg) as (constructor & Hlook & Hf).
  unfold NewValidator. rewrite Hlook.
  destruct (Validate_Format U P (constructor tt) data) as [-> _]. exact Hf.
Qed.

Lemma calls_wrap (m : Traced Result) (filename : string) :
  calls (result <- m ;; ret (Some (CLI.wrap result filename))) = calls m.
Proof. rewrite calls_bind. cbn [ret calls snd]. apply app_nil_r. Qed.

End CLIFacts.

(** X18. [validateData] never reaches the method call on a nil
    validator, although it drops the error of [NewValidator] in its auto
    branch: it always returns a result, and that result names the file it
    was given. In auto mode the format reported is the one of the file name
    when the file name has one, whatever the content looks like, and
    otherwise the one detected from the content. *)
Theorem validateData_always_answers (U : Unicode) (P : Parsers)
    (data filename format : string) :
  ∃ vr, outcome (CLI.validateData U P data filename format) = Some vr ∧
        CLI.vrFileName vr = filename ∧
        (format = "auto" →
           CLI.vrFormat vr =
             if decide (DetectFormatFromFilename U filename = FormatUnknown)
             then DetectFormat U data
             else DetectFormatFromFilename U filename).
Proof.
  unfold CLI.validateData. cbv zeta.
  destruct (decide (format = "auto")) as [->|Hauto].
  - rewrite bool_decide_eq_true_2 by done.
    destruct (decide (DetectFormatFromFilename U filename = FormatUnknown)) as [Hunk|Hdet].
    + rewrite bool_decide_eq_true_2 by done. cbn [negb]. rewrite outcome_wrap.
      eexists. split; [reflexivity|]. split; [done|]. intros _. cbn [CLI.wrap CLI.vrFormat].
      apply ValidateAuto_Format.
    + rewrite bool_decide_eq_false_2 by done. cbn [negb].
      destruct (DetectFormatFromFilename_detectable U filename) as [? | Hreg]; [done|].
      destruct (validatorMap_registered _ Hreg) as (constructor & Hlook & Hf).
      unfold NewValidator. rewrite Hlook. rewrite outcome_wrap.
      eexists. split; [reflexivity|]. split; [done|]. intros _. cbn [CLI.wrap CLI.vrFormat].
      destruct (Validate_Format U P (constructor tt) data) as [-> _]. exact Hf.
  - rewrite bool_decide_eq_false_2 by done.
    destruct (CLI.formatType format) as [f|]; [|by eexists].
    destruct (NewValidator f); [|by eexists].
    rewrite outcome_wrap. by eexists.
Qed.

(** X19. With an explicit format flag [validateData] only knows [json],
    [yaml], [xml] and [toml]: for these it returns the verdict of the
    validator of that format; every other flag, the other ten registered
    formats included, is answered [unsupported format] without any parser
    being called. *)
Theorem validateData_explicit_format (U : Unicode) (P : Parsers)
    (data filename format : string) :
  format ≠ "auto" →
  (format ∉ ["json"; "yaml"; "xml"; "toml"] →
     CLI.validateData U P data filename format =
       ret (Some {| CLI.vrValid := false; CLI.vrFormat := format;
                    CLI.vrError := "unsupported format";
                    CLI.vrFileName := filename |})) ∧
  (format ∈ ["json"; "yaml"; "xml"; "toml"] →
     ∃ validator,
       NewValidator format = inl validator ∧
       outcome (CLI.validateData U P data filename format) =
         Some (CLI.wrap (outcome (Validate U P validator data)) filename) ∧
       calls (CLI.validateData U P data filename format) =
         calls (Validate U P validator data)).
Proof.
  intros Hauto. unfold CLI.validateData. cbv zeta.
  rewrite bool_decide_eq_false_2 by done. split.
  - rewrite !not_elem_of_cons. intros (? & ? & ? & ? & _).
    unfold CLI.formatType. by rewrite !decide_False by done.
  - rewrite !elem_of_cons, elem_of_nil.
    intros [-> | [-> | [-> | [-> | []]]]]; eexists;
      (split; [vm_compute; reflexivity|]);
      (split; [apply outcome_wrap | apply calls_wrap]).
Qed.

Lemma validateData_explicit_format_witness :
  (∃ validator, NewValidator "csv" = inl validator) ∧
  CLI.validateData ascii_only toy_parsers "a,b" "table.csv" "csv" =
    ret (Some {| CLI.vrValid := false; CLI.vrFormat := "csv";
                 CLI.vrError := "unsupported format"; CLI.vrFileName := "table.csv" |}).
Proof.
  split; [by eexists|].
  apply (validateData_explicit_format ascii_only toy_parsers "a,b" "table.csv" "csv").
  - discriminate.
  - rewrite !not_elem_of_cons. repeat split; try discriminate. apply not_elem_of_nil.
Defined.

(** ** Which files a directory walk validates *)

Lemma afterLast_rev_app (r s t : string) (sep : ascii) :
  afterLast s sep = Some t → afterLast (String.rev_app r s) sep = Some t.
Proof.
  revert s. induction r as [|c r IH]; intros s Hs; [done|].
  cbn [String.rev_app]. apply IH. cbn [afterLast]. by rewrite Hs.
Qed.

Lemma Ext_scan_afterLast (r acc x : string) :
  afterLast acc "."%char = None →
  CLI.Ext_scan r acc = String "."%char x →
  afterLast (String.rev_app r acc) "."%char = Some x.
Proof.
  revert acc. induction r as [|c r IH]; intros acc Hacc; [done|].
  cbn [CLI.Ext_scan String.rev_app].
  destruct (decide (c = "/"%char)); [done|].
  destruct (decide (c = "."%char)) as [->|Hdot].
  - intros [= <-]. apply afterLast_rev_app. cbn [afterLast]. rewrite Hacc.
    by rewrite decide_True.
  - apply IH. cbn [afterLast]. rewrite Hacc. by rewrite decide_False.
Qed.

Lemma rev_app_rev (s acc : string) :
  String.rev_app (String.rev_app s acc) EmptyString =
  String.rev_app acc s.
Proof. revert acc. induction s as [|c s IH]; intros acc; [done|]. apply IH. Qed.

Lemma Ext_afterLast (path x : string) :
  CLI.Ext path = String "."%char x → afterLast path "."%char = Some x.
Proof.
  unfold CLI.Ext. intros Hext.
  apply Ext_scan_afterLast in Hext; [|done].
  unfold String.rev in Hext.
  pose proof (rev_app_rev path EmptyString) as Hrev. cbn [String.rev_app] in Hrev.
  (* rev (rev path) = path *)
  assert (String.rev_app (String.rev_app path EmptyString) EmptyString = path) as Hpath.
  { rewrite rev_app_rev. done. }
  by rewrite Hpath in Hext.
Qed.

Lemma Ext_scan_shape (r acc : string) :
  CLI.Ext_scan r acc = EmptyString ∨ ∃ x, CLI.Ext_scan r acc = String "."%char x.
Proof.
  revert acc. induction r as [|c r IH]; intros acc; [by left|].
  cbn [CLI.Ext_scan]. destruct (decide _); [by left|].
  destruct (decide (c = "."%char)) as [->|]; [right; by eexists | apply IH].
Qed.

Lemma afterLast_isASCII (s t : string) (sep : ascii) :
  afterLast s sep = Some t → isASCII s = true → isASCII t = true.
Proof.
  revert t. induction s as [|c s IH]; intros t; [done|]. cbn [afterLast isASCII].
  intros Hlast [_ Hs]%andb_true_iff.
  destruct (afterLast s sep) as [t'|].
  - injection Hlast as <-. by apply IH.
  - destruct (decide (c = sep)); [|done]. by injection Hlast as <-.
Qed.

(** X20. In auto mode a directory walk only hands on files whose
    extension is [.json], [.yaml], [.yml], [.xml] or [.toml], and for each
    such ASCII file name the file name alone decides the format: filename
    detection answers the format of the extension, or Dockerfile for a
    Dockerfile name, never [unknown], so content detection is never
    consulted for walked files. With any other format flag every file is
    handed on. *)
Theorem walked_files_have_a_filename_format (U : Unicode) (filename format : string) :
  (format ≠ "auto" → CLI.isValidatableFile U filename format = true) ∧
  (isASCII filename = true →
   CLI.isValidatableFile U filename "auto" = true →
   DetectFormatFromFilename U filename ∈
     [FormatJSON; FormatYAML; FormatXML; FormatTOML; FormatDockerfile]).
Proof.
  split.
  { intros Hne. unfold CLI.isValidatableFile. cbv zeta.
    by rewrite bool_decide_eq_false_2. }
  intros Hascii. unfold CLI.isValidatableFile. cbv zeta.
  rewrite bool_decide_eq_true_2 by done. cbn [negb].
  destruct (Ext_scan_shape (String.rev filename) EmptyString) as [Hext | [x Hext]];
    fold (CLI.Ext filename) in Hext; rewrite Hext.
  { by vm_compute. }
  pose proof (Ext_afterLast filename x Hext) as Hlast.
  pose proof (afterLast_isASCII _ _ _ Hlast Hascii) as Hx.
  assert (ToLower U (String "."%char x) = String "."%char (ToLower U x)) as ->.
  { rewrite !ToLower_ascii by (done || by cbn [isASCII]; rewrite Hx). done. }
  intros Hvalid.
  assert (ToLower U x ∈ ["json"; "yaml"; "yml"; "xml"; "toml"]) as Hin.
  { cbn [CLI.isValidExt] in Hvalid.
    repeat (match type of Hvalid with
            | (if decide (?a = ?b) then _ else _) = true =>
                destruct (decide (a = b)) as [Heq|_];
                [injection Heq as ->; repeat constructor|]
            end).
    done. }
  unfold DetectFormatFromFilename. cbv zeta.
  destruct (_ || _); [repeat constructor|].
  rewrite LastIndex_absent.
  assert (Contains filename "." = true) as Hdot.
  { destruct (Contains filename ".") eqn:Hc; [done|].
    apply afterLast_absent in Hc. congruence. }
  rewrite Hdot. cbn [negb].
  rewrite TrimPrefix_sliceFrom_LastIndex by done.
  rewrite lastField_afterLast, Hlast. cbn [from_option id].
  rewrite !elem_of_cons, elem_of_nil in Hin.
  destruct Hin as [-> | [-> | [-> | [-> | [-> | []]]]]]; vm_compute; repeat constructor.
Qed.

Lemma walked_files_have_a_filename_format_witness :
  CLI.isValidatableFile ascii_only "deploy/Dockerfile.YML" "auto" = true ∧
  DetectFormatFromFilename ascii_only "deploy/Dockerfile.YML" ∈
    [FormatJSON; FormatYAML; FormatXML; FormatTOML; FormatDockerfile].
Proof.
  split; [reflexivity|].
  apply (proj2 (walked_files_have_a_filename_format ascii_only
                  "deploy/Dockerfile.YML" "auto")); reflexivity.
Defined.

(** ** Detection ignores surrounding white space *)

Lemma rev_app_app (a b acc : string) :
  String.rev_app (a +:+ b) acc = String.rev_app b (String.rev_app a acc).
Proof.
  revert acc. induction a as [|c a IH]; intros acc; [done|].
  change (String c a +:+ b) with (String c (a +:+ b)). cbn [String.rev_app]. apply IH.
Qed.

Lemma rev_app_acc (a acc : string) :
  String.rev_app a acc = String.rev_app a EmptyString +:+ acc.
Proof.
  revert acc. induction a as [|c a IH]; intros acc; [done|].
  cbn [String.rev_app]. rewrite (IH (String c acc)), (IH (String c EmptyString)).
  generalize (String.rev_app a EmptyString) as r. intros r.
  induction r as [|d r IHr]; [done|].
  change (String d r +:+ String c acc) with (String d (r +:+ String c acc)).
  change (String d r +:+ String c EmptyString) with (String d (r +:+ String c EmptyString)).
  change (String d (r +:+ String c EmptyString) +:+ acc)
    with (String d ((r +:+ String c EmptyString) +:+ acc)).
  by rewrite IHr.
Qed.

Lemma allSpace_rev_app (a acc : string) :
  allSpace a = true → allSpace acc = true → allSpace (String.rev_app a acc) = true.
Proof.
  revert acc. induction a as [|c a IH]; intros acc Ha Hacc; [done|].
  cbn [allSpace] in Ha. apply andb_true_iff in Ha as [Hc Ha].
  cbn [String.rev_app]. apply IH; [done|]. cbn [allSpace]. by rewrite Hc, Hacc.
Qed.

Section PaddingFacts.
Context (U : Unicode).

Lemma TrimSpace_leading (pre s : string) :
  allSpace pre = true → TrimSpace U (pre +:+ s) = TrimSpace U s.
Proof.
  induction pre as [|c pre IH]; [done|]. cbn [allSpace].
  rewrite !andb_true_iff, negb_true_iff. intros [[Hascii Hspace] Hpre].
  change (String c pre +:+ s) with (String c (pre +:+ s)). cbn [TrimSpace].
  rewrite Hascii, Hspace. by apply IH.
Qed.

Lemma TrimSpace_stop_leading (q r : string) :
  allSpace q = true → TrimSpace_stop U (q +:+ r) = TrimSpace_stop U r.
Proof.
  induction q as [|c q IH]; [done|]. cbn [allSpace].
  rewrite !andb_true_iff, negb_true_iff. intros [[Hascii Hspace] Hq].
  change (String c q +:+ r) with (String c (q +:+ r)). cbn [TrimSpace_stop].
  rewrite Hascii, Hspace. by apply IH.
Qed.

Lemma TrimSpace_trailing (c : ascii) (s post : string) :
  isRuneSelf c = false → Ascii.is_space c = false → allSpace post = true →
  TrimSpace U (String c s +:+ post) = TrimSpace U (String c s).
Proof.
  intros Hascii Hspace Hpost.
  change (String c s +:+ post) with (String c (s +:+ post)). cbn [TrimSpace].
  rewrite Hascii, Hspace. unfold String.rev.
  change (String c (s +:+ post)) with (String c s +:+ post).
  rewrite rev_app_app, rev_app_acc.
  apply TrimSpace_stop_leading. by apply allSpace_rev_app.
Qed.

End PaddingFacts.

(** X21. Detection ignores ASCII white space around the content: for a
    buffer that starts with an ASCII byte that is not white space, adding
    ASCII white space (blanks, tabs, newlines) before and after it does
    not change the answer of [DetectFormat]. *)
Theorem DetectFormat_ignores_padding (U : Unicode) (pre post : string)
    (c : ascii) (s : string) :
  isRuneSelf c = false → Ascii.is_space c = false →
  allSpace pre = true → allSpace post = true →
  DetectFormat U (pre +:+ (String c s +:+ post)) = DetectFormat U (String c s).
Proof.
  intros Hascii Hspace Hpre Hpost. unfold DetectFormat.
  by rewrite (TrimSpace_leading U pre _ Hpre),
             (TrimSpace_trailing U c s post Hascii Hspace Hpost).
Qed.

Lemma DetectFormat_ignores_padding_witness :
  DetectFormat ascii_only
    (String nl "  " +:+ ("name,age" +:+ String nl "John,30" +:+ String nl "   "))
  = DetectFormat ascii_only ("name,age" +:+ String nl "John,30").
Proof.
  apply (DetectFormat_ignores_padding ascii_only (String nl "  ") (String nl "   ")
           "n"%char ("ame,age" +:+ String nl "John,30")); reflexivity.
Defined.

(** ** A validator only calls its own parser *)

Section CallFacts.
Context (U : Unicode) (P : Parsers).

Lemma JSONLValidator_loop_calls_bound v i lines :
  Forall (λ c, c.1 = PJSON) (calls (JSONLValidator_loop U P v i lines)) ∧
  length (calls (JSONLValidator_loop U P v i lines)) ≤ length lines.
Proof.
  revert i. induction lines as [|line rest IH]; intros i.
  { split; [constructor | done]. }
  cbn [JSONLValidator_loop length]. cbv zeta.
  destruct (decide _).
  - destruct (IH (i + 1)) as [Hall Hlen]. split; [done | lia].
  - rewrite calls_bind. cbn [invoke calls outcome fst snd].
    destruct (json_Unmarshal P _).
    + split; [by repeat constructor | cbn; lia].
    + destruct (IH (i + 1)) as [Hall Hlen]. cbn [app length].
      split; [by constructor | lia].
Qed.

End CallFacts.

(** X22. A validator never falls back to another format's parser: every
    parser call a validator makes goes to its own parsing library (none
    for Requirements and Dockerfile), every validator but JSON-Lines makes
    at most one call, and JSON-Lines at most one per line. The same
    holds for [ValidateAuto], which therefore never tries a second format. *)
Theorem validator_calls_only_its_parser (U : Unicode) (P : Parsers)
    (validator : Validator) (data : string) :
  Forall (λ c, Some c.1 = validatorParser validator)
         (calls (Validate U P validator data)) ∧
  length (calls (Validate U P validator data)) ≤
    (if validator is JSONLValidator _ then length (Split data nl) else 1) ∧
  ∃ p, Forall (λ c, c.1 = p) (calls (ValidateAuto U P data)).
Proof.
  assert (∀ validator,
            Forall (λ c, Some c.1 = validatorParser validator)
                   (calls (Validate U P validator data)) ∧
            length (calls (Validate U P validator data)) ≤
              (if validator is JSONLValidator _ then length (Split data nl) else 1))
    as Hvalidate.
  { clear validator. intros validator.
    destruct validator as [v|v|v|v|v|v|v|v|v|v|v|v|v|v];
      cbn [Validate validatorParser].
    1-5, 7-10: (split; [by repeat constructor | done]).
    - unfold GraphQLValidator_Validate. destruct (len data =? 0).
      + split; [constructor | cbn; lia].
      + split; [by repeat constructor | done].
    - rewrite JSONLValidator_Validate_calls.
      destruct (JSONLValidator_loop_calls_bound U P v 0 (Split data nl)) as [Hall Hlen].
      split; [|done]. eapply Forall_impl; [exact Hall|]. by intros c ->.
    - unfold JupyterValidator_Validate. rewrite calls_bind.
      cbn [invoke calls outcome fst snd].
      destruct (json_Unmarshal_map P data) as [[msg|] notebook];
        repeat case_match; (split; [by repeat constructor | done]).
    - unfold RequirementsValidator_Validate. cbv zeta.
      destruct (RequirementsValidator_loop _ _ _ _); (split; [constructor | cbn; lia]).
    - unfold DockerfileValidator_Validate. cbv zeta.
      destruct (DockerfileValidator_loop _ _ _ _ _ _) as [res|[]];
        (split; [constructor | cbn; lia]). }
  destruct (Hvalidate validator) as [Hown Hlen].
  split; [exact Hown|]. split; [exact Hlen|].
  unfold ValidateAuto. cbv zeta.
  destruct (bool_decide _); [exists PJSON; constructor|].
  destruct (NewValidator _) as [chosen|]; [|exists PJSON; constructor].
  destruct (Hvalidate chosen) as [Hchosen _].
  destruct (validatorParser chosen) as [p|] eqn:Hp.
  - exists p. eapply Forall_impl; [exact Hchosen|]. intros c Hc. by injection Hc.
  - exists PJSON. eapply Forall_impl; [exact Hchosen|]. by intros c Hc.
Qed.

(** ** The shape [isJSON] and [isJSONLine] accept *)

Lemma rev_rev (s : string) : String.rev (String.rev s) = s.
Proof. unfold String.rev. by rewrite rev_app_rev. Qed.

Lemma HasSuffix_byte (t : string) (c : ascii) :
  HasSuffix t (String c EmptyString) = true ↔ ∃ r, t = r +:+ String c EmptyString.
Proof.
  unfold HasSuffix. change (String.rev (String c EmptyString)) with (String c EmptyString).
  split.
  - destruct (String.rev t) as [|d r] eqn:Hrev; [done|]. cbn [HasPrefix].
    destruct (decide (d = c)) as [->|]; [|done]. intros _.
    exists (String.rev r). rewrite <- (rev_rev t), Hrev. unfold String.rev.
    cbn [String.rev_app]. apply rev_app_acc.
  - intros [r ->]. unfold String.rev. rewrite rev_app_app. cbn [String.rev_app HasPrefix].
    rewrite decide_True by done. apply HasPrefix_empty.
Qed.

Lemma HasPrefix_byte (t : string) (c : ascii) :
  HasPrefix t (String c EmptyString) = true ↔ ∃ r, t = String c r.
Proof.
  split.
  - destruct t as [|d r]; [done|]. cbn [HasPrefix].
    destruct (decide (d = c)) as [->|]; [by exists r | done].
  - intros [r ->]. cbn [HasPrefix]. rewrite decide_True by done. apply HasPrefix_empty.
Qed.

Lemma wrapped_iff (t : string) (o c : ascii) :
  o ≠ c →
  HasPrefix t (String o EmptyString) && HasSuffix t (String c EmptyString) = true ↔
  ∃ mid, t = String o EmptyString +:+ mid +:+ String c EmptyString.
Proof.
  intros Hoc. rewrite andb_true_iff, HasPrefix_byte, HasSuffix_byte. split.
  - intros [[r1 ->] [r2 Hr2]]. destruct r2 as [|d mid].
    + injection Hr2 as Ho _. by destruct Hoc.
    + change (String d mid +:+ String c EmptyString)
        with (String d (mid +:+ String c EmptyString)) in Hr2.
      injection Hr2 as <- ->. by exists mid.
  - intros [mid ->]. split; [by eexists|]. by exists (String o mid).
Qed.

(** X23. [isJSON] and [isJSONLine] accept exactly the texts made of an
    opening brace, any bytes, and a closing brace, or of an opening
    bracket, any bytes, and a closing bracket: the opening and the closing
    byte are two distinct bytes of the text, so a lone brace or bracket is
    rejected and the shortest accepted texts have two bytes. *)
Theorem isJSON_wrapped (t : string) :
  (isJSON t = true ↔
     (∃ mid, t = "{" +:+ mid +:+ "}") ∨ (∃ mid, t = "[" +:+ mid +:+ "]")) ∧
  isJSONLine t = isJSON t.
Proof.
  assert (isJSONLine t = isJSON t) as Hsame.
  { unfold isJSON, isJSONLine. by destruct t. }
  split; [|exact Hsame]. rewrite <- Hsame. unfold isJSONLine.
  rewrite orb_true_iff.
  change "{" with (String "{"%char EmptyString).
  change "}" with (String "}"%char EmptyString).
  change "[" with (String "["%char EmptyString).
  change "]" with (String "]"%char EmptyString).
  by rewrite !wrapped_iff by done.
Qed.

(** ** The single-function version of detection and its successor *)

Section MonolithicFacts.
Context (U : Unicode).

Lemma validJSONLines_loop_eq (lines : list string) (n : nat) :
  Monolithic.validJSONLines_loop U lines n =
    default 0 (isJSONLines_loop U lines n).
Proof.
  revert n. induction lines as [|line rest IH]; intros n; [done|].
  cbn [Monolithic.validJSONLines_loop isJSONLines_loop]. cbv zeta.
  fold (isJSONLine (TrimSpace U line)).
  destruct (decide (TrimSpace U line = EmptyString)) as [Hb|Hb].
  - rewrite bool_decide_eq_true_2 by done. cbn [negb]. apply IH.
  - rewrite bool_decide_eq_false_2 by done. cbn [negb].
    destruct (isJSONLine _); cbn [negb]; [apply IH | done].
Qed.

Lemma monolithic_JSONLines (lines : list string) :
  (1 <? length lines) && (1 <? Monolithic.validJSONLines_loop U lines 0) =
  isJSONLines U lines.
Proof.
  unfold isJSONLines. rewrite validJSONLines_loop_eq.
  destruct (Nat.leb_spec (length lines) 1) as [Hlen|Hlen].
  - apply andb_false_intro1. apply Nat.ltb_ge. lia.
  - assert ((1 <? length lines) = true) as -> by (apply Nat.ltb_lt; lia).
    by destruct (isJSONLines_loop U lines 0).
Qed.

Lemma monolithic_JSON (trimmed : string) :
  (Monolithic.firstByteIs trimmed "{" || Monolithic.firstByteIs trimmed "[") &&
  ((HasPrefix trimmed "{" && HasSuffix trimmed "}") ||
   (HasPrefix trimmed "[" && HasSuffix trimmed "]")) =
  isJSON trimmed.
Proof.
  unfold isJSON. destruct trimmed as [|c s]; [done|].
  cbn [len Nat.eqb Monolithic.firstByteIs HasPrefix].
  rewrite !HasPrefix_empty.
  destruct (decide (c = "{"%char)) as [->|H1].
  { by rewrite bool_decide_eq_true_2. }
  rewrite (bool_decide_eq_false_2 _ H1).
  destruct (decide (c = "["%char)) as [->|H2].
  { by rewrite bool_decide_eq_true_2. }
  by rewrite (bool_decide_eq_false_2 _ H2).
Qed.

Lemma score_loop_eq (text : string) (patterns : list string) (n : nat) :
  Monolithic.score_loop text patterns n = n + countPatterns text patterns.
Proof.
  revert n. induction patterns as [|p rest IH]; intros n;
    cbn [Monolithic.score_loop countPatterns]; [lia|].
  rewrite IH. destruct (Contains text p); lia.
Qed.

Lemma hasPackagePattern_loop_eq (lines : list string) :
  Monolithic.hasPackagePattern_loop U lines = detectRequirements_loop U lines.
Proof.
  induction lines as [|line rest IH]; [done|].
  cbn [Monolithic.hasPackagePattern_loop detectRequirements_loop]. cbv zeta.
  rewrite IH. by destruct (negb _ && negb _), (ContainsAny _ _).
Qed.

Lemma isCSV_loop_eq (n i : nat) (lines : list string) (first : nat) :
  Monolithic.isCSV_loop n i lines first = detectCSV_loop n i lines first.
Proof.
  revert i. induction n as [|n IH]; intros i; [done|].
  cbn [Monolithic.isCSV_loop detectCSV_loop]. by rewrite IH.
Qed.

Lemma section_loop_eq (lines : list string) :
  Monolithic.section_loop U lines = isINI_loop U lines.
Proof.
  induction lines as [|line rest IH]; [done|].
  cbn [Monolithic.section_loop isINI_loop]. by rewrite IH.
Qed.

Lemma monolithic_CSV (trimmed : string) (lines : list string) :
  Contains trimmed "," && (1 <? length lines) &&
  match lines with
  | line0 :: _ =>
      Monolithic.isCSV_loop 4 1 lines (Count line0 ","%char) &&
      (0 <? Count line0 ","%char)
  | [] => false
  end = detectCSV trimmed lines.
Proof.
  unfold detectCSV.
  destruct (Contains trimmed ","); cbn [negb andb orb]; [|done].
  destruct lines as [|line0 rest]; [done|]. rewrite isCSV_loop_eq.
  destruct (Nat.leb_spec (length (line0 :: rest)) 1) as [Hlen|Hlen].
  { apply andb_false_intro1. apply Nat.ltb_ge. lia. }
  assert ((1 <? length (line0 :: rest)) = true) as -> by (apply Nat.ltb_lt; lia).
  cbn [andb lookup list_lookup].
  destruct (Nat.eqb_spec (Count line0 ","%char) 0) as [Hz|Hz].
  - rewrite Hz. apply andb_false_r.
  - assert ((0 <? Count line0 ","%char) = true) as -> by (apply Nat.ltb_lt; lia).
    apply andb_true_r.
Qed.

Lemma monolithic_scan (data : string) :
  Monolithic.DetectFormat U data =
    if len (TrimSpace U data) =? 0 then FormatUnknown
    else firstMatch (monolithicOrder U (TrimSpace U data)
                       (Split (TrimSpace U data) nl)).
Proof.
  unfold Monolithic.DetectFormat. cbv zeta.
  destruct (len (TrimSpace U data) =? 0); [reflexivity|].
  rewrite monolithic_JSONLines, monolithic_JSON, monolithic_CSV.
  rewrite !score_loop_eq, hasPackagePattern_loop_eq, section_loop_eq.
  cbn [Nat.add].
  unfold monolithicOrder. cbn [firstMatch].
  fold (isJupyterNotebook (TrimSpace U data)).
  destruct (isJupyterNotebook _); [reflexivity|].
  destruct (isJSONLines U _); [reflexivity|].
  destruct (isJSON _); [reflexivity|].
  fold (isXML (TrimSpace U data)).
  destruct (isXML _); [reflexivity|].
  fold (isDockerfile (ToUpper U (TrimSpace U data))).
  destruct (isDockerfile _); [reflexivity|].
  fold (isHCL (TrimSpace U data)).
  destruct (isHCL _); [reflexivity|].
  assert (∀ t, ((0 <? countPatterns t
                   [ "query "; "mutation "; "subscription "; "fragment "; "type ";
                     "interface "; "enum "; "input "; "scalar "; "schema " ]) &&
                Contains t "{" && Contains t "}") &&
               (Contains t (String "{"%char (String nl EmptyString)) ||
                Contains t "{ " ||
                (2 <=? countPatterns t
                   [ "query "; "mutation "; "subscription "; "fragment "; "type ";
                     "interface "; "enum "; "input "; "scalar "; "schema " ]))
               = isGraphQL t) as ->.
  { intros t. unfold isGraphQL. cbv zeta.
    destruct (countPatterns t _) as [|[|n]]; cbn [Nat.ltb Nat.leb Nat.eqb andb orb negb];
      by destruct (Contains t "{"), (Contains t "}"). }
  destruct (isGraphQL _); [reflexivity|].
  assert (∀ t ls, (0 <? length ls) &&
                  (match ls with
                   | line0 :: _ => HasPrefix line0 "#"
                   | [] => false
                   end ||
                   Contains t "```" || Contains t "**" || Contains t "~~" ||
                   (Contains t "[" && Contains t "]("))
                  = detectMarkdown t ls) as ->.
  { intros t ls. unfold detectMarkdown. by destruct ls. }
  destruct (detectMarkdown _ _); [reflexivity|].
  assert (∀ t ls, (Contains t "==" || Contains t ">=" ||
                   Contains t "<=" || Contains t "~=") &&
                  detectRequirements_loop U ls = detectRequirements U t ls) as ->.
  { intros t ls. unfold detectRequirements.
    by destruct (Contains t "=="), (Contains t ">="), (Contains t "<="),
         (Contains t "~="). }
  destruct (detectRequirements U _ _); [reflexivity|].
  destruct (detectCSV _ _); [reflexivity|].
  assert (∀ t ls, (Contains t "[" && Contains t "]") && isINI_loop U ls
                  = isINI U t ls) as ->.
  { intros t ls. unfold isINI. by destruct (Contains t "["), (Contains t "]"). }
  destruct (isINI U _ _); [reflexivity|].
  fold (isProtobuf (TrimSpace U data)).
  destruct (isProtobuf _); [reflexivity|].
  fold (isYAML_strict (TrimSpace U data)).
  destruct (isYAML_strict _); [reflexivity|].
  assert (∀ t, (Contains t "=" && negb (Contains t ":")) &&
               (negb (HasPrefix t "{") && negb (HasPrefix t "[") &&
                negb (HasPrefix t "<")) = isTOML t) as ->.
  { intros t. unfold isTOML. by destruct (Contains t "="), (Contains t ":"). }
  by destruct (isTOML _).
Qed.

Lemma isYAML_strict_isYAML (trimmed : string) :
  isYAML_strict trimmed = true → isYAML trimmed = true.
Proof.
  unfold isYAML_strict, isYAML.
  destruct (Contains trimmed "---"); [done|].
  destruct (Contains trimmed ":"), (Contains trimmed "://"),
    (Contains trimmed "type_url:"), (Contains trimmed "value:"); done.
Qed.

End MonolithicFacts.

(** X24. The single-function [DetectFormat] is a first-match scan over
    the same heuristics as its successor, in another order (XML before
    Dockerfile, Markdown and Requirements before CSV, INI before Protobuf)
    and with a stricter YAML test, for which three dashes alone do not
    suffice. *)
Theorem monolithic_first_match (U : Unicode) (data : string) :
  Monolithic.DetectFormat U data =
    (if len (TrimSpace U data) =? 0 then FormatUnknown
     else firstMatch (monolithicOrder U (TrimSpace U data)
                        (Split (TrimSpace U data) nl))) ∧
  (monolithicOrder U (TrimSpace U data) (Split (TrimSpace U data) nl)).*2 =
    [ FormatJupyter; FormatJSONL; FormatJSON; FormatXML; FormatDockerfile;
      FormatHCL; FormatGraphQL; FormatMarkdown; FormatRequirements; FormatCSV;
      FormatINI; FormatProtobuf; FormatYAML; FormatTOML ].
Proof.
  split; [apply monolithic_scan | reflexivity].
Qed.

(** X25. Splitting [DetectFormat] into family functions kept the JSON
    family as it was and lost no input: whenever either version answers
    Jupyter, JSON-Lines or JSON, both answer the same; and every buffer
    the single-function version classifies is still classified (not
    [unknown]) by the family version. *)
Theorem families_keep_monolithic_answers (U : Unicode) (data : string) :
  (Monolithic.DetectFormat U data ∈ [FormatJupyter; FormatJSONL; FormatJSON] ∨
   DetectFormat U data ∈ [FormatJupyter; FormatJSONL; FormatJSON] →
   Monolithic.DetectFormat U data = DetectFormat U data) ∧
  (Monolithic.DetectFormat U data ≠ FormatUnknown →
   DetectFormat U data ≠ FormatUnknown).
Proof.
  rewrite monolithic_scan, DetectFormat_scan.
  destruct (len (TrimSpace U data) =? 0).
  { split; [done | done]. }
  unfold monolithicOrder, detectionOrder. cbn [firstMatch].
  destruct (isJupyterNotebook _); [split; [done | intros _; fmt_ne]|].
  destruct (isJSONLines U _); [split; [done | intros _; fmt_ne]|].
  destruct (isJSON _); [split; [done | intros _; fmt_ne]|].
  split.
  - intros [Hin | Hin]; exfalso; revert Hin;
      repeat (match goal with
              | |- context [if ?c then _ else _] => destruct c
              end);
      rewrite !elem_of_cons, elem_of_nil;
      intros Hin; repeat (destruct Hin as [Hin | Hin]; [by vm_compute in Hin|]); done.
  - intros Hmono.
    destruct (isDockerfile _); [fmt_ne|].
    destruct (isHCL _); [fmt_ne|].
    destruct (isGraphQL _); [fmt_ne|].
    destruct (isProtobuf _); [fmt_ne|].
    destruct (detectCSV _ _); [fmt_ne|].
    destruct (detectMarkdown _ _); [fmt_ne|].
    destruct (detectRequirements U _ _); [fmt_ne|].
    destruct (isXML _); [fmt_ne|].
    destruct (isINI U _ _); [fmt_ne|].
    destruct (isYAML_strict _) eqn:Hstrict.
    { rewrite (isYAML_strict_isYAML _ Hstrict). fmt_ne. }
    destruct (isYAML _); [fmt_ne|].
    destruct (isTOML _); [fmt_ne | done].
Qed.

Lemma families_keep_monolithic_answers_witness :
  Monolithic.DetectFormat ascii_only "<a>FROM b</a>" = FormatXML ∧
  DetectFormat ascii_only "<a>FROM b</a>" = FormatDockerfile ∧
  DetectFormat ascii_only "<a>FROM b</a>" ≠ FormatUnknown.
Proof.
  split; [reflexivity|]. split; [reflexivity|].
  apply (proj2 (families_keep_monolithic_answers ascii_only "<a>FROM b</a>")).
  by vm_compute.
Defined.

Lemma validateData_always_answers_witness :
  ∃ vr, outcome (CLI.validateData ascii_only toy_parsers "key: value" "notes.json" "auto")
          = Some vr ∧
        CLI.vrFileName vr = "notes.json" ∧ CLI.vrFormat vr = FormatJSON.
Proof.
  destruct (validateData_always_answers ascii_only toy_parsers
              "key: value" "notes.json" "auto") as (vr & Hout & Hname & Hfmt).
  exists vr. split; [exact Hout|]. split; [exact Hname|].
  rewrite (Hfmt eq_refl). reflexivity.
Defined.
